(** * try-cb-golang: the REST backend of the travel sample, embedded in Rocq

    The first part of the development follows the layout of the Go
    package [server]:
    - [Go]: the few pieces of the Go runtime and standard library the
      handlers lean on (errors and their chains, [strings.SplitN]);
    - [Model]: the DTOs of [model.go] and the request and response structs
      of [handler.go];
    - [Json], [Time], [Jwt]: the packages the server calls
      ([encoding/json], [time], [jwt-go]), as interfaces with the part of
      their contract the handlers rely on;
    - [Http], [Mux]: requests, the response writer, and how [gorilla/mux]
      matches a request against the route table;
    - [Repo], [Server]: the [Repository] interface, [server.go] and
      [handler.go];
    - [CB]: the key-value half of [repository.go] over an in-memory bucket;
    - [Ref]: small executable instances of the interfaces, used to run the
      handlers on concrete requests (as [mockRepo] does in the Go tests);
    - [Spec]: the vocabulary of the statements;
    - [Bucket], [Math], [Flights], [Sample]: the states of the bucket, the
      price [GetFlightPaths] computes, and sample buckets and requests.

    The second part states and proves the properties: routing, the
    responses of the handlers, authentication, the tests of the Go
    package replayed on the embedding, the user methods of the repository
    on the bucket, and the server and the repository together. *)

From Stdlib Require Import ZArith String Ascii List Floats Lia.
From stdpp Require Import base strings gmap list pretty.

Set Warnings "-register-all".

Open Scope string_scope.
Open Scope list_scope.
Open Scope Z_scope.

(* ===================================================================== *)
(** ** Go runtime and standard library                                    *)
(* ===================================================================== *)

Module Go.

(** Go's [error] values as the server meets them: the two sentinel errors
    of [gocb] that the handlers test for, errors made with [errors.New]
    (or any other leaf error; only its message is observable), and errors
    that wrap another one ([Unwrap] returns [inner]), as [gocb] does when
    it reports a sentinel inside a [KeyValueError]. *)
Inductive error : Type :=
| ErrDocumentNotFound
| ErrDocumentExists
| errors_New (msg : string)
| Wrapped (msg : string) (inner : error).

(** A Go result pair [(v, err)]: [Ok v] is [(v, nil)], [Err e] is
    [(zero, e)]. *)
Inductive result (A : Type) : Type :=
| Ok (v : A)
| Err (e : error).
Arguments Ok {A} v.
Arguments Err {A} e.

(** [err.Error()] *)
Definition Error (e : error) : string :=
  match e with
  | ErrDocumentNotFound => "document not found"
  | ErrDocumentExists => "document exists"
  | errors_New msg => msg
  | Wrapped msg _ => msg
  end.

(** [errors.Unwrap(err)] *)
Definition errors_Unwrap (e : error) : option error :=
  match e with
  | Wrapped _ inner => Some inner
  | _ => None
  end.

(** Identity of a leaf error. Sentinels are compared by identity in Go;
    the two [gocb] sentinels are the only targets the server passes to
    [errors.Is], and no other error is identical to them. *)
Definition is_sentinel (target e : error) : bool :=
  match target, e with
  | ErrDocumentNotFound, ErrDocumentNotFound => true
  | ErrDocumentExists, ErrDocumentExists => true
  | _, _ => false
  end.

(** [errors.Is(err, target)] for a sentinel [target]: walks the [Unwrap]
    chain of [err]. A nil [err] is [None]. *)
Fixpoint chain_Is (e target : error) : bool :=
  is_sentinel target e ||
  match e with
  | Wrapped _ inner => chain_Is inner target
  | _ => false
  end.

Definition errors_Is (err : option error) (target : error) : bool :=
  match err with
  | None => false
  | Some e => chain_Is e target
  end.

(** The error half of a result pair. *)
Definition err_of {A} (r : result A) : option error :=
  match r with
  | Ok _ => None
  | Err e => Some e
  end.

(** First occurrence of the one-byte separator [sep] in [s]: the text
    before it and the text after it ([strings.Index] and the two slices
    [genSplit] takes). *)
Fixpoint cut (sep : ascii) (s : string) : option (string * string) :=
  match s with
  | EmptyString => None
  | String c s' =>
      if Ascii.eqb c sep then Some (EmptyString, s')
      else match cut sep s' with
           | Some (a, b) => Some (String c a, b)
           | None => None
           end
  end.

(** The loop of [genSplit]: at most [n] further cuts, the rest unsplit. *)
Fixpoint split_loop (sep : ascii) (n : nat) (s : string) : list string :=
  match n with
  | O => [s]
  | S n' =>
      match cut sep s with
      | None => [s]
      | Some (a, b) => a :: split_loop sep n' b
      end
  end.

(** [strings.SplitN(s, sep, n)] for a one-byte separator and [n >= 0]:
    nil for [n = 0], otherwise at most [n] substrings, the last one being
    the unsplit remainder. *)
Definition SplitN (s : string) (sep : ascii) (n : nat) : list string :=
  match n with
  | O => []
  | S n' => split_loop sep n' s
  end.

(** [strings.Split(s, sep)]: all the substrings between separators, the
    first one apart from the others. *)
Fixpoint split_all (sep : ascii) (s : string) : string * list string :=
  match s with
  | EmptyString => (EmptyString, [])
  | String c s' =>
      let (a, rest) := split_all sep s' in
      if Ascii.eqb c sep then (EmptyString, a :: rest) else (String c a, rest)
  end.

Definition Split (s : string) (sep : ascii) : list string :=
  let (a, rest) := split_all sep s in a :: rest.

(** [strings.Join(elems, sep)] *)
Fixpoint Join (elems : list string) (sep : ascii) : string :=
  match elems with
  | [] => EmptyString
  | [a] => a
  | a :: rest => a +:+ String sep (Join rest sep)
  end.

(** [strings.IndexByte(s, c) >= 0] *)
Fixpoint Contains (s : string) (c : ascii) : bool :=
  match s with
  | EmptyString => false
  | String c' s' => Ascii.eqb c' c || Contains s' c
  end.

(** The last byte of [s], if any. *)
Fixpoint last_byte (s : string) : option ascii :=
  match s with
  | EmptyString => None
  | String c EmptyString => Some c
  | String _ s' => last_byte s'
  end.

(** [s[len(s)-1] == c] on a string that may be empty. *)
Definition ends_with (s : string) (c : ascii) : bool :=
  match last_byte s with
  | Some c' => Ascii.eqb c' c
  | None => false
  end.

(** The loop of [path.Clean] over the elements of a path, the elements
    written so far in [out], most recent first. Empty elements and [.] are
    dropped; [..] removes the last element written when there is one to
    remove, is dropped at the root of a rooted path, and is kept in front
    of a path that is not rooted (where no later [..] removes it). *)
Fixpoint clean_elements (rooted : bool) (elems out : list string) : list string :=
  match elems with
  | [] => out
  | e :: rest =>
      if String.eqb e "" || String.eqb e "." then clean_elements rooted rest out
      else if String.eqb e ".." then
        match out with
        | written :: out' =>
            if String.eqb written ".."
            then clean_elements rooted rest (".." :: out)
            else clean_elements rooted rest out'
        | [] =>
            clean_elements rooted rest (if rooted then [] else [".."])
        end
      else clean_elements rooted rest (e :: out)
  end.

(** [path.Clean(path)]: the shortest path equivalent to [path]. *)
Definition path_Clean (path : string) : string :=
  if String.eqb path "" then "."
  else
    let rooted := String.prefix "/" path in
    let out := rev (clean_elements rooted (Split path "/") []) in
    if rooted then "/" +:+ Join out "/"
    else match out with
         | [] => "."
         | _ => Join out "/"
         end.

(** [utf8.ValidString]: the bytes of [s] are a sequence of well-formed
    UTF-8 encodings (no overlong form, no surrogate, nothing above
    U+10FFFF). *)
Definition byte_in (lo hi : N) (c : ascii) : bool :=
  let b := N_of_ascii c in (N.leb lo b && N.leb b hi)%bool.

Fixpoint utf8_ValidString (s : string) : bool :=
  match s with
  | EmptyString => true
  | String c0 s1 =>
      if byte_in 0 127 c0 then utf8_ValidString s1
      else
        match s1 with
        | EmptyString => false
        | String c1 s2 =>
            if byte_in 194 223 c0 then byte_in 128 191 c1 && utf8_ValidString s2
            else
              match s2 with
              | EmptyString => false
              | String c2 s3 =>
                  let second3 :=
                    if byte_in 224 224 c0 then byte_in 160 191 c1
                    else if byte_in 237 237 c0 then byte_in 128 159 c1
                    else byte_in 128 191 c1 in
                  if byte_in 224 239 c0
                  then second3 && byte_in 128 191 c2 && utf8_ValidString s3
                  else
                    match s3 with
                    | EmptyString => false
                    | String c3 s4 =>
                        let second4 :=
                          if byte_in 240 240 c0 then byte_in 144 191 c1
                          else if byte_in 244 244 c0 then byte_in 128 143 c1
                          else byte_in 128 191 c1 in
                        byte_in 240 244 c0 && second4 && byte_in 128 191 c2
                        && byte_in 128 191 c3 && utf8_ValidString s4
                    end
              end
        end
  end.

End Go.
Export Go.

(* ===================================================================== *)
(** ** model.go and the request/response structs of handler.go           *)
(* ===================================================================== *)

Module Model.

Definition float64 : Set := float.

Record jsonAirport := { airport_AirportName : string }.

Record jsonAirportInfo := {
  info_FromFaa : string;
  info_ToFaa : string
}.

Record jsonFlight := {
  flight_Name : string;
  flight_Flight : string;
  flight_Equipment : string;
  flight_Utc : string;
  flight_SourceAirport : string;
  flight_DestinationAirport : string;
  flight_Price : float64;
  flight_FlightTime : Z
}.

Record jsonHotel := {
  hotel_Country : string;
  hotel_City : string;
  hotel_State : string;
  hotel_Address : string;
  hotel_Name : string;
  hotel_Description : string
}.

Record jsonBookedFlight := {
  booked_Name : string;
  booked_Flight : string;
  booked_Price : float64;
  booked_Date : string;
  booked_SourceAirport : string;
  booked_DestinationAirport : string;
  booked_BookedOn : string
}.

Record jsonUser := {
  user_Name : string;
  user_Password : string;
  user_Flights : list string
}.

Record authedUser := { authed_Name : string }.

Definition jsonContext := list string.

(** [func (c *jsonContext) Add(msg string)] *)
Definition jsonContext_Add (c : jsonContext) (msg : string) : jsonContext :=
  c ++ [msg].

(** Response envelopes: [{"data": ..., "context": [...]}]. The zero value
    of a slice is nil, here the empty list. *)
Record envelope (D : Type) := {
  Data : D;
  Context : jsonContext
}.
Arguments Data {D} _.
Arguments Context {D} _.

Definition jsonAirportSearchResp := envelope (list jsonAirport).
Definition jsonFlightSearchResp := envelope (list jsonFlight).
Definition jsonHotelSearchResp := envelope (list jsonHotel).
Definition jsonUserFlightsResp := envelope (list jsonBookedFlight).

(** [Data struct { Token string }] of the login and signup responses. *)
Record tokenData := { Token : string }.
Definition jsonUserLoginResp := envelope tokenData.
Definition jsonUserSignupResp := envelope tokenData.

(** [Data struct { Added []jsonBookedFlight }] *)
Record addedData := { Added : list jsonBookedFlight }.
Definition jsonUserBookFlightResp := envelope addedData.

Record jsonUserLoginReq := {
  login_User : string;
  login_Password : string
}.

Record jsonUserSignupReq := {
  signup_User : string;
  signup_Password : string
}.

Record jsonUserBookFlightReq := { book_Flights : list jsonBookedFlight }.

(** The zero value [var respData T] of an envelope. *)
Definition zero_envelope {D} (d : D) : envelope D :=
  {| Data := d; Context := [] |}.

End Model.
Export Model.

(* ===================================================================== *)
(** ** encoding/json                                                      *)
(* ===================================================================== *)

Module Json.

(** What the server hands to [json.NewEncoder(w).Encode]. *)
Inductive Payload : Type :=
| PAirportSearch (r : jsonAirportSearchResp)
| PFlightSearch (r : jsonFlightSearchResp)
| PHotelSearch (r : jsonHotelSearchResp)
| PUserLogin (r : jsonUserLoginResp)
| PUserSignup (r : jsonUserSignupResp)
| PUserFlights (r : jsonUserFlightsResp)
| PUserBookFlight (r : jsonUserBookFlightResp).

(** A JSON document on the wire, identified with the value it denotes:
    the failure object [{"failure": msg}] of [writeJsonFailure], or an
    encoded payload. [fileBytes] is what the static file server writes,
    which is not JSON. *)
Inductive Document : Type :=
| failObj (Failure : string)
| dataObj (p : Payload)
| fileBytes (content : string).

(** The floats a payload carries, in encoding order. *)
Definition floats (p : Payload) : list float64 :=
  match p with
  | PFlightSearch r => map flight_Price (Data r)
  | PUserFlights r => map booked_Price (Data r)
  | PUserBookFlight r => map booked_Price (Added (Data r))
  | _ => []
  end.

Definition finite (f : float64) : bool :=
  negb (PrimFloat.is_nan f || PrimFloat.is_infinity f).

(** [strconv.FormatFloat] of a float that is not finite. *)
Definition FormatNonFinite (f : float64) : string :=
  if PrimFloat.is_nan f then "NaN"
  else if PrimFloat.ltb f PrimFloat.zero then "-Inf" else "+Inf".

(** [Encode]: strings, integers and slices of the DTOs always encode; a
    float that is NaN or infinite is an [UnsupportedValueError]. *)
Definition Encode (p : Payload) : result Document :=
  match List.find (fun f => negb (finite f)) (floats p) with
  | Some f => Err (errors_New ("json: unsupported value: " +:+ FormatNonFinite f))
  | None => Ok (dataObj p)
  end.

(** The length of the well-formed UTF-8 encoding [s] starts with, 0 when
    it starts with none. *)
Definition rune_len (s : string) : nat :=
  match s with
  | EmptyString => 0
  | String c0 s1 =>
      if byte_in 0 127 c0 then 1
      else
        match s1 with
        | EmptyString => 0
        | String c1 s2 =>
            if byte_in 194 223 c0 then (if byte_in 128 191 c1 then 2 else 0)
            else
              match s2 with
              | EmptyString => 0
              | String c2 s3 =>
                  let second3 :=
                    if byte_in 224 224 c0 then byte_in 160 191 c1
                    else if byte_in 237 237 c0 then byte_in 128 159 c1
                    else byte_in 128 191 c1 in
                  if byte_in 224 239 c0
                  then (if second3 && byte_in 128 191 c2 then 3 else 0)
                  else
                    match s3 with
                    | EmptyString => 0
                    | String c3 _ =>
                        let second4 :=
                          if byte_in 240 240 c0 then byte_in 144 191 c1
                          else if byte_in 244 244 c0 then byte_in 128 143 c1
                          else byte_in 128 191 c1 in
                        if byte_in 240 244 c0 && second4 && byte_in 128 191 c2
                           && byte_in 128 191 c3
                        then 4 else 0
                    end
              end
        end
  end%nat.

(** U+FFFD, the replacement character, in UTF-8. *)
Definition RuneError : string :=
  String (ascii_of_N 239) (String (ascii_of_N 191) (String (ascii_of_N 189) EmptyString)).

(** A string as [encoding/json] writes it and reads it back: coerced to
    valid UTF-8, each byte that starts no well-formed encoding replaced by
    U+FFFD. [pending] counts the bytes still to copy of the encoding the
    loop is in. *)
Fixpoint coerce_from (pending : nat) (s : string) : string :=
  match s with
  | EmptyString => EmptyString
  | String c s' =>
      match pending with
      | S k => String c (coerce_from k s')
      | O =>
          match rune_len s with
          | O => RuneError +:+ coerce_from 0 s'
          | S k => String c (coerce_from k s')
          end
      end
  end.

Definition coerce_string (s : string) : string :=
  if utf8_ValidString s then s else coerce_from 0 s.

(** [json.NewDecoder(body).Decode(&v)] for the three request structs: the
    parser is the library's, the server only sees its result. *)
Class Decoder : Type := {
  Decode_UserLoginReq : string -> result jsonUserLoginReq;
  Decode_UserSignupReq : string -> result jsonUserSignupReq;
  Decode_UserBookFlightReq : string -> result jsonUserBookFlightReq
}.

End Json.

(* ===================================================================== *)
(** ** time                                                               *)
(* ===================================================================== *)

Module Time.

(** [type Weekday int], [Sunday = iota]. *)
Inductive Weekday : Set :=
| Sunday | Monday | Tuesday | Wednesday | Thursday | Friday | Saturday.

(** The conversion [int(d)]. *)
Definition int (d : Weekday) : Z :=
  match d with
  | Sunday => 0 | Monday => 1 | Tuesday => 2 | Wednesday => 3
  | Thursday => 4 | Friday => 5 | Saturday => 6
  end.

(** [time.Parse(layout, value)] and [(Time).Weekday()]. *)
Class Lib : Type := {
  Time : Type;
  Parse : string -> string -> result Time;
  Weekday_of : Time -> Weekday
}.

End Time.

(* ===================================================================== *)
(** ** github.com/dgrijalva/jwt-go                                        *)
(* ===================================================================== *)

Module Jwt.

(** The signing methods the package registers. *)
Inductive SigningMethod : Set :=
| SigningMethodHS256 | SigningMethodHS384 | SigningMethodHS512
| SigningMethodRS256 | SigningMethodRS384 | SigningMethodRS512
| SigningMethodPS256 | SigningMethodPS384 | SigningMethodPS512
| SigningMethodES256 | SigningMethodES384 | SigningMethodES512
| SigningMethodNone.

(** [m.Alg()] *)
Definition Alg (m : SigningMethod) : string :=
  match m with
  | SigningMethodHS256 => "HS256" | SigningMethodHS384 => "HS384"
  | SigningMethodHS512 => "HS512"
  | SigningMethodRS256 => "RS256" | SigningMethodRS384 => "RS384"
  | SigningMethodRS512 => "RS512"
  | SigningMethodPS256 => "PS256" | SigningMethodPS384 => "PS384"
  | SigningMethodPS512 => "PS512"
  | SigningMethodES256 => "ES256" | SigningMethodES384 => "ES384"
  | SigningMethodES512 => "ES512"
  | SigningMethodNone => "none"
  end.

(** The type assertion [m.( *jwt.SigningMethodHMAC)]: the three HS methods
    are the values of that type. *)
Definition is_SigningMethodHMAC (m : SigningMethod) : bool :=
  match m with
  | SigningMethodHS256 | SigningMethodHS384 | SigningMethodHS512 => true
  | _ => false
  end.

(** An [interface{}] holding a decoded JSON value, as the entries of a
    header or of [MapClaims] are. *)
Inductive value : Type :=
| VString (s : string)
| VNumber (f : float)
| VBool (b : bool)
| VNull
| VComposite.

(** [type MapClaims map[string]interface{}] *)
Abbreviation MapClaims := (gmap string value).

(** [jwt.Token]; [Method] is never nil in a token the parser returns. *)
Record Token := {
  Raw : string;
  Method : SigningMethod;
  Header : gmap string value;
  Claims : MapClaims;
  Signature : string;
  Valid : bool
}.

(** Keys are byte strings ([[]byte]); the server uses no other kind. *)
Abbreviation Key := string (only parsing).

(** [type Keyfunc], a function from a token to a key or an error. *)
Abbreviation Keyfunc := (Token -> result string) (only parsing).

(** The primitives of the package:
    - [SigningString m c]: the first two segments of a token for claims [c]
      under method [m], [base64(header) . base64(claims)];
    - [Sign m s key]: the encoded signature of the signing string [s];
    - [Verify m s sig key]: nil ([None]) when [sig] is the signature of [s]
      under [key];
    - [ParseUnverified raw]: splits [raw] into its three segments and
      decodes the first two: the token (signature not yet set, not yet
      valid), its signing string and its signature segment;
    - [Claims_Valid c]: the time-based checks of [exp], [iat] and [nbf]. *)
Class Lib : Type := {
  SigningString : SigningMethod -> MapClaims -> result string;
  Sign : SigningMethod -> string -> string -> result string;
  Verify : SigningMethod -> string -> string -> string -> option error;
  ParseUnverified : string -> result (Token * string * string);
  Claims_Valid : MapClaims -> option error
}.

(** The token as [Parse] returns it on success: [token.Signature] set to
    the third segment and [token.Valid] to true. *)
Definition verified (token : Token) (sig : string) : Token :=
  {| Raw := Raw token; Method := Method token; Header := Header token;
     Claims := Claims token; Signature := sig; Valid := true |}.

Section Package.
Context `{Lib}.

(** [jwt.NewWithClaims(method, claims).SignedString(key)] *)
Definition SignedString (method : SigningMethod) (claims : MapClaims)
    (key : Key) : result string :=
  match SigningString method claims with
  | Err e => Err e
  | Ok sstr =>
      match Sign method sstr key with
      | Err e => Err e
      | Ok sig => Ok (sstr +:+ "." +:+ sig)
      end
  end.

(** [jwt.Parse(tokenString, keyFunc)]: parse, look the key up, validate
    the claims, verify the signature. The token comes back without an
    error only when every step passed; a failure of the key function or
    of the verification is reported in a [ValidationError] that carries
    the message of the inner error. *)
Definition ParseToken (tokenString : string) (keyFunc : Keyfunc)
    : result Token :=
  match ParseUnverified tokenString with
  | Err e => Err e
  | Ok (token, sstr, sig) =>
      match keyFunc token with
      | Err e => Err (errors_New (Error e))
      | Ok key =>
          match Claims_Valid (Claims token), Verify (Method token) sstr sig key with
          | None, None => Ok (verified token sig)
          | Some e, _ => Err e
          | None, Some e => Err (errors_New (Error e))
          end
      end
  end.

End Package.

(** The claim set the server signs. *)
Definition user_claims (user : string) : MapClaims :=
  {[ "user" := VString user ]}.

(** The part of the package's contract the server relies on. Signing a
    claim set of strings with an HMAC method and a byte key cannot fail; a
    token so made parses back to its method and claims when its strings are
    valid UTF-8 (the JSON encoding of a claim replaces other bytes), has
    no time-based claim to reject, and carries a signature that verifies
    under the same key. *)
Class Laws `{Lib} : Prop := {
  SigningString_total : forall m user,
    exists sstr, SigningString m (user_claims user) = Ok sstr;
  Sign_HMAC_total : forall m sstr key,
    is_SigningMethodHMAC m = true ->
    exists sig, Sign m sstr key = Ok sig;
  Verify_Sign : forall m sstr key sig,
    is_SigningMethodHMAC m = true ->
    Sign m sstr key = Ok sig ->
    Verify m sstr sig key = None;
  ParseUnverified_signed : forall m user key sstr sig,
    utf8_ValidString user = true ->
    SigningString m (user_claims user) = Ok sstr ->
    Sign m sstr key = Ok sig ->
    exists token,
      ParseUnverified (sstr +:+ "." +:+ sig) = Ok (token, sstr, sig) /\
      Method token = m /\ Claims token = user_claims user;
  Claims_Valid_user : forall user,
    Claims_Valid (user_claims user) = None
}.

End Jwt.

(* ===================================================================== *)
(** ** net/http: requests and the response writer                         *)
(* ===================================================================== *)

Module Http.

(** The parts of [*http.Request] the server reads. [Path] is the decoded
    [URL.Path]; [Form] holds the first value of each query or form
    parameter; [Header] the first value of each header, by canonical name;
    [Vars] the route variables the router attached ([mux.Vars(req)]). *)
Record Request := {
  Method : string;
  Path : string;
  Form : gmap string string;
  Header : gmap string string;
  Body : string;
  Vars : gmap string string
}.

(** [req.Header.Get(key)], [req.FormValue(key)] and indexing the map of
    [mux.Vars(req)]: the empty string when the key is absent. *)
Definition Header_Get (req : Request) (key : string) : string :=
  default "" (Header req !! key).

Definition FormValue (req : Request) (key : string) : string :=
  default "" (Form req !! key).

Definition mux_Vars (req : Request) (key : string) : string :=
  default "" (Vars req !! key).

(** [req.Header.Set(key, value)] *)
Definition Header_Set (req : Request) (key value : string) : Request :=
  {| Method := Method req; Path := Path req; Form := Form req;
     Header := <[key := value]> (Header req); Body := Body req;
     Vars := Vars req |}.

Definition with_Vars (req : Request) (vars : gmap string string) : Request :=
  {| Method := Method req; Path := Path req; Form := Form req;
     Header := Header req; Body := Body req; Vars := vars |}.

(** An [http.ResponseWriter], as [httptest.ResponseRecorder] records it:
    the status code (200 until a header is written) and the documents
    written to the body, oldest first. *)
Record ResponseWriter := {
  wroteHeader : bool;
  Code : Z;
  Written : list Json.Document
}.

Definition NewRecorder : ResponseWriter :=
  {| wroteHeader := false; Code := 200; Written := [] |}.

(** [w.WriteHeader(code)]: only the first call sets the status. *)
Definition WriteHeader (w : ResponseWriter) (code : Z) : ResponseWriter :=
  if wroteHeader w then w
  else {| wroteHeader := true; Code := code; Written := Written w |}.

(** [w.Write(b)]: writes the header with status 200 first when none was
    written. *)
Definition Write (w : ResponseWriter) (b : Json.Document) : ResponseWriter :=
  let w := WriteHeader w 200 in
  {| wroteHeader := true; Code := Code w; Written := Written w ++ [b] |}.

End Http.

(* ===================================================================== *)
(** ** github.com/gorilla/mux: path templates and route matching          *)
(* ===================================================================== *)

Module Mux.

(** The handlers a route can name: the seven methods of [*Server] and the
    file server of the catch-all route. *)
Inductive HandlerFunc : Set :=
| AirportSearch
| FlightSearch
| HotelSearch
| UserLogin
| UserSignup
| UserFlights
| UserBookFlight
| FileServer.

(** One path element of a template: literal text, or a variable [{name}],
    which matches one or more characters other than [/]. The server's
    templates have whole elements as variables. *)
Inductive element : Set :=
| Lit (text : string)
| Var (name : string).

(** The text of a string without its last character. *)
Fixpoint drop_last (s : string) : string :=
  match s with
  | EmptyString => EmptyString
  | String _ EmptyString => EmptyString
  | String c s' => String c (drop_last s')
  end.

Definition parse_element (s : string) : element :=
  match s with
  | String "{" name => Var (drop_last name)
  | _ => Lit s
  end.

Definition parse_template (tpl : string) : list element :=
  map parse_element (Split tpl "/").

(** A route: [Path(tpl)] matches the whole path, [PathPrefix(tpl)] its
    beginning; [Methods(...)] restricts the request method (no restriction
    when empty). *)
Inductive matcher : Set :=
| PathTemplate (tpl : string)
| PathPrefix (tpl : string).

Record Route := {
  route_path : matcher;
  route_methods : list string;
  route_handler : HandlerFunc
}.

(** Matching the elements of a template against those of a path, binding
    the variables. *)
Fixpoint match_elements (tpl : list element) (segs : list string)
    (vars : gmap string string) : option (gmap string string) :=
  match tpl, segs with
  | [], [] => Some vars
  | Lit text :: tpl', seg :: segs' =>
      if String.eqb text seg then match_elements tpl' segs' vars else None
  | Var name :: tpl', seg :: segs' =>
      if String.eqb seg "" then None
      else match_elements tpl' segs' (<[name := seg]> vars)
  | _, _ => None
  end.

Definition match_path (m : matcher) (path : string) : option (gmap string string) :=
  match m with
  | PathTemplate tpl => match_elements (parse_template tpl) (Split path "/") ∅
  | PathPrefix tpl => if String.prefix tpl path then Some ∅ else None
  end.

Definition match_method (methods : list string) (method : string) : bool :=
  match methods with
  | [] => true
  | _ => existsb (String.eqb method) methods
  end.

(** [Route.Match]: every matcher of the route accepts the request. *)
Definition Route_Match (r : Route) (req : Http.Request)
    : option (gmap string string) :=
  if match_method (route_methods r) (Http.Method req)
  then match_path (route_path r) (Http.Path req)
  else None.

(** [Router.Match]: the first route, in registration order, that
    matches the request; [None] is no match (404). *)
Fixpoint Router_Match (routes : list Route) (req : Http.Request)
    : option (HandlerFunc * gmap string string) :=
  match routes with
  | [] => None
  | r :: routes' =>
      match Route_Match r req with
      | Some vars => Some (route_handler r, vars)
      | None => Router_Match routes' req
      end
  end.

(** [cleanPath(p)]: the canonical form of a URL path, rooted, without
    empty, [.] or [..] elements, a slash at its end kept. *)
Definition cleanPath (p : string) : string :=
  if String.eqb p "" then "/"
  else
    let p := if String.prefix "/" p then p else "/" +:+ p in
    let np := path_Clean p in
    if ends_with p "/" && negb (String.eqb np "/") then np +:+ "/" else np.

(** What [Router.ServeHTTP] does with a request: a router made by
    [NewRouter], which cleans paths, answers a request whose path is not
    in canonical form with a redirect to the canonical path and runs no
    handler; otherwise it runs the handler of the route that matches, with
    the route variables, or the not-found handler when none does. (When
    the only routes that match the path reject the method, the router
    answers 405 instead; a table that ends in a route for every path and
    method, as the server's does, never comes to that.) *)
Inductive served : Type :=
| Redirected (location : string)
| Matched (h : HandlerFunc) (vars : gmap string string)
| NotFound.

Definition Router_ServeHTTP (routes : list Route) (req : Http.Request) : served :=
  let p := cleanPath (Http.Path req) in
  if String.eqb p (Http.Path req)
  then match Router_Match routes req with
       | Some (h, vars) => Matched h vars
       | None => NotFound
       end
  else Redirected p.

End Mux.

(* ===================================================================== *)
(** ** repository.go: the interface                                       *)
(* ===================================================================== *)

Module Repo.

(** A call of a method of the [Repository] interface, with its arguments. *)
Inductive call : Type :=
| GetAirports (searchKey : string)
| GetFlightPaths (from to : string) (dayOfWeek : Z)
| GetHotels (description location : string)
| CreateUser (username password : string)
| GetUserPassword (username : string)
| GetUserFlights (username : string)
| UpdateUserFlights (username : string) (bookedFlights : list jsonBookedFlight).

(** What each method returns; a lone [error] is [None] when nil. *)
Definition returns (c : call) : Type :=
  match c with
  | GetAirports _ => result jsonAirportSearchResp
  | GetFlightPaths _ _ _ => result jsonFlightSearchResp
  | GetHotels _ _ => result jsonHotelSearchResp
  | CreateUser _ _ => option error
  | GetUserPassword _ => result string
  | GetUserFlights _ => result jsonUserFlightsResp
  | UpdateUserFlights _ _ => result jsonUserBookFlightResp
  end.

(** [type Repository interface]: an implementation answers every call
    from its state [DB] and leaves a new state. *)
Class Repository (DB : Type) : Type := {
  answer : forall c : call, DB -> returns c * DB
}.

End Repo.

(* ===================================================================== *)
(** ** server.go and handler.go                                           *)
(* ===================================================================== *)

Module Server.
Import Http Json.

Definition ErrUserExists : error := errors_New "user already exists".
Definition ErrUserNotFound : error := errors_New "user does not exist".
Definition ErrBadPassword : error := errors_New "password does not match".
Definition ErrBadAuthHeader : error := errors_New "bad authentication header format".
Definition ErrBadAuth : error := errors_New "invalid auth token".

Definition jwtSecret : string := "UNSECURE_SECRET_TOKEN".

(** What running a handler amounts to: it returns, leaving the response
    writer as it wrote it; or a run-time panic unwinds it; or it calls the
    repository and goes on with the answer; or it prints a line. *)
Inductive Prog : Type :=
| Return (w : ResponseWriter)
| Panic (msg : string)
| Invoke (c : Repo.call) (k : Repo.returns c -> Prog)
| Println (line : string) (next : Prog).

(** [func writeJsonFailure(w, code, err)]. Marshalling the failure object,
    a struct of one string, cannot fail, so the panic is never taken. *)
Definition writeJsonFailure (w : ResponseWriter) (code : Z) (err : error)
    : ResponseWriter :=
  let failBytes := failObj (Error err) in
  Write (WriteHeader w code) failBytes.

(** [func decodeReqOrFail(w, req, data) bool]: [Some data] is [true] with
    [data] filled in, [None] is [false]. *)
Definition decodeReqOrFail {A} (Decode : string -> result A)
    (w : ResponseWriter) (req : Request) : ResponseWriter * option A :=
  match Decode (Body req) with
  | Err err => (writeJsonFailure w 500 err, None)
  | Ok data => (w, Some data)
  end.

(** [func encodeRespOrFail(w, data)] *)
Definition encodeRespOrFail (w : ResponseWriter) (data : Payload) : ResponseWriter :=
  match Encode data with
  | Err err => writeJsonFailure w 500 err
  | Ok doc => Write w doc
  end.

(** Indexing a slice, [parts[i]]: out of range is a run-time panic. *)
Definition index_panic (i : nat) (parts : list string) : string :=
  "runtime error: index out of range [" +:+ pretty i +:+ "] with length "
  +:+ pretty (length parts).

(** The type assertion [v.(string)] on a map entry: a missing entry is
    the nil interface. *)
Definition assert_string (v : option Jwt.value) : string + string :=
  match v with
  | Some (Jwt.VString s) => inl s
  | None | Some Jwt.VNull =>
      inr "interface conversion: interface {} is nil, not string"
  | Some (Jwt.VNumber _) =>
      inr "interface conversion: interface {} is float64, not string"
  | Some (Jwt.VBool _) =>
      inr "interface conversion: interface {} is bool, not string"
  | Some Jwt.VComposite =>
      inr "interface conversion: interface {} is not string"
  end.

(** [%v] of a header entry; [alg] is a string in every token the parser
    returns. *)
Definition Sprint (v : option Jwt.value) : string :=
  match v with
  | Some (Jwt.VString s) => s
  | Some (Jwt.VBool true) => "true"
  | Some (Jwt.VBool false) => "false"
  | _ => "<nil>"
  end.

(** What [decodeAuthUserOrFail] leaves: [true] with [user] set, [false]
    with the failure written, or a panic. *)
Inductive authed : Type :=
| AuthOk (user : authedUser)
| AuthFail (w : ResponseWriter)
| AuthPanic (msg : string).

Section Handlers.
Context `{Json.Decoder} `{Jwt.Lib} `{Time.Lib}.

(** [func createJwtToken(user string) (string, error)] *)
Definition createJwtToken (user : string) : result string :=
  Jwt.SignedString Jwt.SigningMethodHS256 (Jwt.user_claims user) jwtSecret.

(** The key function handed to [jwt.Parse]. *)
Definition keyFunc (token : Jwt.Token) : result string :=
  if Jwt.is_SigningMethodHMAC (Jwt.Method token) then Ok jwtSecret
  else Err (errors_New ("Unexpected signing method: "
                        +:+ Sprint (Jwt.Header token !! "alg"))).

(** The second half of [decodeAuthUserOrFail]: from [authToken :=
    authHeaderParts[1]] on. *)
Definition decodeAuthToken (w : ResponseWriter) (authHeaderParts : list string)
    : authed :=
  match authHeaderParts !! 1%nat with
  | None => AuthPanic (index_panic 1 authHeaderParts)
  | Some authToken =>
      match Jwt.ParseToken authToken keyFunc with
      | Err err => AuthFail (writeJsonFailure w 400 ErrBadAuthHeader)
      | Ok token =>
          match assert_string (Jwt.Claims token !! "user") with
          | inr msg => AuthPanic msg
          | inl authUser =>
              if String.eqb authUser ""
              then AuthFail (writeJsonFailure w 400 ErrBadAuth)
              else AuthOk {| authed_Name := authUser |}
          end
      end
  end.

(** [func decodeAuthUserOrFail(w, req, user) bool] *)
Definition decodeAuthUserOrFail (w : ResponseWriter) (req : Request) : authed :=
  let authHeader := Header_Get req "Authorization" in
  let authHeaderParts := SplitN authHeader " " 2 in
  match authHeaderParts !! 0%nat with
  | None => AuthPanic (index_panic 0 authHeaderParts)
  | Some part0 =>
      if negb (String.eqb part0 "Bearer") then
        let authHeader := Header_Get req "Authentication" in
        let authHeaderParts := SplitN authHeader " " 2 in
        match authHeaderParts !! 0%nat with
        | None => AuthPanic (index_panic 0 authHeaderParts)
        | Some part0 =>
            if negb (String.eqb part0 "Bearer")
            then AuthFail (writeJsonFailure w 400 ErrBadAuthHeader)
            else decodeAuthToken w authHeaderParts
        end
      else decodeAuthToken w authHeaderParts
  end.

(** [fmt.Println(errors.Unwrap(err))] *)
Definition Println_Unwrap (err : error) : Prog -> Prog :=
  Println (match errors_Unwrap err with
           | Some inner => Error inner
           | None => "<nil>"
           end).

(** [GET /api/airports?search=xxx] *)
Definition AirportSearch (w : ResponseWriter) (req : Request) : Prog :=
  let searchKey := FormValue req "search" in
  Invoke (Repo.GetAirports searchKey) (fun r =>
    match r with
    | Err err => Return (writeJsonFailure w 500 err)
    | Ok respData => Return (encodeRespOrFail w (PAirportSearch respData))
    end).

(** [GET /api/flightPaths/{from}/{to}?leave=mm/dd/YYYY] *)
Definition FlightSearch (w : ResponseWriter) (req : Request) : Prog :=
  match Time.Parse "01/02/2006" (FormValue req "leave") with
  | Err err => Return (writeJsonFailure w 500 err)
  | Ok leaveDate =>
      let dayOfWeek := Time.int (Time.Weekday_of leaveDate) in
      Invoke (Repo.GetFlightPaths (mux_Vars req "from") (mux_Vars req "to") dayOfWeek)
        (fun r =>
           match r with
           | Err err => Return (writeJsonFailure w 500 err)
           | Ok respData => Return (encodeRespOrFail w (PFlightSearch respData))
           end)
  end.

(** [GET /api/hotel/{description}/{location}] *)
Definition HotelSearch (w : ResponseWriter) (req : Request) : Prog :=
  let description := mux_Vars req "description" in
  let location := mux_Vars req "location" in
  Invoke (Repo.GetHotels description location) (fun r =>
    match r with
    | Err err => Return (writeJsonFailure w 500 err)
    | Ok respData => Return (encodeRespOrFail w (PHotelSearch respData))
    end).

(** [POST /api/user/login] *)
Definition UserLogin (w : ResponseWriter) (req : Request) : Prog :=
  match decodeReqOrFail Json.Decode_UserLoginReq w req with
  | (w, None) => Return w
  | (w, Some reqData) =>
      Invoke (Repo.GetUserPassword (login_User reqData)) (fun r =>
        if errors_Is (err_of r) ErrDocumentNotFound then
          Return (writeJsonFailure w 401 ErrUserNotFound)
        else
          match r with
          | Err err => Println_Unwrap err (Return (writeJsonFailure w 500 err))
          | Ok password =>
              if negb (String.eqb password (login_Password reqData)) then
                Return (writeJsonFailure w 401 ErrBadPassword)
              else
                match createJwtToken (login_User reqData) with
                | Err err => Return (writeJsonFailure w 500 err)
                | Ok token =>
                    let respData :=
                      {| Data := {| Token := token |}; Context := [] |} in
                    Return (encodeRespOrFail w (PUserLogin respData))
                end
          end)
  end.

(** [POST /api/user/signup] *)
Definition UserSignup (w : ResponseWriter) (req : Request) : Prog :=
  match decodeReqOrFail Json.Decode_UserSignupReq w req with
  | (w, None) => Return w
  | (w, Some reqData) =>
      Invoke (Repo.CreateUser (signup_User reqData) (signup_Password reqData))
        (fun err =>
           if errors_Is err ErrDocumentExists then
             Return (writeJsonFailure w 409 ErrUserExists)
           else
             match err with
             | Some err => Println_Unwrap err (Return (writeJsonFailure w 500 err))
             | None =>
                 match createJwtToken (signup_User reqData) with
                 | Err err => Return (writeJsonFailure w 500 err)
                 | Ok token =>
                     let respData :=
                       {| Data := {| Token := token |}; Context := [] |} in
                     Return (encodeRespOrFail w (PUserSignup respData))
                 end
             end)
  end.

(** [GET /api/user/{username}/flights] *)
Definition UserFlights (w : ResponseWriter) (req : Request) : Prog :=
  match decodeAuthUserOrFail w req with
  | AuthPanic msg => Panic msg
  | AuthFail w => Return w
  | AuthOk authUser =>
      Invoke (Repo.GetUserFlights (authed_Name authUser)) (fun r =>
        match r with
        | Err err => Return (writeJsonFailure w 500 err)
        | Ok respData => Return (encodeRespOrFail w (PUserFlights respData))
        end)
  end.

(** [POST /api/user/{username}/flights] *)
Definition UserBookFlight (w : ResponseWriter) (req : Request) : Prog :=
  match decodeAuthUserOrFail w req with
  | AuthPanic msg => Panic msg
  | AuthFail w => Return w
  | AuthOk authUser =>
      match decodeReqOrFail Json.Decode_UserBookFlightReq w req with
      | (w, None) => Return w
      | (w, Some reqData) =>
          Invoke (Repo.UpdateUserFlights (authed_Name authUser) (book_Flights reqData))
            (fun r =>
               match r with
               | Err err => Return (writeJsonFailure w 500 err)
               | Ok respData => Return (encodeRespOrFail w (PUserBookFlight respData))
               end)
      end
  end.

End Handlers.

(** [func (s *Server) setupRoutes()]: the routes in registration order,
    the REST endpoints first, then the public files out of the root. *)
Definition setupRoutes : list Mux.Route :=
  let Path tpl method handler :=
    {| Mux.route_path := Mux.PathTemplate tpl;
       Mux.route_methods := [method];
       Mux.route_handler := handler |} in
  [ Path "/api/airports" "GET" Mux.AirportSearch;
    Path "/api/flightPaths/{from}/{to}" "GET" Mux.FlightSearch;
    Path "/api/user/login" "POST" Mux.UserLogin;
    Path "/api/user/signup" "POST" Mux.UserSignup;
    Path "/api/user/{username}/flights" "GET" Mux.UserFlights;
    Path "/api/user/{username}/flights" "POST" Mux.UserBookFlight;
    Path "/api/hotel/{description}/" "GET" Mux.HotelSearch;
    Path "/api/hotel/{description}/{location}/" "GET" Mux.HotelSearch;
    {| Mux.route_path := Mux.PathPrefix "/";
       Mux.route_methods := [];
       Mux.route_handler := Mux.FileServer |} ].

Section Serve.
Context `{Json.Decoder} `{Jwt.Lib} `{Time.Lib}.

(** [http.FileServer(http.Dir("./public"))], the handler of the last
    route: what it writes depends on the files on disk. *)
Variable FileServer : ResponseWriter -> Request -> ResponseWriter.

(** The method of [*Server] a route names. *)
Definition handler (h : Mux.HandlerFunc) : ResponseWriter -> Request -> Prog :=
  match h with
  | Mux.AirportSearch => AirportSearch
  | Mux.FlightSearch => FlightSearch
  | Mux.HotelSearch => HotelSearch
  | Mux.UserLogin => UserLogin
  | Mux.UserSignup => UserSignup
  | Mux.UserFlights => UserFlights
  | Mux.UserBookFlight => UserBookFlight
  | Mux.FileServer => fun w req => Return (FileServer w req)
  end.

(** [func (s *Server) ServeHTTP(w, req)], which is [s.router.ServeHTTP]:
    a request whose path is not in canonical form is answered 301 (the
    canonical path goes into the [Location] header, which the recorder
    does not keep) and no handler runs; otherwise the router runs the
    handler of the first matching route on the request with the route
    variables attached, and [http.NotFound] when none matches. *)
Definition ServeHTTP (w : ResponseWriter) (req : Request) : Prog :=
  match Mux.Router_ServeHTTP setupRoutes req with
  | Mux.Redirected _ => Return (WriteHeader w 301)
  | Mux.Matched h vars => handler h w (with_Vars req vars)
  | Mux.NotFound =>
      Return (Write (WriteHeader w 404)
                (Json.fileBytes ("404 page not found" +:+ String (ascii_of_nat 10) "")))
  end.

End Serve.

(** Running a handler against a repository: the outcome, the state the
    repository is left in, the calls made and the lines printed, oldest
    first. *)
Inductive outcome : Type :=
| Returned (w : ResponseWriter)
| Panicked (msg : string).

Record run_result (DB : Type) := {
  out : outcome;
  db_after : DB;
  calls : list Repo.call;
  stdout : list string
}.
Arguments out {DB} _.
Arguments db_after {DB} _.
Arguments calls {DB} _.
Arguments stdout {DB} _.

Fixpoint run {DB} `{Repo.Repository DB} (p : Prog) (db : DB) : run_result DB :=
  match p with
  | Return w => {| out := Returned w; db_after := db; calls := []; stdout := [] |}
  | Panic msg => {| out := Panicked msg; db_after := db; calls := []; stdout := [] |}
  | Invoke c k =>
      let '(r, db') := Repo.answer c db in
      let rest := run (k r) db' in
      {| out := out rest; db_after := db_after rest;
         calls := c :: calls rest; stdout := stdout rest |}
  | Println line next =>
      let rest := run next db in
      {| out := out rest; db_after := db_after rest;
         calls := calls rest; stdout := line :: stdout rest |}
  end.

End Server.

(* ===================================================================== *)
(** ** repository.go: the user bucket of [CBRepository]                   *)
(* ===================================================================== *)

Module CB.

(** A document of a collection with its CAS value. *)
Record document (V : Type) := {
  content : V;
  Cas : Z
}.
Arguments content {V} _.
Arguments Cas {V} _.

(** The state behind a [CBRepository]: the two collections of the scope
    [userData] of the bucket [travel-users], the counter the store draws
    CAS values from, and what the environment will answer: today's date
    as [time.Now().Format("01/02/2006")] gives it, and the UUIDs the
    random source will yield. *)
Record CBRepository := {
  users : gmap string (document jsonUser);
  flights : gmap string (document jsonBookedFlight);
  next_cas : Z;
  today : string;
  random : list string
}.

(** The error of a key-value operation: [gocb] wraps the sentinel in a
    [KeyValueError], whose message is the sentinel's followed by the
    operation's context. *)
Definition KeyValueError (inner : error) (key : string) : error :=
  Wrapped (Error inner +:+ " | " +:+ key) inner.

Definition set_users (cr : CBRepository) (u : gmap string (document jsonUser))
    (bump : Z) : CBRepository :=
  {| users := u; flights := flights cr; next_cas := next_cas cr + bump;
     today := today cr; random := random cr |}.

Definition set_flights (cr : CBRepository)
    (f : gmap string (document jsonBookedFlight)) : CBRepository :=
  {| users := users cr; flights := f; next_cas := next_cas cr + 1;
     today := today cr; random := random cr |}.

(** [collection.Get] and [collection.LookupIn] of a key. *)
Definition Get {V} (coll : gmap string (document V)) (key : string)
    : result (document V) :=
  match coll !! key with
  | Some d => Ok d
  | None => Err (KeyValueError ErrDocumentNotFound key)
  end.

(** [userCollection.Insert(key, user, nil)] *)
Definition Insert_user (cr : CBRepository) (key : string) (user : jsonUser)
    : option error * CBRepository :=
  match users cr !! key with
  | Some _ => (Some (KeyValueError ErrDocumentExists key), cr)
  | None =>
      (None, set_users cr (<[key := {| content := user; Cas := next_cas cr |}]> (users cr)) 1)
  end.

(** [flightCollection.Upsert(key, flight, nil)] *)
Definition Upsert_flight (cr : CBRepository) (key : string) (flight : jsonBookedFlight)
    : option error * CBRepository :=
  (None, set_flights cr (<[key := {| content := flight; Cas := next_cas cr |}]> (flights cr))).

(** [userCollection.Replace(key, user, &opts)] with [opts.Cas = cas]. *)
Definition Replace_user (cr : CBRepository) (key : string) (user : jsonUser) (cas : Z)
    : option error * CBRepository :=
  match users cr !! key with
  | None => (Some (KeyValueError ErrDocumentNotFound key), cr)
  | Some d =>
      if Z.eqb (Cas d) cas
      then (None, set_users cr (<[key := {| content := user; Cas := next_cas cr |}]> (users cr)) 1)
      else (Some (KeyValueError (errors_New "cas mismatch") key), cr)
  end.

(** [uuid.NewRandom()]: the next UUID of the random source, an error when
    the source fails. *)
Definition uuid_NewRandom (cr : CBRepository) : result string * CBRepository :=
  match random cr with
  | [] => (Err (errors_New "EOF"), cr)
  | id :: rest =>
      (Ok id, {| users := users cr; flights := flights cr; next_cas := next_cas cr;
                 today := today cr; random := rest |})
  end.

(** [func (cr *CBRepository) GetUserPassword(username)] *)
Definition GetUserPassword (username : string) (cr : CBRepository)
    : result string * CBRepository :=
  match Get (users cr) username with
  | Err err => (Err err, cr)
  | Ok res => (Ok (user_Password (content res)), cr)
  end.

(** The loop of [GetUserFlights] over [flightIDs]. *)
Fixpoint get_flights (cr : CBRepository) (flightIDs : list string)
    (data : list jsonBookedFlight) : result (list jsonBookedFlight) :=
  match flightIDs with
  | [] => Ok data
  | flightID :: rest =>
      match Get (flights cr) flightID with
      | Err err => Err err
      | Ok res => get_flights cr rest (data ++ [content res])
      end
  end.

(** [func (cr *CBRepository) GetUserFlights(username)] *)
Definition GetUserFlights (username : string) (cr : CBRepository)
    : result jsonUserFlightsResp * CBRepository :=
  match Get (users cr) username with
  | Err err => (Err err, cr)
  | Ok res =>
      let flightIDs := user_Flights (content res) in
      match get_flights cr flightIDs [] with
      | Err err => (Err err, cr)
      | Ok data => (Ok {| Data := data; Context := [] |}, cr)
      end
  end.

(** [func (cr *CBRepository) CreateUser(username, password)] *)
Definition CreateUser (username password : string) (cr : CBRepository)
    : option error * CBRepository :=
  let user := {| user_Name := username; user_Password := password;
                 user_Flights := [] |} in
  Insert_user cr username user.

Definition set_BookedOn (flight : jsonBookedFlight) (date : string) : jsonBookedFlight :=
  {| booked_Name := booked_Name flight; booked_Flight := booked_Flight flight;
     booked_Price := booked_Price flight; booked_Date := booked_Date flight;
     booked_SourceAirport := booked_SourceAirport flight;
     booked_DestinationAirport := booked_DestinationAirport flight;
     booked_BookedOn := date |}.

Definition add_flight (user : jsonUser) (flightID : string) : jsonUser :=
  {| user_Name := user_Name user; user_Password := user_Password user;
     user_Flights := user_Flights user ++ [flightID] |}.

(** The loop of [UpdateUserFlights] over [bookedFlights]: the flights
    added so far and the user document as amended, or the first error. *)
Fixpoint book_flights (bookedFlights : list jsonBookedFlight)
    (added : list jsonBookedFlight) (user : jsonUser) (cr : CBRepository)
    : result (list jsonBookedFlight * jsonUser) * CBRepository :=
  match bookedFlights with
  | [] => (Ok (added, user), cr)
  | flight :: rest =>
      let flight := set_BookedOn flight (today cr) in
      let added := added ++ [flight] in
      match uuid_NewRandom cr with
      | (Err err, cr) => (Err err, cr)
      | (Ok flightID, cr) =>
          let user := add_flight user flightID in
          match Upsert_flight cr flightID flight with
          | (Some err, cr) => (Err err, cr)
          | (None, cr) => book_flights rest added user cr
          end
      end
  end.

(** [func (cr *CBRepository) UpdateUserFlights(username, bookedFlights)] *)
Definition UpdateUserFlights (username : string)
    (bookedFlights : list jsonBookedFlight) (cr : CBRepository)
    : result jsonUserBookFlightResp * CBRepository :=
  match Get (users cr) username with
  | Err err => (Err err, cr)
  | Ok res =>
      let cas := Cas res in
      let user := content res in
      match book_flights bookedFlights [] user cr with
      | (Err err, cr) => (Err err, cr)
      | (Ok (added, user), cr) =>
          match Replace_user cr username user cas with
          | (Some err, cr) => (Err err, cr)
          | (None, cr) => (Ok {| Data := {| Added := added |}; Context := [] |}, cr)
          end
      end
  end.

Section Queries.

(** The three search methods run N1QL and full-text queries on the
    cluster; what they answer is the cluster's business. *)
Variable Query_GetAirports : string -> result jsonAirportSearchResp.
Variable Query_GetFlightPaths : string -> string -> Z -> result jsonFlightSearchResp.
Variable Query_GetHotels : string -> string -> result jsonHotelSearchResp.

(** [*CBRepository] implements [Repository]. *)
Definition CBRepository_answer (c : Repo.call) (cr : CBRepository)
    : Repo.returns c * CBRepository :=
  match c with
  | Repo.GetAirports searchKey => (Query_GetAirports searchKey, cr)
  | Repo.GetFlightPaths from to dayOfWeek => (Query_GetFlightPaths from to dayOfWeek, cr)
  | Repo.GetHotels description location => (Query_GetHotels description location, cr)
  | Repo.CreateUser username password => CreateUser username password cr
  | Repo.GetUserPassword username => GetUserPassword username cr
  | Repo.GetUserFlights username => GetUserFlights username cr
  | Repo.UpdateUserFlights username bookedFlights =>
      UpdateUserFlights username bookedFlights cr
  end.

End Queries.

End CB.

(* ===================================================================== *)
(** ** Executable instances of the interfaces                             *)
(* ===================================================================== *)

Module Ref.

(** *** time: dates in the layout [01/02/2006] *)

Record date := {
  year : Z;
  month : Z;
  day : Z
}.

Definition digit (c : ascii) : option Z :=
  let n := Z.of_N (N_of_ascii c) in
  if (48 <=? n) && (n <=? 57) then Some (n - 48) else None.

Fixpoint digits (acc : Z) (cs : list ascii) : option Z :=
  match cs with
  | [] => Some acc
  | c :: cs' =>
      match digit c with
      | Some d => digits (10 * acc + d) cs'
      | None => None
      end
  end.

Definition isLeap (y : Z) : bool :=
  (y mod 4 =? 0) && (negb (y mod 100 =? 0) || (y mod 400 =? 0)).

Definition daysIn (m y : Z) : Z :=
  if m =? 2 then (if isLeap y then 29 else 28)
  else if (m =? 4) || (m =? 6) || (m =? 9) || (m =? 11) then 30 else 31.

Definition parse_error (layout value : string) : error :=
  errors_New ("parsing time " +:+ value +:+ " as " +:+ layout +:+ ": cannot parse").

Definition Parse (layout value : string) : result date :=
  if negb (String.eqb layout "01/02/2006") then Err (parse_error layout value)
  else
    match list_ascii_of_string value with
    | [m1; m2; "/"%char; d1; d2; "/"%char; y1; y2; y3; y4] =>
        match digits 0 [m1; m2], digits 0 [d1; d2], digits 0 [y1; y2; y3; y4] with
        | Some m, Some d, Some y =>
            if (1 <=? m) && (m <=? 12) && (1 <=? d) && (d <=? daysIn m y)
            then Ok {| year := y; month := m; day := d |}
            else Err (parse_error layout value)
        | _, _, _ => Err (parse_error layout value)
        end
    | _ => Err (parse_error layout value)
    end.

Definition weekday_of_index (i : Z) : Time.Weekday :=
  if i =? 0 then Time.Sunday else if i =? 1 then Time.Monday
  else if i =? 2 then Time.Tuesday else if i =? 3 then Time.Wednesday
  else if i =? 4 then Time.Thursday else if i =? 5 then Time.Friday
  else Time.Saturday.

(** The day of the week of a Gregorian date. *)
Definition Weekday_of (t : date) : Time.Weekday :=
  let offset := nth (Z.to_nat (month t - 1)) [0; 3; 2; 5; 0; 3; 5; 1; 4; 6; 2; 4] 0 in
  let y := if month t <? 3 then year t - 1 else year t in
  weekday_of_index ((y + y / 4 - y / 100 + y / 400 + offset + day t) mod 7).

#[export] Instance time : Time.Lib :=
  {| Time.Time := date; Time.Parse := Parse; Time.Weekday_of := Weekday_of |}.

(** *** jwt: tokens [alg.user.c] with a one-byte checksum for a MAC; the
    user claim is written as JSON writes a string *)

Definition method_of_alg (alg : string) : option Jwt.SigningMethod :=
  List.find (fun m => String.eqb (Jwt.Alg m) alg)
    [Jwt.SigningMethodHS256; Jwt.SigningMethodHS384; Jwt.SigningMethodHS512;
     Jwt.SigningMethodRS256; Jwt.SigningMethodRS384; Jwt.SigningMethodRS512;
     Jwt.SigningMethodPS256; Jwt.SigningMethodPS384; Jwt.SigningMethodPS512;
     Jwt.SigningMethodES256; Jwt.SigningMethodES384; Jwt.SigningMethodES512;
     Jwt.SigningMethodNone].

Fixpoint checksum (acc : N) (s : string) : N :=
  match s with
  | EmptyString => acc
  | String c s' => checksum ((31 * acc + N_of_ascii c) mod 256)%N s'
  end.

Definition SigningString (m : Jwt.SigningMethod) (claims : gmap string Jwt.value)
    : result string :=
  match claims !! "user" with
  | Some (Jwt.VString user) => Ok (Jwt.Alg m +:+ "." +:+ Json.coerce_string user)
  | _ => Err (errors_New "json: unsupported claims")
  end.

Definition Sign (m : Jwt.SigningMethod) (sstr key : string) : result string :=
  if Jwt.is_SigningMethodHMAC m
  then Ok (String (ascii_of_N (97 + checksum (checksum 7 key) sstr mod 26)) EmptyString)
  else Err (errors_New "key is of invalid type").

Definition Verify (m : Jwt.SigningMethod) (sstr sig key : string) : option error :=
  match Sign m sstr key with
  | Err e => Some e
  | Ok expected =>
      if String.eqb expected sig then None
      else Some (errors_New "signature is invalid")
  end.

(** The text before the last two characters [.c] of a segment, and [c]. *)
Fixpoint split_signature (s : string) : option (string * ascii) :=
  match s with
  | EmptyString => None
  | String a s' =>
      match s' with
      | String c EmptyString =>
          if Ascii.eqb a "." then Some (EmptyString, c) else None
      | _ =>
          match split_signature s' with
          | Some (u, c) => Some (String a u, c)
          | None => None
          end
      end
  end.

Definition ParseUnverified (raw : string) : result (Jwt.Token * string * string) :=
  match cut "." raw with
  | None => Err (errors_New "token contains an invalid number of segments")
  | Some (alg, rest) =>
      match method_of_alg alg, split_signature rest with
      | None, _ => Err (errors_New "signing method (alg) is unavailable.")
      | _, None => Err (errors_New "token contains an invalid number of segments")
      | Some m, Some (user, c) =>
          Ok ({| Jwt.Raw := raw; Jwt.Method := m;
                 Jwt.Header := {[ "alg" := Jwt.VString alg ]};
                 Jwt.Claims := Jwt.user_claims user;
                 Jwt.Signature := ""; Jwt.Valid := false |},
              alg +:+ "." +:+ user, String c EmptyString)
      end
  end.

#[export] Instance jwt : Jwt.Lib :=
  {| Jwt.SigningString := SigningString; Jwt.Sign := Sign; Jwt.Verify := Verify;
     Jwt.ParseUnverified := ParseUnverified; Jwt.Claims_Valid := fun _ => None |}.

(** *** encoding/json: objects, arrays, strings and whole numbers, with no
    white space and no escape *)

Inductive json : Type :=
| JString (s : string)
| JNumber (n : Z)
| JArray (items : list json)
| JObject (fields : list (string * json)).

(** The double quote, and a body written with single quotes for it. *)
Definition dquote : ascii := ascii_of_nat 34.

Fixpoint dq (s : string) : string :=
  match s with
  | EmptyString => EmptyString
  | String c s' => String (if Ascii.eqb c "'" then dquote else c) (dq s')
  end.

Fixpoint take_digits (s : string) : list ascii * string :=
  match s with
  | String c s' =>
      match digit c with
      | Some _ => let (ds, rest) := take_digits s' in (c :: ds, rest)
      | None => ([], s)
      end
  | EmptyString => ([], s)
  end.

Definition syntax_error : error :=
  errors_New "invalid character looking for beginning of value".

(** [value fuel s]: the value at the head of [s] and the rest of [s];
    [items] and [members] read what follows the opening bracket. *)
Fixpoint value (fuel : nat) (s : string) : option (json * string) :=
  match fuel with
  | O => None
  | S fuel =>
      let fix items (n : nat) (s : string) : option (list json * string) :=
        match n with
        | O => None
        | S n =>
            match value fuel s with
            | Some (v, String "," rest) =>
                match items n rest with
                | Some (vs, rest) => Some (v :: vs, rest)
                | None => None
                end
            | Some (v, String "]" rest) => Some ([v], rest)
            | _ => None
            end
        end in
      let fix members (n : nat) (s : string) : option (list (string * json) * string) :=
        match n with
        | O => None
        | S n =>
            match s with
            | String q s1 =>
                if Ascii.eqb q dquote then
                  match cut dquote s1 with
                  | Some (key, String ":" s2) =>
                      match value fuel s2 with
                      | Some (v, String "," rest) =>
                          match members n rest with
                          | Some (ms, rest) => Some ((key, v) :: ms, rest)
                          | None => None
                          end
                      | Some (v, String "}" rest) => Some ([(key, v)], rest)
                      | _ => None
                      end
                  | _ => None
                  end
                else None
            | EmptyString => None
            end
        end in
      match s with
      | String "[" (String "]" rest) => Some (JArray [], rest)
      | String "[" rest =>
          match items (String.length rest) rest with
          | Some (vs, rest) => Some (JArray vs, rest)
          | None => None
          end
      | String "{" (String "}" rest) => Some (JObject [], rest)
      | String "{" rest =>
          match members (String.length rest) rest with
          | Some (ms, rest) => Some (JObject ms, rest)
          | None => None
          end
      | String c rest =>
          if Ascii.eqb c dquote then
            match cut dquote rest with
            | Some (str, rest) => Some (JString str, rest)
            | None => None
            end
          else
            match take_digits s with
            | ([], _) => None
            | (ds, rest) =>
                match digits 0 ds with
                | Some n => Some (JNumber n, rest)
                | None => None
                end
            end
      | EmptyString => None
      end
  end.

Definition parse (body : string) : result json :=
  match value (S (String.length body)) body with
  | Some (v, EmptyString) => Ok v
  | _ => Err syntax_error
  end.

Definition type_error (field : string) : error :=
  errors_New ("json: cannot unmarshal into Go struct field " +:+ field).

(** A string field of an object: the zero value when absent. *)
Definition string_field (fields : list (string * json)) (name : string)
    : result string :=
  match List.find (fun kv => String.eqb (fst kv) name) fields with
  | None => Ok ""
  | Some (_, JString s) => Ok s
  | Some _ => Err (type_error name)
  end.

Definition float_field (fields : list (string * json)) (name : string)
    : result float64 :=
  match List.find (fun kv => String.eqb (fst kv) name) fields with
  | None => Ok PrimFloat.zero
  | Some (_, JNumber n) => Ok (PrimFloat.of_uint63 (Uint63.of_Z n))
  | Some _ => Err (type_error name)
  end.

Definition bind {A B} (r : result A) (k : A -> result B) : result B :=
  match r with
  | Ok a => k a
  | Err e => Err e
  end.

Definition Decode_UserLoginReq (body : string) : result jsonUserLoginReq :=
  bind (parse body) (fun v =>
    match v with
    | JObject fields =>
        bind (string_field fields "user") (fun user =>
        bind (string_field fields "password") (fun password =>
        Ok {| login_User := user; login_Password := password |}))
    | _ => Err (type_error "jsonUserLoginReq")
    end).

Definition Decode_UserSignupReq (body : string) : result jsonUserSignupReq :=
  bind (parse body) (fun v =>
    match v with
    | JObject fields =>
        bind (string_field fields "user") (fun user =>
        bind (string_field fields "password") (fun password =>
        Ok {| signup_User := user; signup_Password := password |}))
    | _ => Err (type_error "jsonUserSignupReq")
    end).

Definition decode_flight (v : json) : result jsonBookedFlight :=
  match v with
  | JObject fields =>
      bind (string_field fields "name") (fun name =>
      bind (string_field fields "flight") (fun flight =>
      bind (float_field fields "price") (fun price =>
      bind (string_field fields "date") (fun date =>
      bind (string_field fields "sourceairport") (fun src =>
      bind (string_field fields "destinationairport") (fun dst =>
      bind (string_field fields "bookedon") (fun bookedon =>
      Ok {| booked_Name := name; booked_Flight := flight; booked_Price := price;
            booked_Date := date; booked_SourceAirport := src;
            booked_DestinationAirport := dst; booked_BookedOn := bookedon |})))))))
  | _ => Err (type_error "jsonBookedFlight")
  end.

Fixpoint decode_flights (vs : list json) : result (list jsonBookedFlight) :=
  match vs with
  | [] => Ok []
  | v :: vs' =>
      bind (decode_flight v) (fun f =>
      bind (decode_flights vs') (fun fs => Ok (f :: fs)))
  end.

Definition Decode_UserBookFlightReq (body : string) : result jsonUserBookFlightReq :=
  bind (parse body) (fun v =>
    match v with
    | JObject fields =>
        match List.find (fun kv => String.eqb (fst kv) "flights") fields with
        | None => Ok {| book_Flights := [] |}
        | Some (_, JArray vs) =>
            bind (decode_flights vs) (fun fs => Ok {| book_Flights := fs |})
        | Some _ => Err (type_error "flights")
        end
    | _ => Err (type_error "jsonUserBookFlightReq")
    end).

#[export] Instance decoder : Json.Decoder :=
  {| Json.Decode_UserLoginReq := Decode_UserLoginReq;
     Json.Decode_UserSignupReq := Decode_UserSignupReq;
     Json.Decode_UserBookFlightReq := Decode_UserBookFlightReq |}.

(** *** the file server and the repositories of the tests *)

(** No public file: every path is answered 404. *)
Definition FileServer (w : Http.ResponseWriter) (req : Http.Request)
    : Http.ResponseWriter :=
  Http.Write (Http.WriteHeader w 404) (Json.fileBytes "404 page not found").

(** [mockRepo]: a repository without state that answers each call as the
    function in the matching field says. *)
Record mockRepo := {
  GetAirportsFn : string -> result jsonAirportSearchResp;
  GetFlightPathsFn : string -> string -> Z -> result jsonFlightSearchResp;
  GetHotelsFn : string -> string -> result jsonHotelSearchResp;
  CreateUserFn : string -> string -> option error;
  GetUserPasswordFn : string -> result string;
  GetUserFlightsFn : string -> result jsonUserFlightsResp;
  UpdateUserFlightsFn : string -> list jsonBookedFlight -> result jsonUserBookFlightResp
}.

Definition mockRepo_answer (c : Repo.call) (mr : mockRepo) : Repo.returns c * mockRepo :=
  match c with
  | Repo.GetAirports searchKey => (GetAirportsFn mr searchKey, mr)
  | Repo.GetFlightPaths from to dayOfWeek => (GetFlightPathsFn mr from to dayOfWeek, mr)
  | Repo.GetHotels description location => (GetHotelsFn mr description location, mr)
  | Repo.CreateUser username password => (CreateUserFn mr username password, mr)
  | Repo.GetUserPassword username => (GetUserPasswordFn mr username, mr)
  | Repo.GetUserFlights username => (GetUserFlightsFn mr username, mr)
  | Repo.UpdateUserFlights username bookedFlights =>
      (UpdateUserFlightsFn mr username bookedFlights, mr)
  end.

#[export] Instance mock : Repo.Repository mockRepo :=
  {| Repo.answer := mockRepo_answer |}.

(** A mock whose every method fails with [boom]; the tests override the
    one method they exercise. *)
Definition boom : error := errors_New "boom".

Definition failing : mockRepo :=
  {| GetAirportsFn := fun _ => Err boom;
     GetFlightPathsFn := fun _ _ _ => Err boom;
     GetHotelsFn := fun _ _ => Err boom;
     CreateUserFn := fun _ _ => Some boom;
     GetUserPasswordFn := fun _ => Err boom;
     GetUserFlightsFn := fun _ => Err boom;
     UpdateUserFlightsFn := fun _ _ => Err boom |}.

(** The mocks of the tests, by the method they override. *)
Definition airports (r : result jsonAirportSearchResp) : mockRepo :=
  {| GetAirportsFn := fun _ => r;
     GetFlightPathsFn := GetFlightPathsFn failing;
     GetHotelsFn := GetHotelsFn failing;
     CreateUserFn := CreateUserFn failing;
     GetUserPasswordFn := GetUserPasswordFn failing;
     GetUserFlightsFn := GetUserFlightsFn failing;
     UpdateUserFlightsFn := UpdateUserFlightsFn failing |}.

Definition flight_paths (r : result jsonFlightSearchResp) : mockRepo :=
  {| GetAirportsFn := GetAirportsFn failing;
     GetFlightPathsFn := fun _ _ _ => r;
     GetHotelsFn := GetHotelsFn failing;
     CreateUserFn := CreateUserFn failing;
     GetUserPasswordFn := GetUserPasswordFn failing;
     GetUserFlightsFn := GetUserFlightsFn failing;
     UpdateUserFlightsFn := UpdateUserFlightsFn failing |}.

Definition hotels (r : result jsonHotelSearchResp) : mockRepo :=
  {| GetAirportsFn := GetAirportsFn failing;
     GetFlightPathsFn := GetFlightPathsFn failing;
     GetHotelsFn := fun _ _ => r;
     CreateUserFn := CreateUserFn failing;
     GetUserPasswordFn := GetUserPasswordFn failing;
     GetUserFlightsFn := GetUserFlightsFn failing;
     UpdateUserFlightsFn := UpdateUserFlightsFn failing |}.

Definition creating (r : option error) : mockRepo :=
  {| GetAirportsFn := GetAirportsFn failing;
     GetFlightPathsFn := GetFlightPathsFn failing;
     GetHotelsFn := GetHotelsFn failing;
     CreateUserFn := fun _ _ => r;
     GetUserPasswordFn := GetUserPasswordFn failing;
     GetUserFlightsFn := GetUserFlightsFn failing;
     UpdateUserFlightsFn := UpdateUserFlightsFn failing |}.

Definition stored_password (r : result string) : mockRepo :=
  {| GetAirportsFn := GetAirportsFn failing;
     GetFlightPathsFn := GetFlightPathsFn failing;
     GetHotelsFn := GetHotelsFn failing;
     CreateUserFn := CreateUserFn failing;
     GetUserPasswordFn := fun _ => r;
     GetUserFlightsFn := GetUserFlightsFn failing;
     UpdateUserFlightsFn := UpdateUserFlightsFn failing |}.

Definition user_flights (r : result jsonUserFlightsResp) : mockRepo :=
  {| GetAirportsFn := GetAirportsFn failing;
     GetFlightPathsFn := GetFlightPathsFn failing;
     GetHotelsFn := GetHotelsFn failing;
     CreateUserFn := CreateUserFn failing;
     GetUserPasswordFn := GetUserPasswordFn failing;
     GetUserFlightsFn := fun _ => r;
     UpdateUserFlightsFn := UpdateUserFlightsFn failing |}.

Definition updating (r : result jsonUserBookFlightResp) : mockRepo :=
  {| GetAirportsFn := GetAirportsFn failing;
     GetFlightPathsFn := GetFlightPathsFn failing;
     GetHotelsFn := GetHotelsFn failing;
     CreateUserFn := CreateUserFn failing;
     GetUserPasswordFn := GetUserPasswordFn failing;
     GetUserFlightsFn := GetUserFlightsFn failing;
     UpdateUserFlightsFn := fun _ _ => r |}.

(** The Couchbase repository, its search methods answering nothing. *)
#[export] Instance couchbase : Repo.Repository CB.CBRepository :=
  {| Repo.answer :=
       CB.CBRepository_answer
         (fun _ => Ok {| Data := []; Context := [] |})
         (fun _ _ _ => Ok {| Data := []; Context := [] |})
         (fun _ _ => Ok {| Data := []; Context := [] |}) |}.

Definition empty_bucket : CB.CBRepository :=
  {| CB.users := ∅; CB.flights := ∅; CB.next_cas := 1;
     CB.today := "12/15/2020"; CB.random := ["uuid-1"; "uuid-2"; "uuid-3"] |}.

(** A request with the given method, path, headers and body. *)
Definition request (method path : string) (header : gmap string string)
    (body : string) : Http.Request :=
  {| Http.Method := method; Http.Path := path; Http.Form := ∅;
     Http.Header := header; Http.Body := body; Http.Vars := ∅ |}.

(** The same request with the query parameters [form]. *)
Definition query (req : Http.Request) (form : gmap string string) : Http.Request :=
  {| Http.Method := Http.Method req; Http.Path := Http.Path req;
     Http.Form := form; Http.Header := Http.Header req;
     Http.Body := Http.Body req; Http.Vars := Http.Vars req |}.

Definition ServeHTTP : Http.ResponseWriter -> Http.Request -> Server.Prog :=
  Server.ServeHTTP FileServer.

(** The data of the tests. *)
Definition credentials : string :=
  dq "{'user':'test_user','password':'test_passw'}".

Definition validJwtToken : string := "HS256.test_user.e".
Definition invalidJwtToken : string := "HS256..c".

Definition validAirports : jsonAirportSearchResp :=
  {| Data := [{| airport_AirportName := "San Francisco Intl" |}];
     Context := ["test"] |}.

Definition validFlights : jsonFlightSearchResp :=
  {| Data := [{| flight_Name := "FLIGHT1"; flight_Flight := "1234HH";
                 flight_Equipment := ""; flight_Utc := "";
                 flight_SourceAirport := ""; flight_DestinationAirport := "";
                 flight_Price := PrimFloat.zero; flight_FlightTime := 0 |}];
     Context := ["test"] |}.

Definition validHotels : jsonHotelSearchResp :=
  {| Data := [{| hotel_Country := "UK"; hotel_City := ""; hotel_State := "";
                 hotel_Address := ""; hotel_Name := "";
                 hotel_Description := "Four Star" |}];
     Context := ["test"] |}.

Definition validUserFlights : jsonUserFlightsResp :=
  {| Data := [{| booked_Name := "FLIGHT1"; booked_Flight := "1234HH";
                 booked_Price := PrimFloat.zero; booked_Date := "";
                 booked_SourceAirport := ""; booked_DestinationAirport := "";
                 booked_BookedOn := "" |}];
     Context := ["test"] |}.

Definition bookedFlights : list jsonBookedFlight :=
  [{| booked_Name := "US Airways"; booked_Flight := "US229";
      booked_Price := PrimFloat.of_uint63 (Uint63.of_Z 158); booked_Date := "";
      booked_SourceAirport := "SFO"; booked_DestinationAirport := "LAX";
      booked_BookedOn := "" |}].

Definition validBooking : jsonUserBookFlightResp :=
  {| Data := {| Added := bookedFlights |}; Context := ["test"] |}.

Definition booking : string :=
  dq ("{'flights':[{'name':'US Airways','flight':'US229',"
      +:+ "'sourceairport':'SFO','destinationairport':'LAX','price':158}]}").

(** What the tests look at: the status code and the body of the
    response a request leaves on a new recorder, and the calls the mock
    received. *)
Definition serve {DB} `{Repo.Repository DB} (db : DB) (req : Http.Request)
    : option (Z * list Json.Document) * list Repo.call :=
  let res := Server.run (ServeHTTP Http.NewRecorder req) db in
  (match Server.out res with
   | Server.Returned w => Some (Http.Code w, Http.Written w)
   | Server.Panicked _ => None
   end,
   Server.calls res).

End Ref.
(* ===================================================================== *)
(** ** Vocabulary of the statements                                       *)
(* ===================================================================== *)

Module Spec.

(** A path element a route variable can match: not empty, no slash, and
    neither [.] nor [..], which no path in canonical form holds. *)
Definition element (s : string) : Prop :=
  s <> "" /\ Contains s "/" = false /\ s <> "." /\ s <> "..".

(** A path in canonical form: the router serves it without a redirect. *)
Definition canonical (path : string) : Prop :=
  Mux.cleanPath path = path.

(** What it takes for a path element to match a template element. *)
Definition element_matches (e : Mux.element) (seg : string) : Prop :=
  match e with
  | Mux.Lit text => seg = text
  | Mux.Var _ => seg <> ""
  end.

(** The REST endpoints: the requests, by method and path, and the handler
    each belongs to. *)
Inductive endpoint : string -> string -> Mux.HandlerFunc -> Prop :=
| airports :
    endpoint "GET" "/api/airports" Mux.AirportSearch
| flightPaths from to :
    element from -> element to ->
    endpoint "GET" ("/api/flightPaths/" +:+ from +:+ "/" +:+ to) Mux.FlightSearch
| user_login :
    endpoint "POST" "/api/user/login" Mux.UserLogin
| user_signup :
    endpoint "POST" "/api/user/signup" Mux.UserSignup
| user_flights username :
    element username ->
    endpoint "GET" ("/api/user/" +:+ username +:+ "/flights") Mux.UserFlights
| user_book_flight username :
    element username ->
    endpoint "POST" ("/api/user/" +:+ username +:+ "/flights") Mux.UserBookFlight
| hotel_description description :
    element description ->
    endpoint "GET" ("/api/hotel/" +:+ description +:+ "/") Mux.HotelSearch
| hotel_location description location :
    element description -> element location ->
    endpoint "GET" ("/api/hotel/" +:+ description +:+ "/" +:+ location +:+ "/")
      Mux.HotelSearch.

(** The response a handler leaves on a fresh recorder after writing one
    document with a status code; [failure] is the one [writeJsonFailure]
    writes. *)
Definition response (code : Z) (doc : Json.Document) : Http.ResponseWriter :=
  {| Http.wroteHeader := true; Http.Code := code; Http.Written := [doc] |}.

Definition failure (code : Z) (msg : string) : Http.ResponseWriter :=
  response code (Json.failObj msg).

(** The body of a login or signup response that carries [token]. *)
Definition token_envelope (token : string) : envelope tokenData :=
  {| Data := {| Token := token |}; Context := [] |}.

(** The word of a header value before its first space, [Bearer] in
    [Bearer <token>]. *)
Definition scheme (value : string) : string :=
  hd "" (SplitN value " " 2).

(** The header the authentication decoder goes by: [Authorization] when
    its first word is [Bearer], [Authentication] otherwise. *)
Definition auth_header (req : Http.Request) : string :=
  if String.eqb (scheme (Http.Header_Get req "Authorization")) "Bearer"
  then Http.Header_Get req "Authorization"
  else Http.Header_Get req "Authentication".

(** A handler that returns has written one document, with one of the
    status codes of the interface: 200, 400, 401, 409 or 500. *)
Definition one_document (o : Server.outcome) : Prop :=
  match o with
  | Server.Returned w =>
      In (Http.Code w) [200; 400; 401; 409; 500] /\
      length (Http.Written w) = 1%nat
  | Server.Panicked _ => True
  end.

End Spec.

(* ===================================================================== *)
(** ** Vocabulary on the states of the bucket                             *)
(* ===================================================================== *)

Module Bucket.
Import CB.

(** Every user document is stored under the name it carries. *)
Definition keyed_by_name (cr : CBRepository) : Prop :=
  forall key d, users cr !! key = Some d -> user_Name (content d) = key.

(** Every flight a user document lists is in the flights collection. *)
Definition no_dangling (cr : CBRepository) : Prop :=
  forall key d flightID,
    users cr !! key = Some d -> In flightID (user_Flights (content d)) ->
    is_Some (flights cr !! flightID).

Definition consistent (cr : CBRepository) : Prop :=
  keyed_by_name cr /\ no_dangling cr.

(** The flights of a request as the repository books them today. *)
Definition booked (cr : CBRepository) (bookedFlights : list jsonBookedFlight)
    : list jsonBookedFlight :=
  map (fun flight => set_BookedOn flight (today cr)) bookedFlights.

(** The password and the flight list stored for a user, if any. *)
Definition password_of (cr : CBRepository) (username : string) : option string :=
  (fun d => user_Password (content d)) <$> users cr !! username.

Definition flights_of (cr : CBRepository) (username : string)
    : option (list string) :=
  (fun d => user_Flights (content d)) <$> users cr !! username.

Section Queries.
Variable Query_GetAirports : string -> result jsonAirportSearchResp.
Variable Query_GetFlightPaths : string -> string -> Z -> result jsonFlightSearchResp.
Variable Query_GetHotels : string -> string -> result jsonHotelSearchResp.

(** [CBRepository] as a [Repository], whatever the cluster answers to
    the searches. *)
Definition repository : Repo.Repository CBRepository :=
  {| Repo.answer :=
       CBRepository_answer Query_GetAirports Query_GetFlightPaths Query_GetHotels |}.

End Queries.

End Bucket.

(* ===================================================================== *)
(** ** The price of a flight                                              *)
(* ===================================================================== *)

Module Math.

(** [math.Ceil]: the least integer value not below [x]; zeros, infinities
    and NaN are returned as they are, and a negative fraction above -1
    gives the negative zero. *)
Definition Ceil (x : float64) : float64 :=
  match Prim2SF x with
  | S754_finite negative m e =>
      if 0 <=? e then x
      else
        let whole := Z.pos m / 2 ^ (- e) in
        let exact := Z.pos m mod 2 ^ (- e) =? 0 in
        if negative
        then if whole =? 0 then PrimFloat.neg_zero
             else PrimFloat.opp (PrimFloat.of_uint63 (Uint63.of_Z whole))
        else PrimFloat.of_uint63
               (Uint63.of_Z (if exact then whole else whole + 1))
  | _ => x
  end.

(** The conversion [float64(i)] of an [int] above [-2^63]. *)
Definition float64_of_int (i : Z) : float64 :=
  if i <? 0
  then PrimFloat.opp (PrimFloat.of_uint63 (Uint63.of_Z (- i)))
  else PrimFloat.of_uint63 (Uint63.of_Z i).

End Math.

Module Flights.

(** The price [GetFlightPaths] gives a flight of [FlightTime] minutes:
    [math.Ceil(float64(flight.FlightTime)/8*100) / 100]. *)
Definition Price (FlightTime : Z) : float64 :=
  (Math.Ceil (Math.float64_of_int FlightTime / 8 * 100) / 100)%float.

(** The same price counted in cents: 12.5 cents a minute, rounded up. *)
Definition cents (FlightTime : Z) : Z := (25 * FlightTime + 1) / 2.

(** What is checked of the price of one flight time. *)
Definition priced_well (FlightTime : Z) : bool :=
  let price := Price FlightTime in
  Json.finite price
  && PrimFloat.eqb price (Math.float64_of_int (cents FlightTime) / 100)%float
  && PrimFloat.leb (Math.float64_of_int FlightTime / 8)%float price
  && PrimFloat.leb price 1000%float.

End Flights.

(* ===================================================================== *)
(** ** Sample buckets and requests                                        *)
(* ===================================================================== *)

Module Sample.
Import Ref.

(** The bucket after [test_user] signed up. *)
Definition signed_up : CB.CBRepository :=
  (CB.CreateUser "test_user" "test_passw" empty_bucket).2.

(** The same bucket with a random source that yields one UUID only. *)
Definition running_dry : CB.CBRepository :=
  {| CB.users := CB.users signed_up; CB.flights := CB.flights signed_up;
     CB.next_cas := CB.next_cas signed_up; CB.today := CB.today signed_up;
     CB.random := ["uuid-1"] |}.

(** The bucket after [test_user] booked the flight of the tests. *)
Definition booked_once : CB.CBRepository :=
  (CB.UpdateUserFlights "test_user" bookedFlights signed_up).2.

(** The documents of [booked_once]. *)
Definition test_user_document : CB.document jsonUser :=
  {| CB.content := {| user_Name := "test_user"; user_Password := "test_passw";
                      user_Flights := ["uuid-1"] |};
     CB.Cas := 3 |}.

Definition flight_document : CB.document jsonBookedFlight :=
  {| CB.content :=
       {| booked_Name := "US Airways"; booked_Flight := "US229";
          booked_Price := PrimFloat.of_uint63 (Uint63.of_Z 158); booked_Date := "";
          booked_SourceAirport := "SFO"; booked_DestinationAirport := "LAX";
          booked_BookedOn := "12/15/2020" |};
     CB.Cas := 2 |}.



(** The name Jose in Latin-1, with an accent on the e: its last byte is
    0xE9, which is not UTF-8. The token issued for it, and a request that
    carries the token. *)
Definition Latin1_name : string :=
  "Jos" +:+ String (ascii_of_N 233) EmptyString.

Definition Latin1_token : string :=
  match Server.createJwtToken Latin1_name with
  | Ok authToken => authToken
  | Err _ => ""
  end.

Definition Latin1_request : Http.Request :=
  request "GET" "/api/user/Jos/flights"
    {[ "Authorization" := "Bearer " +:+ Latin1_token ]} "".

(** A listing with [..] in the place of the user name. *)
Definition dot_dot : Http.Request :=
  request "GET" "/api/user/../flights"
    {[ "Authorization" := "Bearer " +:+ validJwtToken ]} "".

Definition signup : Http.Request :=
  request "POST" "/api/user/signup" ∅ credentials.

Definition login : Http.Request :=
  request "POST" "/api/user/login" ∅ credentials.

Definition list_flights : Http.Request :=
  request "GET" "/api/user/test_user/flights"
    {[ "Authorization" := "Bearer " +:+ validJwtToken ]} "".

Definition book_flight : Http.Request :=
  request "POST" "/api/user/test_user/flights"
    {[ "Authorization" := "Bearer " +:+ validJwtToken ]} booking.

(** A bad token in [Authorization] and a good one in [Authentication]. *)
Definition two_tokens : Http.Request :=
  request "GET" "/api/user/test_user/flights"
    {[ "Authorization" := "Bearer HS256.test_user.x";
       "Authentication" := "Bearer " +:+ validJwtToken ]} "".

Definition bad_token : Http.Request :=
  request "GET" "/api/user/test_user/flights"
    {[ "Authorization" := "Bearer HS256.test_user.x" ]} "".

Definition bare_Bearer : Http.Request :=
  request "GET" "/api/user/test_user/flights" {[ "Authorization" := "Bearer" ]} "".

Definition empty_user : Http.Request :=
  request "GET" "/api/user/boom/flights"
    {[ "Authorization" := "Bearer " +:+ invalidJwtToken ]} "".

End Sample.
(* ===================================================================== *)
(** * Properties                                                          *)
(* ===================================================================== *)

(** ** Splitting and joining strings *)

Section Strings.
Variable sep : ascii.

Lemma cut_found (a b : string) :
  Contains a sep = false -> cut sep (a +:+ String sep b) = Some (a, b).
Proof.
  induction a as [|c a IH]; simpl.
  - now rewrite Ascii.eqb_refl.
  - intros Hc. apply orb_false_iff in Hc as [Hc Ha].
    rewrite Hc, (IH Ha). reflexivity.
Qed.

Lemma cut_absent (a : string) :
  Contains a sep = false -> cut sep a = None.
Proof.
  induction a as [|c a IH]; simpl; [reflexivity|].
  intros Hc. apply orb_false_iff in Hc as [Hc Ha].
  now rewrite Hc, (IH Ha).
Qed.

Lemma split_all_found (a b : string) :
  Contains a sep = false ->
  split_all sep (a +:+ String sep b) = (a, Split b sep).
Proof.
  unfold Split. induction a as [|c a IH]; simpl.
  - intros _. rewrite Ascii.eqb_refl. now destruct (split_all sep b).
  - intros Hc. apply orb_false_iff in Hc as [Hc Ha].
    rewrite (IH Ha), Hc. reflexivity.
Qed.

Lemma split_all_absent (a : string) :
  Contains a sep = false -> split_all sep a = (a, []).
Proof.
  induction a as [|c a IH]; simpl; [reflexivity|].
  intros Hc. apply orb_false_iff in Hc as [Hc Ha].
  now rewrite (IH Ha), Hc.
Qed.

(** [Split] of an element followed by a separator and more text. *)
Lemma Split_cons (a b : string) :
  Contains a sep = false -> Split (a +:+ String sep b) sep = a :: Split b sep.
Proof.
  intros Ha. unfold Split at 1. now rewrite split_all_found.
Qed.

Lemma Split_last (a : string) :
  Contains a sep = false -> Split a sep = [a].
Proof.
  intros Ha. unfold Split. now rewrite split_all_absent.
Qed.

(** The elements [Split] yields hold no separator. *)
Lemma Split_elements (s : string) :
  Forall (fun a => Contains a sep = false) (Split s sep).
Proof.
  unfold Split. induction s as [|c s IH]; simpl.
  - repeat constructor.
  - destruct (split_all sep s) as [a rest].
    destruct (Ascii.eqb c sep) eqn:Hc.
    + constructor; [reflexivity | exact IH].
    + inversion IH; subst. constructor; [simpl; now rewrite Hc | assumption].
Qed.

(** [Join] undoes [Split]. *)
Lemma Join_Split (s : string) : Join (Split s sep) sep = s.
Proof.
  unfold Split. induction s as [|c s IH]; [reflexivity|].
  simpl. destruct (split_all sep s) as [a rest].
  destruct (Ascii.eqb_spec c sep) as [->|Hne].
  - change (Join (EmptyString :: a :: rest) sep)
      with (String sep (Join (a :: rest) sep)).
    now rewrite IH.
  - destruct rest as [|b rest].
    + simpl in *. now subst.
    + change (String c (Join (a :: b :: rest) sep) = String c s).
      now rewrite IH.
Qed.

End Strings.

(** The decoder's split of a header [Bearer <token>]. *)
Lemma SplitN_Bearer (token : string) :
  SplitN ("Bearer " +:+ token) " " 2 = ["Bearer"; token].
Proof. reflexivity. Qed.

(** [SplitN s sep 2] has one element, [s] itself, or two. *)
Lemma SplitN_2_cases (s : string) :
  (SplitN s " " 2 = [s] /\ cut " " s = None) \/
  (exists a b, SplitN s " " 2 = [a; b] /\ cut " " s = Some (a, b)).
Proof.
  unfold SplitN, split_loop.
  destruct (cut " " s) as [[a b]|]; [right; eauto | left; auto].
Qed.

Lemma cut_inv (sep : ascii) (s a b : string) :
  cut sep s = Some (a, b) -> s = a +:+ String sep b /\ Contains a sep = false.
Proof.
  revert a. induction s as [|c s IH]; simpl; [discriminate|].
  intros a. destruct (Ascii.eqb_spec c sep) as [->|Hne].
  - intros [= <- <-]. auto.
  - destruct (cut sep s) as [[a' b']|]; [|discriminate].
    intros [= <- <-]. destruct (IH a' eq_refl) as [-> Ha']. simpl.
    split; [reflexivity|]. rewrite Ha'.
    now apply Ascii.eqb_neq in Hne as ->.
Qed.

(** [SplitN s sep 2] always has a first element, [Spec.scheme s]. *)
Lemma SplitN_scheme (s : string) :
  SplitN s " " 2 !! 0%nat = Some (Spec.scheme s).
Proof.
  unfold Spec.scheme.
  destruct (SplitN_2_cases s) as [[-> _]|(a & b & -> & _)]; reflexivity.
Qed.

(** A header whose first word is [Bearer] is [Bearer] alone, which splits
    into one part, or [Bearer <token>], which splits into two. *)
Lemma scheme_Bearer (s : string) :
  Spec.scheme s = "Bearer" ->
  (s = "Bearer" /\ SplitN s " " 2 = ["Bearer"]) \/
  (exists token, s = "Bearer " +:+ token /\ SplitN s " " 2 = ["Bearer"; token]).
Proof.
  unfold Spec.scheme.
  destruct (SplitN_2_cases s) as [[-> _]|(a & b & -> & Hcut)]; simpl.
  - intros ->. now left.
  - intros ->. right. exists b. apply cut_inv in Hcut as [-> _]. split; reflexivity.
Qed.

(** ** Routing *)

Lemma match_elements_sound tpl : forall segs vars0 vars,
  Mux.match_elements tpl segs vars0 = Some vars ->
  Forall2 Spec.element_matches tpl segs.
Proof.
  induction tpl as [|e tpl IH]; intros [|seg segs] vars0 vars; simpl.
  - constructor.
  - discriminate.
  - destruct e; discriminate.
  - destruct e as [text|name].
    + destruct (String.eqb_spec text seg) as [->|]; [|discriminate].
      intros Hm. constructor; [reflexivity | eauto].
    + destruct (String.eqb_spec seg "") as [|Hne]; [discriminate|].
      intros Hm. constructor; [exact Hne | eauto].
Qed.

Lemma match_elements_complete tpl : forall segs vars0,
  Forall2 Spec.element_matches tpl segs ->
  is_Some (Mux.match_elements tpl segs vars0).
Proof.
  induction tpl as [|e tpl IH]; intros segs vars0 HF; inversion HF; subst; simpl.
  - eauto.
  - destruct e as [text|name]; simpl in *.
    + subst. rewrite String.eqb_refl. eauto.
    + destruct (String.eqb_spec y ""); [contradiction | eauto].
Qed.

(** A route is the first of the table to match a request when it matches
    and none before it does. *)
Lemma Router_Match_app routes1 r routes2 req vars :
  Forall (fun r' => Mux.Route_Match r' req = None) routes1 ->
  Mux.Route_Match r req = Some vars ->
  Mux.Router_Match (routes1 ++ r :: routes2) req = Some (Mux.route_handler r, vars).
Proof.
  induction 1 as [|r' routes1 Hr' _ IH]; simpl; intros Hr.
  - now rewrite Hr.
  - rewrite Hr'. auto.
Qed.

Lemma Router_Match_inv routes req h vars :
  Mux.Router_Match routes req = Some (h, vars) ->
  exists r, In r routes /\ Mux.route_handler r = h /\ Mux.Route_Match r req = Some vars.
Proof.
  induction routes as [|r routes IH]; simpl; [discriminate|].
  destruct (Mux.Route_Match r req) as [vars'|] eqn:Hr.
  - intros [= <- <-]. eauto.
  - intros Hm. destruct (IH Hm) as (r' & ? & ? & ?). eauto.
Qed.

Lemma Split_Join (sep : ascii) (a : string) (l : list string) :
  Forall (fun a => Contains a sep = false) (a :: l) ->
  Split (Join (a :: l) sep) sep = a :: l.
Proof.
  revert a. induction l as [|b l IH]; intros a Hl; inversion Hl; subst.
  - now apply Split_last.
  - change (Join (a :: b :: l) sep) with (a +:+ String sep (Join (b :: l) sep)).
    rewrite Split_cons by assumption. now rewrite IH.
Qed.


(** ** Paths in canonical form *)

Lemma element_eqb (e : string) :
  Spec.element e ->
  String.eqb e "" = false /\ String.eqb e "." = false /\ String.eqb e ".." = false.
Proof.
  intros (Hne & _ & Hdot & Hdots). repeat split; now apply String.eqb_neq.
Qed.

Lemma clean_elements_app rooted l1 : forall l2 out,
  clean_elements rooted (l1 ++ l2) out
  = clean_elements rooted l2 (clean_elements rooted l1 out).
Proof.
  induction l1 as [|e l1 IH]; intros l2 out; [reflexivity|].
  cbn [app clean_elements].
  destruct (String.eqb e "" || String.eqb e "."); [apply IH|].
  destruct (String.eqb e ".."); [|apply IH].
  destruct out as [|written out']; [apply IH|].
  destruct (String.eqb written ".."); apply IH.
Qed.

(** Elements that are none of the special ones are written as they come. *)
Lemma clean_elements_proper elems : forall out,
  Forall Spec.element elems ->
  clean_elements true elems out = rev elems ++ out.
Proof.
  induction elems as [|e elems IH]; intros out Hall; [reflexivity|].
  inversion Hall as [|? ? He Hrest]; subst.
  destruct (element_eqb e He) as (H1 & H2 & H3).
  cbn [clean_elements rev]. rewrite H1, H2, H3. cbn [orb].
  rewrite IH by assumption. now rewrite <- app_assoc.
Qed.

(** What the loop writes of a rooted path are proper elements. *)
Lemma clean_elements_elements elems : forall out,
  Forall (fun e => Contains e "/" = false) elems ->
  Forall Spec.element out ->
  Forall Spec.element (clean_elements true elems out).
Proof.
  induction elems as [|e elems IH]; intros out Hsep Hout; [exact Hout|].
  inversion Hsep as [|? ? He Hrest]; subst. cbn [clean_elements].
  destruct (String.eqb_spec e ""); [now apply IH|].
  destruct (String.eqb_spec e "."); [now apply IH|]. cbn [orb].
  destruct (String.eqb_spec e "..").
  - destruct out as [|written out']; [now apply IH|].
    inversion Hout as [|? ? Hw Hout']; subst.
    destruct (String.eqb_spec written "..") as [->|_]; [|now apply IH].
    now destruct Hw as (_ & _ & _ & Hw).
  - apply IH; [assumption|]. constructor; [|assumption]. repeat split; assumption.
Qed.

Lemma last_byte_app (a b : string) :
  b <> "" -> last_byte (a +:+ b) = last_byte b.
Proof.
  intros Hb. induction a as [|c a IH]; [reflexivity|].
  change (String c a +:+ b) with (String c (a +:+ b)). cbn [last_byte].
  rewrite <- IH. destruct (a +:+ b) eqn:Hab; [|reflexivity].
  destruct a; [now subst | discriminate].
Qed.

Lemma ends_with_app (a b : string) (c : ascii) :
  b <> "" -> ends_with (a +:+ b) c = ends_with b c.
Proof. intros Hb. unfold ends_with. now rewrite last_byte_app. Qed.

Lemma ends_with_Contains (e : string) (c : ascii) :
  Contains e c = false -> ends_with e c = false.
Proof.
  unfold ends_with. induction e as [|c' e IH]; [reflexivity|].
  cbn [Contains]. intros Hc. apply orb_false_iff in Hc as [Hc He].
  destruct e as [|c'' e]; [exact Hc|]. exact (IH He).
Qed.

(** A path of proper elements is not empty and does not end in a slash. *)
Lemma Join_elements (a : string) (l : list string) :
  Forall Spec.element (a :: l) ->
  Join (a :: l) "/" <> "" /\ ends_with (Join (a :: l) "/") "/" = false.
Proof.
  revert a. induction l as [|b l IH]; intros a Hall;
    inversion Hall as [|? ? Ha Hl]; subst.
  - destruct Ha as (Hne & Hsep & _). split; [exact Hne|].
    now apply ends_with_Contains.
  - destruct (IH b Hl) as [Hne Hend].
    change (Join (a :: b :: l) "/") with (a +:+ String "/" (Join (b :: l) "/")).
    split.
    + destruct a; discriminate.
    + change (String "/" (Join (b :: l) "/")) with ("/" +:+ Join (b :: l) "/").
      rewrite ends_with_app by discriminate.
      rewrite ends_with_app by assumption. exact Hend.
Qed.

Lemma append_assoc (a b c : string) : (a +:+ b) +:+ c = a +:+ (b +:+ c).
Proof.
  induction a as [|x a IH]; [reflexivity|].
  change (String x ((a +:+ b) +:+ c) = String x (a +:+ (b +:+ c))).
  now f_equal.
Qed.

Lemma Join_app_empty (a : string) (l : list string) (sep : ascii) :
  Join ((a :: l) ++ [""]) sep = Join (a :: l) sep +:+ String sep "".
Proof.
  revert a. induction l as [|b l IH]; intros a.
  - reflexivity.
  - change (Join ((a :: b :: l) ++ [""]) sep)
      with (a +:+ String sep (Join ((b :: l) ++ [""]) sep)).
    rewrite (IH b).
    change (Join (a :: b :: l) sep) with (a +:+ String sep (Join (b :: l) sep)).
    symmetry. apply (append_assoc a (String sep (Join (b :: l) sep)) (String sep "")).
Qed.

Lemma element_sep (elems : list string) :
  Forall Spec.element elems -> Forall (fun e => Contains e "/" = false) elems.
Proof.
  induction 1 as [|e l (_ & Hsep & _) _ IH]; constructor; assumption.
Qed.

(** [path.Clean] of a rooted path. *)
Lemma path_Clean_rooted (s : string) :
  path_Clean (String "/" s)
  = String "/" (Join (rev (clean_elements true (Split (String "/" s) "/") [])) "/").
Proof. destruct s; reflexivity. Qed.

Lemma prefix_rooted (s : string) : String.prefix "/" (String "/" s) = true.
Proof. destruct s; reflexivity. Qed.

Lemma Split_rooted (s : string) :
  Split (String "/" s) "/" = "" :: Split s "/".
Proof. exact (Split_cons "/" "" s eq_refl). Qed.

(** [path.Clean] of a rooted path of proper elements, with or without a
    slash at its end. *)
Lemma path_Clean_elements (a : string) (l : list string) :
  Forall Spec.element (a :: l) ->
  path_Clean (String "/" (Join (a :: l) "/")) = String "/" (Join (a :: l) "/").
Proof.
  intros Hall. rewrite path_Clean_rooted, Split_rooted.
  rewrite Split_Join by now apply element_sep.
  change (clean_elements true ("" :: a :: l) [])
    with (clean_elements true (a :: l) []).
  rewrite clean_elements_proper by assumption.
  now rewrite app_nil_r, rev_involutive.
Qed.

Lemma path_Clean_elements_slash (a : string) (l : list string) :
  Forall Spec.element (a :: l) ->
  path_Clean (String "/" (Join ((a :: l) ++ [""]) "/"))
  = String "/" (Join (a :: l) "/").
Proof.
  intros Hall. rewrite path_Clean_rooted, Split_rooted.
  change ((a :: l) ++ [""]) with (a :: (l ++ [""])) at 1.
  rewrite Split_Join.
  2:{ constructor; [now inversion Hall as [|? ? (_ & Hsep & _) _]|].
      apply Forall_app. split; [|repeat constructor].
      apply element_sep. now inversion Hall. }
  change (clean_elements true ("" :: a :: l ++ [""]) [])
    with (clean_elements true ((a :: l) ++ [""]) []).
  rewrite clean_elements_app, (clean_elements_proper (a :: l)) by assumption.
  change (clean_elements true [""] ?out) with out.
  now rewrite app_nil_r, rev_involutive.
Qed.

(** The paths of proper elements are in canonical form, with or without a
    slash at their end. *)
Lemma elements_canonical (elems : list string) :
  Forall Spec.element elems ->
  Spec.canonical (String "/" (Join elems "/")).
Proof.
  intros Hall. destruct elems as [|a l]; [reflexivity|].
  unfold Spec.canonical, Mux.cleanPath.
  change (String.eqb (String "/" ?s) "") with false.
  rewrite prefix_rooted.
  rewrite path_Clean_elements by assumption.
  destruct (Join_elements a l Hall) as [Hne Hend].
  change (String "/" (Join (a :: l) "/")) with ("/" +:+ Join (a :: l) "/") at 1.
  rewrite ends_with_app by assumption. now rewrite Hend.
Qed.

Lemma elements_slash_canonical (a : string) (l : list string) :
  Forall Spec.element (a :: l) ->
  Spec.canonical (String "/" (Join ((a :: l) ++ [""]) "/")).
Proof.
  intros Hall. unfold Spec.canonical, Mux.cleanPath.
  change (String.eqb (String "/" ?s) "") with false.
  rewrite prefix_rooted.
  rewrite path_Clean_elements_slash by assumption.
  rewrite Join_app_empty.
  change (String "/" (Join (a :: l) "/" +:+ "/"))
    with (String "/" (Join (a :: l) "/") +:+ "/") at 1.
  rewrite ends_with_app by discriminate.
  destruct (Join_elements a l Hall) as [Hne _].
  destruct (Join (a :: l) "/") as [|c s] eqn:Hj; [contradiction|].
  reflexivity.
Qed.

Lemma prefix_slash (c : ascii) (s : string) :
  String.prefix "/" (String c s) = true -> c = "/"%char.
Proof.
  intros Hprefix. apply String.prefix_correct in Hprefix.
  destruct s; simpl in Hprefix; congruence.
Qed.

(** The canonical paths are the rooted paths of proper elements, with or
    without a slash at their end. *)
Lemma canonical_elements (p : string) :
  Spec.canonical p ->
  exists elems,
    Forall Spec.element elems /\
    (p = String "/" (Join elems "/") \/
     (elems <> [] /\ p = String "/" (Join (elems ++ [""]) "/"))).
Proof.
  unfold Spec.canonical, Mux.cleanPath. destruct p as [|c p]; [discriminate|].
  change (String.eqb (String c p) "") with false. cbv iota zeta.
  intros Hclean.
  assert (Hrooted : c = "/"%char).
  { destruct (String.prefix "/" (String c p)) eqn:Hprefix;
      [now apply prefix_slash in Hprefix|].
    change ("/" +:+ String c p) with (String "/" (String c p)) in Hclean.
    rewrite path_Clean_rooted in Hclean.
    destruct (_ && _) in Hclean; now injection Hclean as <- _. }
  subst c. rewrite prefix_rooted, path_Clean_rooted, Split_rooted in Hclean.
  change (clean_elements true ("" :: ?l) []) with (clean_elements true l [])
    in Hclean.
  set (out := rev (clean_elements true (Split p "/") [])) in Hclean.
  assert (Hout : Forall Spec.element out).
  { apply Forall_rev, clean_elements_elements; [apply Split_elements | constructor]. }
  exists out. split; [exact Hout|].
  destruct (_ && _) eqn:Hslash in Hclean.
  - right. apply andb_true_iff in Hslash as [_ Hroot].
    destruct out as [|a l]; [discriminate|]. split; [discriminate|].
    rewrite Join_app_empty. symmetry. exact Hclean.
  - left. symmetry. exact Hclean.
Qed.

Lemma canonical_prefix (p : string) :
  Spec.canonical p -> String.prefix "/" p = true.
Proof.
  intros Hp. destruct (canonical_elements p Hp) as (elems & _ & [->|[_ ->]]);
    apply prefix_rooted.
Qed.

(** No element of a canonical path is [.] or [..]. *)
Lemma canonical_Split (p : string) :
  Spec.canonical p ->
  Forall (fun e => e <> "." /\ e <> "..") (Split p "/").
Proof.
  intros Hp. destruct (canonical_elements p Hp) as (elems & Hall & [->|[Hne ->]]);
    rewrite Split_rooted; (constructor; [split; discriminate|]).
  - destruct elems as [|a l]; [repeat constructor; discriminate|].
    rewrite Split_Join by now apply element_sep.
    eapply Forall_impl; [exact Hall|]. now intros e (_ & _ & Hdot & Hdots).
  - destruct elems as [|a l]; [contradiction|].
    change ((a :: l) ++ [""]) with (a :: (l ++ [""])).
    rewrite Split_Join.
    + change (a :: (l ++ [""])) with ((a :: l) ++ [""]).
      apply Forall_app. split; [|repeat constructor; discriminate].
      eapply Forall_impl; [exact Hall|]. now intros e (_ & _ & Hdot & Hdots).
    + change (a :: (l ++ [""])) with ((a :: l) ++ [""]).
      apply Forall_app. split; [now apply element_sep | repeat constructor].
Qed.

Lemma Route_Match_Path tpl method h req vars :
  Mux.Route_Match
    {| Mux.route_path := Mux.PathTemplate tpl; Mux.route_methods := [method];
       Mux.route_handler := h |} req = Some vars <->
  Http.Method req = method /\
  Mux.match_elements (Mux.parse_template tpl) (Split (Http.Path req) "/") ∅ = Some vars.
Proof.
  unfold Mux.Route_Match, Mux.match_method, Mux.match_path; simpl.
  rewrite orb_false_r.
  destruct (String.eqb_spec (Http.Method req) method); split; intros Hm;
    try discriminate; tauto.
Qed.

(** The elements of a path that a template of the table matches. *)
Lemma Route_Match_elements tpl method h req vars :
  Spec.canonical (Http.Path req) ->
  Mux.Route_Match
    {| Mux.route_path := Mux.PathTemplate tpl; Mux.route_methods := [method];
       Mux.route_handler := h |} req = Some vars ->
  Http.Method req = method /\
  exists segs, Http.Path req = Join segs "/" /\
    Forall (fun a => Contains a "/" = false) segs /\
    Forall (fun a => a <> "." /\ a <> "..") segs /\
    Forall2 Spec.element_matches (Mux.parse_template tpl) segs.
Proof.
  intros Hclean Hm. apply Route_Match_Path in Hm as [Hmethod Hm].
  split; [exact Hmethod|]. exists (Split (Http.Path req) "/").
  split; [symmetry; apply Join_Split|].
  split; [apply Split_elements|].
  split; [now apply canonical_Split | eapply match_elements_sound; eauto].
Qed.

Ltac invert_elements :=
  repeat match goal with
    | H : Forall2 Spec.element_matches (_ :: _) _ |- _ => inversion H; clear H; subst
    | H : Forall2 Spec.element_matches [] _ |- _ => inversion H; clear H; subst
    | H : Forall _ (_ :: _) |- _ => inversion H; clear H; subst
    | H : Spec.element_matches (Mux.Lit _) _ |- _ => simpl in H; subst
    | H : Spec.element_matches (Mux.Var _) _ |- _ => simpl in H
    end.

Lemma routed_endpoint req h vars :
  Spec.canonical (Http.Path req) ->
  h <> Mux.FileServer ->
  Mux.Router_Match Server.setupRoutes req = Some (h, vars) ->
  Spec.endpoint (Http.Method req) (Http.Path req) h.
Proof.
  intros Hclean Hh Hm. apply Router_Match_inv in Hm as (r & Hin & <- & Hm).
  unfold Server.setupRoutes in Hin. simpl in Hin.
  repeat (destruct Hin as [<-|Hin]); try contradiction;
    apply (Route_Match_elements _ _ _ _ _ Hclean) in Hm
      as (-> & segs & Hpath & Hsep & Hdots & Hel);
    rewrite Hpath; clear Hclean Hpath;
    cbv [Mux.parse_template map Split split_all Mux.parse_element Ascii.eqb Bool.eqb Mux.drop_last] in Hel;
    invert_elements; simpl Mux.route_handler.
  all: lazymatch goal with
       | |- Spec.endpoint _ (Join [_; _; _] _) _ => constructor
       | |- Spec.endpoint _ (Join [_; _; _; "login"] _) _ => constructor
       | |- Spec.endpoint _ (Join [_; _; _; "signup"] _) _ => constructor
       | |- Spec.endpoint "GET" (Join [_; _; "flightPaths"; ?a; ?b] _) _ =>
           apply (Spec.flightPaths a b)
       | |- Spec.endpoint "GET" (Join [_; _; "user"; ?a; _] _) _ =>
           apply (Spec.user_flights a)
       | |- Spec.endpoint "POST" (Join [_; _; "user"; ?a; _] _) _ =>
           apply (Spec.user_book_flight a)
       | |- Spec.endpoint _ (Join [_; _; "hotel"; ?a; _] _) _ =>
           apply (Spec.hotel_description a)
       | |- Spec.endpoint _ (Join [_; _; "hotel"; ?a; ?b; _] _) _ =>
           apply (Spec.hotel_location a b)
       end;
    repeat match goal with H : _ /\ _ |- _ => destruct H end;
    unfold Spec.element; auto.
Qed.
Lemma Route_Match_eq tpl method h req :
  Mux.Route_Match
    {| Mux.route_path := Mux.PathTemplate tpl; Mux.route_methods := [method];
       Mux.route_handler := h |} req =
  if String.eqb (Http.Method req) method
  then Mux.match_elements (Mux.parse_template tpl) (Split (Http.Path req) "/") ∅
  else None.
Proof.
  unfold Mux.Route_Match, Mux.match_method, Mux.match_path; simpl.
  now rewrite orb_false_r.
Qed.

Lemma eqb_element_empty s : Spec.element s -> String.eqb s "" = false.
Proof. intros [Hne _]. now apply String.eqb_neq. Qed.

Lemma eqb_empty_element s : Spec.element s -> String.eqb "" s = false.
Proof. intros [Hne _]. apply String.eqb_neq. congruence. Qed.

(** Evaluating the router on a request whose method and path elements
    are known. *)
Ltac eval_eqb :=
  repeat (match goal with
          | |- context [String.eqb ?a ?b] =>
              first [ rewrite (eqb_element_empty a) by assumption
                    | rewrite (eqb_empty_element b) by assumption
                    | let r := eval vm_compute in (String.eqb a b) in
                      match r with true => idtac | false => idtac end;
                      change (String.eqb a b) with r
                    | destruct (String.eqb a b) ]
          end; cbn -[String.eqb]).

(** The elements of the paths of the table are proper. *)
Ltac proper_elements :=
  repeat (constructor;
          [first [ assumption
                 | unfold Spec.element; repeat split;
                   first [discriminate | reflexivity] ]|]);
  constructor.

Ltac route Hmethod Hsegs Hclean :=
  unfold Mux.Router_ServeHTTP; rewrite Hclean, String.eqb_refl;
  unfold Server.setupRoutes, Mux.Router_Match;
  rewrite !Route_Match_eq, Hmethod, Hsegs; cbn -[String.eqb];
  eval_eqb; reflexivity.

Ltac split_path Hpath segs :=
  rewrite Hpath;
  match goal with
  | |- Split ?p _ = _ => change p with (Join segs "/")
  end;
  apply Split_Join;
  repeat match goal with H : Spec.element _ |- _ => destruct H as (? & ? & ? & ?) end;
  repeat constructor; assumption.

Lemma route_airports req :
  Http.Method req = "GET" -> Http.Path req = "/api/airports" ->
  Mux.Router_ServeHTTP Server.setupRoutes req = Mux.Matched Mux.AirportSearch ∅.
Proof.
  intros Hmethod Hpath.
  assert (Hclean : Mux.cleanPath (Http.Path req) = Http.Path req)
    by (rewrite Hpath; reflexivity).
  assert (Hsegs : Split (Http.Path req) "/" = [""; "api"; "airports"])
    by (rewrite Hpath; reflexivity).
  route Hmethod Hsegs Hclean.
Qed.

Lemma route_flightPaths req from to :
  Http.Method req = "GET" ->
  Http.Path req = "/api/flightPaths/" +:+ from +:+ "/" +:+ to ->
  Spec.element from -> Spec.element to ->
  Mux.Router_ServeHTTP Server.setupRoutes req =
    Mux.Matched Mux.FlightSearch (<["to" := to]> (<["from" := from]> ∅)).
Proof.
  intros Hmethod Hpath Hfrom Hto.
  assert (Hclean : Mux.cleanPath (Http.Path req) = Http.Path req).
  { rewrite Hpath. apply (elements_canonical ["api"; "flightPaths"; from; to]).
    proper_elements. }
  assert (Hsegs : Split (Http.Path req) "/" = [""; "api"; "flightPaths"; from; to])
    by split_path Hpath [""; "api"; "flightPaths"; from; to].
  route Hmethod Hsegs Hclean.
Qed.

Lemma route_login req :
  Http.Method req = "POST" -> Http.Path req = "/api/user/login" ->
  Mux.Router_ServeHTTP Server.setupRoutes req = Mux.Matched Mux.UserLogin ∅.
Proof.
  intros Hmethod Hpath.
  assert (Hclean : Mux.cleanPath (Http.Path req) = Http.Path req)
    by (rewrite Hpath; reflexivity).
  assert (Hsegs : Split (Http.Path req) "/" = [""; "api"; "user"; "login"])
    by (rewrite Hpath; reflexivity).
  route Hmethod Hsegs Hclean.
Qed.

Lemma route_signup req :
  Http.Method req = "POST" -> Http.Path req = "/api/user/signup" ->
  Mux.Router_ServeHTTP Server.setupRoutes req = Mux.Matched Mux.UserSignup ∅.
Proof.
  intros Hmethod Hpath.
  assert (Hclean : Mux.cleanPath (Http.Path req) = Http.Path req)
    by (rewrite Hpath; reflexivity).
  assert (Hsegs : Split (Http.Path req) "/" = [""; "api"; "user"; "signup"])
    by (rewrite Hpath; reflexivity).
  route Hmethod Hsegs Hclean.
Qed.

Lemma route_user_flights req username :
  Http.Method req = "GET" ->
  Http.Path req = "/api/user/" +:+ username +:+ "/flights" ->
  Spec.element username ->
  Mux.Router_ServeHTTP Server.setupRoutes req =
    Mux.Matched Mux.UserFlights (<["username" := username]> ∅).
Proof.
  intros Hmethod Hpath Hu.
  assert (Hclean : Mux.cleanPath (Http.Path req) = Http.Path req).
  { rewrite Hpath. apply (elements_canonical ["api"; "user"; username; "flights"]).
    proper_elements. }
  assert (Hsegs : Split (Http.Path req) "/" = [""; "api"; "user"; username; "flights"])
    by split_path Hpath [""; "api"; "user"; username; "flights"].
  route Hmethod Hsegs Hclean.
Qed.

Lemma route_user_book_flight req username :
  Http.Method req = "POST" ->
  Http.Path req = "/api/user/" +:+ username +:+ "/flights" ->
  Spec.element username ->
  Mux.Router_ServeHTTP Server.setupRoutes req =
    Mux.Matched Mux.UserBookFlight (<["username" := username]> ∅).
Proof.
  intros Hmethod Hpath Hu.
  assert (Hclean : Mux.cleanPath (Http.Path req) = Http.Path req).
  { rewrite Hpath. apply (elements_canonical ["api"; "user"; username; "flights"]).
    proper_elements. }
  assert (Hsegs : Split (Http.Path req) "/" = [""; "api"; "user"; username; "flights"])
    by split_path Hpath [""; "api"; "user"; username; "flights"].
  route Hmethod Hsegs Hclean.
Qed.

Lemma route_hotel_description req description :
  Http.Method req = "GET" ->
  Http.Path req = "/api/hotel/" +:+ description +:+ "/" ->
  Spec.element description ->
  Mux.Router_ServeHTTP Server.setupRoutes req =
    Mux.Matched Mux.HotelSearch (<["description" := description]> ∅).
Proof.
  intros Hmethod Hpath Hd.
  assert (Hclean : Mux.cleanPath (Http.Path req) = Http.Path req).
  { rewrite Hpath. apply (elements_slash_canonical "api" ["hotel"; description]).
    proper_elements. }
  assert (Hsegs : Split (Http.Path req) "/" = [""; "api"; "hotel"; description; ""])
    by split_path Hpath [""; "api"; "hotel"; description; ""].
  route Hmethod Hsegs Hclean.
Qed.

Lemma route_hotel_location req description location :
  Http.Method req = "GET" ->
  Http.Path req = "/api/hotel/" +:+ description +:+ "/" +:+ location +:+ "/" ->
  Spec.element description -> Spec.element location ->
  Mux.Router_ServeHTTP Server.setupRoutes req =
    Mux.Matched Mux.HotelSearch
      (<["location" := location]> (<["description" := description]> ∅)).
Proof.
  intros Hmethod Hpath Hd Hl.
  assert (Hclean : Mux.cleanPath (Http.Path req) = Http.Path req).
  { rewrite Hpath.
    apply (elements_slash_canonical "api" ["hotel"; description; location]).
    proper_elements. }
  assert (Hsegs : Split (Http.Path req) "/"
                  = [""; "api"; "hotel"; description; location; ""])
    by split_path Hpath [""; "api"; "hotel"; description; location; ""].
  route Hmethod Hsegs Hclean.
Qed.

(** The path of the specification's hotel route, with no slash at its
    end, goes to the file server, whatever the method. *)
Lemma route_hotel_no_slash req description location :
  Http.Path req = "/api/hotel/" +:+ description +:+ "/" +:+ location ->
  Spec.element description -> Spec.element location ->
  Mux.Router_ServeHTTP Server.setupRoutes req = Mux.Matched Mux.FileServer ∅.
Proof.
  intros Hpath Hd Hl.
  assert (Hclean : Mux.cleanPath (Http.Path req) = Http.Path req).
  { rewrite Hpath.
    apply (elements_canonical ["api"; "hotel"; description; location]).
    proper_elements. }
  assert (Hsegs : Split (Http.Path req) "/"
                  = [""; "api"; "hotel"; description; location])
    by split_path Hpath [""; "api"; "hotel"; description; location].
  assert (Hprefix : String.prefix "/" (Http.Path req) = true)
    by now apply canonical_prefix.
  unfold Mux.Router_ServeHTTP; rewrite Hclean, String.eqb_refl.
  unfold Server.setupRoutes, Mux.Router_Match.
  rewrite !Route_Match_eq, Hsegs.
  unfold Mux.Route_Match, Mux.match_method, Mux.match_path.
  cbn [Mux.route_methods Mux.route_path Mux.route_handler]. rewrite Hprefix.
  cbn -[String.eqb]. eval_eqb; reflexivity.
Qed.

Lemma endpoint_routed req h :
  Spec.endpoint (Http.Method req) (Http.Path req) h ->
  exists vars, Mux.Router_ServeHTTP Server.setupRoutes req = Mux.Matched h vars.
Proof.
  inversion 1; subst h; eexists;
    repeat match goal with
      | H : _ = Http.Method _ |- _ => symmetry in H
      | H : _ = Http.Path _ |- _ => symmetry in H
      end.
  - eapply route_airports; eassumption.
  - eapply route_flightPaths; eassumption.
  - eapply route_login; eassumption.
  - eapply route_signup; eassumption.
  - eapply route_user_flights; eassumption.
  - eapply route_user_book_flight; eassumption.
  - eapply route_hotel_description; eassumption.
  - eapply route_hotel_location; eassumption.
Qed.

(** What the router does by whether the path is canonical. *)
Lemma Router_ServeHTTP_canonical routes req :
  Spec.canonical (Http.Path req) ->
  Mux.Router_ServeHTTP routes req
  = match Mux.Router_Match routes req with
    | Some (h, vars) => Mux.Matched h vars
    | None => Mux.NotFound
    end.
Proof.
  intros Hclean. unfold Mux.Router_ServeHTTP. rewrite Hclean.
  now rewrite String.eqb_refl.
Qed.

Lemma Router_ServeHTTP_redirect routes req :
  ~ Spec.canonical (Http.Path req) ->
  Mux.Router_ServeHTTP routes req
  = Mux.Redirected (Mux.cleanPath (Http.Path req)).
Proof.
  intros Hclean. unfold Mux.Router_ServeHTTP.
  now destruct (String.eqb_spec (Mux.cleanPath (Http.Path req)) (Http.Path req)).
Qed.

Lemma canonical_dec (p : string) : Spec.canonical p \/ ~ Spec.canonical p.
Proof.
  unfold Spec.canonical. destruct (String.eqb_spec (Mux.cleanPath p) p); auto.
Qed.

Lemma Router_Match_None routes req :
  Mux.Router_Match routes req = None ->
  Forall (fun r => Mux.Route_Match r req = None) routes.
Proof.
  induction routes as [|r routes IH]; simpl; [constructor|].
  destruct (Mux.Route_Match r req) eqn:Hr; [discriminate|].
  intros Hm. constructor; auto.
Qed.

(** A request in canonical form that belongs to no REST endpoint falls to
    the last route, the file server. *)
Lemma other_requests_FileServer req :
  Spec.canonical (Http.Path req) ->
  (forall h, h <> Mux.FileServer ->
             ~ Spec.endpoint (Http.Method req) (Http.Path req) h) ->
  Mux.Router_Match Server.setupRoutes req = Some (Mux.FileServer, ∅).
Proof.
  intros Hclean Hnone. pose proof (canonical_prefix _ Hclean) as Hprefix.
  assert (Hlast : Mux.Route_Match
            {| Mux.route_path := Mux.PathPrefix "/"; Mux.route_methods := [];
               Mux.route_handler := Mux.FileServer |} req = Some ∅).
  { unfold Mux.Route_Match, Mux.match_method, Mux.match_path; simpl.
    now rewrite Hprefix. }
  destruct (Mux.Router_Match Server.setupRoutes req) as [[h vars]|] eqn:Hm.
  - destruct h; try (exfalso; eapply Hnone; [|eapply routed_endpoint; eauto];
                     discriminate).
    apply Router_Match_inv in Hm as (r & Hin & Hh & Hr).
    unfold Server.setupRoutes in Hin. simpl in Hin.
    repeat (destruct Hin as [<-|Hin]); try discriminate; try contradiction.
    rewrite Hlast in Hr. now injection Hr as <-.
  - apply Router_Match_None in Hm. unfold Server.setupRoutes in Hm.
    repeat match goal with
      | H : Forall _ (_ :: _) |- _ => inversion H; clear H; subst
      end.
    congruence.
Qed.

(** The paths of the endpoints are in canonical form. *)
Lemma endpoint_canonical method path h :
  Spec.endpoint method path h -> Spec.canonical path.
Proof.
  intros Hend.
  destruct (endpoint_routed
              {| Http.Method := method; Http.Path := path; Http.Form := ∅;
                 Http.Header := ∅; Http.Body := ""; Http.Vars := ∅ |} h Hend)
    as [vars Hrouted].
  destruct (canonical_dec path) as [|Hnot]; [assumption|].
  rewrite Router_ServeHTTP_redirect in Hrouted by exact Hnot. discriminate.
Qed.

(** C3 (as amended). What the router does with a request, by its method
    and path. It hands the request to a handler of the server if and only
    if method and path are those of one of eight endpoints: [GET
    /api/airports], [GET /api/flightPaths/{from}/{to}], [POST
    /api/user/login], [POST /api/user/signup], [GET] and [POST
    /api/user/{username}/flights], [GET /api/hotel/{description}/] and
    [GET /api/hotel/{description}/{location}/], the two hotel paths ending
    in a slash and a variable standing for a path element that is not
    empty, has no slash and is neither [.] nor [..]. It hands it to the
    file server if and only if the path is in canonical form and the
    request belongs to none of these endpoints. It answers with a
    redirect to the canonical path, and runs no handler, if and only if
    the path is not in canonical form. There is no fourth case. The paths
    in canonical form are the rooted paths of such elements, with or
    without a slash at their end. In particular the hotel path with a
    description and a location and no slash at its end goes to the file
    server. *)
Theorem setupRoutes_endpoints (req : Http.Request) :
  let served := Mux.Router_ServeHTTP Server.setupRoutes req in
  (forall h, h <> Mux.FileServer ->
     ((exists vars, served = Mux.Matched h vars) <->
      Spec.endpoint (Http.Method req) (Http.Path req) h)) /\
  (served = Mux.Matched Mux.FileServer ∅ <->
   (Spec.canonical (Http.Path req) /\
    forall h, h <> Mux.FileServer ->
              ~ Spec.endpoint (Http.Method req) (Http.Path req) h)) /\
  (served = Mux.Redirected (Mux.cleanPath (Http.Path req)) <->
   ~ Spec.canonical (Http.Path req)) /\
  served <> Mux.NotFound /\
  (Spec.canonical (Http.Path req) <->
   exists elems,
     Forall Spec.element elems /\
     (Http.Path req = "/" +:+ Join elems "/" \/
      (elems <> [] /\ Http.Path req = "/" +:+ Join (elems ++ [""]) "/"))) /\
  (forall description location,
     Spec.element description -> Spec.element location ->
     Http.Path req = "/api/hotel/" +:+ description +:+ "/" +:+ location ->
     served = Mux.Matched Mux.FileServer ∅).
Proof.
  intros served. subst served.
  assert (Hrest : forall h vars,
             Mux.Router_ServeHTTP Server.setupRoutes req = Mux.Matched h vars ->
             Spec.canonical (Http.Path req) /\
             Mux.Router_Match Server.setupRoutes req = Some (h, vars)).
  { intros h vars Hm. destruct (canonical_dec (Http.Path req)) as [Hclean|Hnot].
    - split; [exact Hclean|].
      rewrite Router_ServeHTTP_canonical in Hm by exact Hclean.
      destruct (Mux.Router_Match _ req) as [[h' vars']|]; [|discriminate].
      now injection Hm as -> ->.
    - rewrite Router_ServeHTTP_redirect in Hm by exact Hnot. discriminate. }
  split; [|split; [|split; [|split; [|split]]]].
  - intros h Hh. split.
    + intros [vars Hm]. apply Hrest in Hm as [Hclean Hm].
      eapply routed_endpoint; eauto.
    + apply endpoint_routed.
  - split.
    + intros Hm. apply Hrest in Hm as [Hclean Hm]. split; [exact Hclean|].
      intros h Hh Hend. apply endpoint_routed in Hend as [vars Hend].
      apply Hrest in Hend as [_ Hend]. congruence.
    + intros [Hclean Hnone]. rewrite Router_ServeHTTP_canonical by exact Hclean.
      now rewrite other_requests_FileServer.
  - split.
    + intros Hm Hclean. rewrite Router_ServeHTTP_canonical in Hm by exact Hclean.
      destruct (Mux.Router_Match _ req) as [[h vars]|]; discriminate.
    + apply Router_ServeHTTP_redirect.
  - destruct (canonical_dec (Http.Path req)) as [Hclean|Hnot].
    + rewrite Router_ServeHTTP_canonical by exact Hclean.
      destruct (Mux.Router_Match _ req) as [[h vars]|] eqn:Hm; [discriminate|].
      apply Router_Match_None in Hm. unfold Server.setupRoutes in Hm.
      repeat match goal with
        | H : Forall _ (_ :: _) |- _ => inversion H; clear H; subst
        end.
      match goal with
      | H : Mux.Route_Match {| Mux.route_path := Mux.PathPrefix _ |} _ = None |- _ =>
          unfold Mux.Route_Match, Mux.match_method, Mux.match_path in H;
          simpl in H; rewrite (canonical_prefix _ Hclean) in H; discriminate
      end.
    + rewrite Router_ServeHTTP_redirect by exact Hnot. discriminate.
  - split; [apply canonical_elements|].
    intros (elems & Hall & [->|[Hne ->]]).
    + now apply elements_canonical.
    + destruct elems as [|a l]; [contradiction|].
      now apply elements_slash_canonical.
  - intros description location Hd Hl Hpath.
    now apply (route_hotel_no_slash req description location).
Qed.

(** C3, the claim as stated fails: the path [/api/hotel/Four star/London],
    with no slash at its end, is not routed to the hotel search but falls
    to the file server; and the table has an eighth REST route, for a
    description alone. *)
Lemma hotel_route_without_slash :
  (Mux.Router_ServeHTTP Server.setupRoutes
     (Ref.request "GET" "/api/hotel/Four star/London" ∅ "")
   = Mux.Matched Mux.FileServer ∅) /\
  (Mux.Router_ServeHTTP Server.setupRoutes
     (Ref.request "GET" "/api/hotel/Four star/London/" ∅ "")
   = Mux.Matched Mux.HotelSearch
       (<["location" := "London"]> (<["description" := "Four star"]> ∅))) /\
  (Mux.Router_ServeHTTP Server.setupRoutes
     (Ref.request "GET" "/api/hotel/Four star/" ∅ "")
   = Mux.Matched Mux.HotelSearch (<["description" := "Four star"]> ∅)).
Proof. repeat split; vm_compute; reflexivity. Qed.

(** ** The handlers behind the router *)

Section ServerProperties.
Import Http Json Server.
Context `{Json.Decoder} `{Jwt.Lib} `{Time.Lib}.
Variable FileServer : ResponseWriter -> Request -> ResponseWriter.
Context {DB : Type} `{Repo.Repository DB}.

Local Abbreviation ServeHTTP := (Server.ServeHTTP FileServer).

Lemma writeJsonFailure_fresh code err :
  writeJsonFailure NewRecorder code err = Spec.failure code (Error err).
Proof. reflexivity. Qed.

Lemma encodeRespOrFail_fresh data doc :
  Encode data = Ok doc -> encodeRespOrFail NewRecorder data = Spec.response 200 doc.
Proof. unfold encodeRespOrFail. now intros ->. Qed.

(** Payloads without a float always encode. *)
Lemma Encode_no_float data :
  floats data = [] -> Encode data = Ok (dataObj data).
Proof. unfold Encode. now intros ->. Qed.

(** Issuing a token cannot fail. *)
Lemma createJwtToken_total `{!Jwt.Laws} user :
  exists token, createJwtToken user = Ok token.
Proof.
  unfold createJwtToken, Jwt.SignedString.
  destruct (Jwt.SigningString_total Jwt.SigningMethodHS256 user) as [sstr ->].
  destruct (Jwt.Sign_HMAC_total Jwt.SigningMethodHS256 sstr jwtSecret eq_refl)
    as [sig ->].
  eauto.
Qed.

Lemma run_Invoke c k (db : DB) :
  run (Invoke c k) db =
  let r := Repo.answer c db in
  let rest := run (k r.1) r.2 in
  {| out := out rest; db_after := db_after rest;
     calls := c :: calls rest; stdout := stdout rest |}.
Proof. simpl. now destruct (Repo.answer c db). Qed.


(** *** Authentication *)


(** The decoder in terms of the header it goes by. *)
Lemma decodeAuthUserOrFail_auth_header w req :
  decodeAuthUserOrFail w req =
  if String.eqb (Spec.scheme (Spec.auth_header req)) "Bearer"
  then decodeAuthToken w (SplitN (Spec.auth_header req) " " 2)
  else AuthFail (writeJsonFailure w 400 ErrBadAuthHeader).
Proof.
  unfold decodeAuthUserOrFail, Spec.auth_header.
  rewrite !SplitN_scheme.
  destruct (String.eqb (Spec.scheme (Header_Get req "Authorization")) "Bearer")
    eqn:Hauth; cbn [negb].
  - now rewrite Hauth.
  - now destruct (String.eqb (Spec.scheme (Header_Get req "Authentication")) "Bearer").
Qed.

(** The decoder on a header [Bearer <token>]. *)
Lemma decodeAuthUserOrFail_Bearer w req authToken :
  Spec.auth_header req = "Bearer " +:+ authToken ->
  decodeAuthUserOrFail w req = decodeAuthToken w ["Bearer"; authToken].
Proof.
  intros Hh. rewrite decodeAuthUserOrFail_auth_header, Hh. reflexivity.
Qed.

(** What a successful authentication tells: the header is [Bearer
    <token>], the token parses and verifies under [keyFunc], and its
    [user] claim is the name returned, which is not empty. *)
Lemma decodeAuthUserOrFail_AuthOk w req authUser :
  decodeAuthUserOrFail w req = AuthOk authUser ->
  exists authToken token,
    Spec.auth_header req = "Bearer " +:+ authToken /\
    Jwt.ParseToken authToken keyFunc = Ok token /\
    Jwt.Claims token !! "user" = Some (Jwt.VString (authed_Name authUser)) /\
    authed_Name authUser <> "".
Proof.
  rewrite decodeAuthUserOrFail_auth_header.
  destruct (String.eqb_spec (Spec.scheme (Spec.auth_header req)) "Bearer")
    as [Hs|]; [|discriminate].
  destruct (scheme_Bearer _ Hs) as [[_ ->]|(authToken & Hh & ->)];
    unfold decodeAuthToken; cbn [lookup list_lookup]; [discriminate|].
  destruct (Jwt.ParseToken authToken keyFunc) as [token|] eqn:Hparse;
    [|discriminate].
  destruct (Jwt.Claims token !! "user") as [[user| | | |]|] eqn:Hclaim; cbn;
    try discriminate.
  destruct (String.eqb_spec user "") as [|Hne]; [discriminate|].
  intros [= <-]. exists authToken, token. auto.
Qed.

(** *** The other handlers *)

Lemma find_not_finite (l : list float64) :
  forallb finite l = true -> List.find (fun f => negb (finite f)) l = None.
Proof.
  induction l as [|f l IH]; simpl; [reflexivity|].
  intros Hl. apply andb_true_iff in Hl as [-> Hl]. simpl. auto.
Qed.



(** *** The flights of a user *)

(** The two handlers of [/api/user/{username}/flights] as the router runs
    them: the route variable is attached to the request and never read. *)
Lemma ServeHTTP_UserFlights w req username :
  Method req = "GET" ->
  Path req = "/api/user/" +:+ username +:+ "/flights" ->
  Spec.element username ->
  ServeHTTP w req =
  match decodeAuthUserOrFail w req with
  | AuthPanic msg => Panic msg
  | AuthFail w => Return w
  | AuthOk authUser =>
      Invoke (Repo.GetUserFlights (authed_Name authUser)) (fun r =>
        match r with
        | Err err => Return (writeJsonFailure w 500 err)
        | Ok respData => Return (encodeRespOrFail w (PUserFlights respData))
        end)
  end.
Proof.
  intros Hmethod Hpath Hu. unfold Server.ServeHTTP.
  rewrite (route_user_flights req username) by assumption.
  reflexivity.
Qed.

Lemma ServeHTTP_UserBookFlight w req username :
  Method req = "POST" ->
  Path req = "/api/user/" +:+ username +:+ "/flights" ->
  Spec.element username ->
  ServeHTTP w req =
  match decodeAuthUserOrFail w req with
  | AuthPanic msg => Panic msg
  | AuthFail w => Return w
  | AuthOk authUser =>
      match Decode_UserBookFlightReq (Body req) with
      | Err err => Return (writeJsonFailure w 500 err)
      | Ok reqData =>
          Invoke (Repo.UpdateUserFlights (authed_Name authUser) (book_Flights reqData))
            (fun r =>
               match r with
               | Err err => Return (writeJsonFailure w 500 err)
               | Ok respData => Return (encodeRespOrFail w (PUserBookFlight respData))
               end)
      end
  end.
Proof.
  intros Hmethod Hpath Hu. unfold Server.ServeHTTP.
  rewrite (route_user_book_flight req username) by assumption.
  cbn [handler]. unfold UserBookFlight, decodeReqOrFail. cbn [Body with_Vars].
  change (decodeAuthUserOrFail w (with_Vars req _))
    with (decodeAuthUserOrFail w req).
  destruct (decodeAuthUserOrFail w req); try reflexivity.
  now destruct (Decode_UserBookFlightReq (Body req)).
Qed.

(** C2 (as amended). An authenticated [POST /api/user/{username}/flights]
    whose body decodes asks the repository, once, to update the flights of
    the authenticated user, and answers 500 with the error's message when
    the repository reports an error, whichever it is: the user's document
    not being found is no exception. *)
Theorem UserBookFlight_repository_error (db : DB) (req : Request)
    (username : string) (authUser : authedUser)
    (reqData : jsonUserBookFlightReq) (err : error) :
  Method req = "POST" ->
  Path req = "/api/user/" +:+ username +:+ "/flights" ->
  Spec.element username ->
  decodeAuthUserOrFail NewRecorder req = AuthOk authUser ->
  Decode_UserBookFlightReq (Body req) = Ok reqData ->
  let update :=
    Repo.UpdateUserFlights (authed_Name authUser) (book_Flights reqData) in
  (Repo.answer update db).1 = Err err ->
  let res := run (ServeHTTP NewRecorder req) db in
  calls res = [update] /\
  out res = Returned (Spec.failure 500 (Error err)).
Proof.
  intros Hmethod Hpath Hu Hauth Hdecode update Herr res. subst res update.
  rewrite (ServeHTTP_UserBookFlight _ req username) by assumption.
  rewrite Hauth, Hdecode, run_Invoke. cbn zeta.
  rewrite Herr. split; reflexivity.
Qed.

(** C4 (as amended). On [GET] and [POST /api/user/{username}/flights] the
    decoder goes by the [Authorization] header when its first word is
    [Bearer] and by the [Authentication] header otherwise. The request is
    answered 400 and the repository is not called when the first word of
    that header is not [Bearer] or its token does not verify, with [bad
    authentication header format], and when the token verifies with an
    empty [user] claim, with [invalid auth token]. *)
Theorem auth_failure_responses (db : DB) (req : Request) (username : string) :
  Method req = "GET" \/ Method req = "POST" ->
  Path req = "/api/user/" +:+ username +:+ "/flights" ->
  Spec.element username ->
  let res := run (ServeHTTP NewRecorder req) db in
  let bad_header :=
    calls res = [] /\
    out res = Returned (Spec.failure 400 "bad authentication header format") in
  (Spec.scheme (Spec.auth_header req) <> "Bearer" -> bad_header) /\
  (forall authToken err,
     Spec.auth_header req = "Bearer " +:+ authToken ->
     Jwt.ParseToken authToken keyFunc = Err err -> bad_header) /\
  (forall authToken token,
     Spec.auth_header req = "Bearer " +:+ authToken ->
     Jwt.ParseToken authToken keyFunc = Ok token ->
     Jwt.Claims token !! "user" = Some (Jwt.VString "") ->
     calls res = [] /\
     out res = Returned (Spec.failure 400 "invalid auth token")).
Proof.
  intros Hmethod Hpath Hu res bad_header. subst bad_header res.
  assert (Hserve : forall a,
    decodeAuthUserOrFail NewRecorder req = AuthFail a ->
    run (ServeHTTP NewRecorder req) db
    = {| out := Returned a; db_after := db; calls := []; stdout := [] |}).
  { intros a Ha. destruct Hmethod as [Hmethod|Hmethod].
    - rewrite (ServeHTTP_UserFlights _ req username), Ha by assumption.
      reflexivity.
    - rewrite (ServeHTTP_UserBookFlight _ req username), Ha by assumption.
      reflexivity. }
  split; [|split].
  - intros Hs. apply String.eqb_neq in Hs.
    rewrite (Hserve (writeJsonFailure NewRecorder 400 ErrBadAuthHeader)); [easy|].
    now rewrite decodeAuthUserOrFail_auth_header, Hs.
  - intros authToken err Hh Hparse.
    rewrite (Hserve (writeJsonFailure NewRecorder 400 ErrBadAuthHeader)); [easy|].
    rewrite (decodeAuthUserOrFail_Bearer _ _ _ Hh). unfold decodeAuthToken.
    cbn [lookup list_lookup]. now rewrite Hparse.
  - intros authToken token Hh Hparse Hclaim.
    rewrite (Hserve (writeJsonFailure NewRecorder 400 ErrBadAuth)); [easy|].
    rewrite (decodeAuthUserOrFail_Bearer _ _ _ Hh). unfold decodeAuthToken.
    cbn [lookup list_lookup]. now rewrite Hparse, Hclaim.
Qed.

(** *** Status codes *)

Lemma writeJsonFailure_one_document code err :
  In code [200; 400; 401; 409; 500] ->
  Spec.one_document (Returned (writeJsonFailure NewRecorder code err)).
Proof. intros Hc. split; [exact Hc | reflexivity]. Qed.

Lemma encodeRespOrFail_one_document data :
  Spec.one_document (Returned (encodeRespOrFail NewRecorder data)).
Proof.
  unfold encodeRespOrFail. destruct (Encode data).
  - split; [left; reflexivity | reflexivity].
  - apply writeJsonFailure_one_document. simpl. tauto.
Qed.

Lemma decodeAuthUserOrFail_one_document req w :
  decodeAuthUserOrFail NewRecorder req = AuthFail w ->
  Spec.one_document (Returned w).
Proof.
  rewrite decodeAuthUserOrFail_auth_header. unfold decodeAuthToken.
  repeat match goal with
    | |- context [match ?x with _ => _ end] => destruct x
    end; try discriminate; intros [= <-];
    apply writeJsonFailure_one_document; simpl; tauto.
Qed.

(** Every handler of the REST routes, against every repository. *)
Lemma REST_handlers_one_document (h : Mux.HandlerFunc) (req : Request) (db : DB) :
  h <> Mux.FileServer ->
  Spec.one_document (out (run (handler FileServer h NewRecorder req) db)).
Proof.
  intros Hh.
  destruct h; try contradiction; cbn [handler];
    unfold AirportSearch, FlightSearch, HotelSearch, UserLogin, UserSignup,
      UserFlights, UserBookFlight, decodeReqOrFail, Println_Unwrap;
    repeat first
      [ apply encodeRespOrFail_one_document
      | apply writeJsonFailure_one_document; simpl; tauto
      | match goal with
        | H : decodeAuthUserOrFail _ _ = AuthFail _ |- _ =>
            apply (decodeAuthUserOrFail_one_document _ _ H)
        | |- Spec.one_document (Panicked _) => exact I
        | |- Spec.one_document (out (run (Return _) _)) => cbn [out run]
        | |- Spec.one_document (out (run (Panic _) _)) => cbn [out run]
        | |- Spec.one_document (out (run (Println _ _) _)) => cbn [out run]
        | |- Spec.one_document (out (run (Invoke _ _) _)) =>
            rewrite run_Invoke; cbn zeta; cbn [out]
        | |- Spec.one_document (out (run match match ?y with _ => _ end
                                        with _ => _ end _)) =>
            destruct y eqn:?
        | |- Spec.one_document (out (run match ?x with _ => _ end _)) =>
            destruct x eqn:?
        | |- Spec.one_document (out (run (if ?x then _ else _) _)) =>
            destruct x eqn:?
        end ].
Qed.


(** C9, the code at the failing input. A header that is the word
    [Bearer] alone passes the test of its first word and has no second
    part: taking the token is an index out of range, and the two handlers
    panic. It is so for [Authorization], and for [Authentication] when
    [Authorization] does not start with [Bearer]. *)
Theorem bare_Bearer_panics (w : ResponseWriter) (req : Request) :
  let out_of_range := "runtime error: index out of range [1] with length 1" in
  let req1 := Header_Set req "Authorization" "Bearer" in
  let req2 :=
    Header_Set (Header_Set req "Authorization" "") "Authentication" "Bearer" in
  decodeAuthUserOrFail w req1 = AuthPanic out_of_range /\
  decodeAuthUserOrFail w req2 = AuthPanic out_of_range /\
  UserFlights w req1 = Panic out_of_range /\
  UserBookFlight w req1 = Panic out_of_range.
Proof.
  intros out_of_range req1 req2.
  assert (H1' : decodeAuthUserOrFail w req1 = AuthPanic out_of_range).
  { unfold decodeAuthUserOrFail, req1, Header_Get, Header_Set. cbn [Header].
    rewrite lookup_insert_eq. reflexivity. }
  assert (H2' : decodeAuthUserOrFail w req2 = AuthPanic out_of_range).
  { unfold decodeAuthUserOrFail, req2, Header_Get, Header_Set. cbn [Header].
    rewrite lookup_insert_ne, lookup_insert_eq, lookup_insert_eq by discriminate.
    reflexivity. }
  unfold UserFlights, UserBookFlight. now rewrite H1'.
Qed.

(** C10. When the first word of [Authorization] is not [Bearer] and the
    [Authentication] header is [Bearer <token>], the decoder authenticates
    the request with that token, as it does a request that carries the
    same value in [Authorization]. *)
Theorem Authentication_fallback (w : ResponseWriter) (req : Request)
    (authToken : string) :
  Spec.scheme (Header_Get req "Authorization") <> "Bearer" ->
  Header_Get req "Authentication" = "Bearer " +:+ authToken ->
  decodeAuthUserOrFail w req = decodeAuthToken w ["Bearer"; authToken] /\
  (forall req',
     Header_Get req' "Authorization" = "Bearer " +:+ authToken ->
     decodeAuthUserOrFail w req' = decodeAuthUserOrFail w req).
Proof.
  intros Hauth Hfallback.
  assert (Hreq : decodeAuthUserOrFail w req = decodeAuthToken w ["Bearer"; authToken]).
  { apply decodeAuthUserOrFail_Bearer. unfold Spec.auth_header.
    apply String.eqb_neq in Hauth. now rewrite Hauth. }
  split; [exact Hreq|].
  intros req' Hreq'. rewrite Hreq.
  apply decodeAuthUserOrFail_Bearer. unfold Spec.auth_header.
  now rewrite Hreq'.
Qed.

(** C6. Issued tokens verify. [createJwtToken] signs the one claim
    [user] with the method HS256, an HMAC method, under [jwtSecret]. For a
    user name that is not empty (and is text, valid UTF-8), the decoder
    accepts the token issued for it and returns that very name. And the
    decoder accepts a request only with a token whose method is an HMAC
    method and whose signature verifies under [jwtSecret]. *)
Theorem token_round_trip `{!Jwt.Laws} (user : string) :
  user <> "" -> utf8_ValidString user = true ->
  createJwtToken user
  = Jwt.SignedString Jwt.SigningMethodHS256 {[ "user" := Jwt.VString user ]} jwtSecret /\
  Jwt.is_SigningMethodHMAC Jwt.SigningMethodHS256 = true /\
  (exists authToken,
     createJwtToken user = Ok authToken /\
     forall w req,
       Spec.auth_header req = "Bearer " +:+ authToken ->
       decodeAuthUserOrFail w req = AuthOk {| authed_Name := user |}) /\
  (forall w req authUser,
     decodeAuthUserOrFail w req = AuthOk authUser ->
     exists authToken token sstr sig,
       Spec.auth_header req = "Bearer " +:+ authToken /\
       Jwt.ParseUnverified authToken = Ok (token, sstr, sig) /\
       Jwt.is_SigningMethodHMAC (Jwt.Method token) = true /\
       Jwt.Verify (Jwt.Method token) sstr sig jwtSecret = None).
Proof.
  intros Hne Hutf8. split; [reflexivity|]. split; [reflexivity|]. split.
  - unfold createJwtToken, Jwt.SignedString.
    destruct (Jwt.SigningString_total Jwt.SigningMethodHS256 user) as [sstr Hsstr].
    destruct (Jwt.Sign_HMAC_total Jwt.SigningMethodHS256 sstr jwtSecret eq_refl)
      as [sig Hsig].
    rewrite Hsstr, Hsig. eexists; split; [reflexivity|].
    intros w req Hh. rewrite (decodeAuthUserOrFail_Bearer _ _ _ Hh).
    destruct (Jwt.ParseUnverified_signed _ _ _ _ _ Hutf8 Hsstr Hsig)
      as (token & Hparse & Hmethod & Hclaims).
    unfold decodeAuthToken, Jwt.ParseToken, keyFunc. cbn [lookup list_lookup].
    rewrite Hparse, Hmethod. cbn [Jwt.is_SigningMethodHMAC].
    rewrite Hclaims, Jwt.Claims_Valid_user,
      (Jwt.Verify_Sign Jwt.SigningMethodHS256 _ _ _ eq_refl Hsig).
    cbn [Jwt.Claims Jwt.verified]. rewrite Hclaims.
    unfold Jwt.user_claims. rewrite lookup_singleton_eq.
    cbn [assert_string]. apply String.eqb_neq in Hne. now rewrite Hne.
  - intros w req authUser Hdec.
    apply decodeAuthUserOrFail_AuthOk in Hdec
      as (authToken & token & Hh & Hparse & _).
    exists authToken. unfold Jwt.ParseToken, keyFunc in Hparse.
    destruct (Jwt.ParseUnverified authToken) as [[[token0 sstr] sig]|];
      [|discriminate].
    exists token0, sstr, sig.
    destruct (Jwt.is_SigningMethodHMAC (Jwt.Method token0)); [|discriminate].
    cbn [Jwt.Method Jwt.Claims] in Hparse.
    destruct (Jwt.Claims_Valid (Jwt.Claims token0)); [discriminate|].
    destruct (Jwt.Verify (Jwt.Method token0) sstr sig jwtSecret); [discriminate|].
    auto.
Qed.

End ServerProperties.

(** ** The reference instances *)

Lemma split_signature_app (user : string) (c : ascii) :
  Ref.split_signature (user +:+ String "." (String c EmptyString)) = Some (user, c).
Proof.
  induction user as [|a user IH]; [reflexivity|].
  change (String a user +:+ String "." (String c EmptyString))
    with (String a (user +:+ String "." (String c EmptyString))).
  cbn [Ref.split_signature]. rewrite IH.
  destruct user as [|b user]; [reflexivity|].
  cbn. now destruct user.
Qed.

(** The reference tokens honour the contract of the package. *)
Lemma Ref_jwt_laws : @Jwt.Laws Ref.jwt.
Proof.
  split.
  - intros m user. eexists. cbn. unfold Ref.SigningString, Jwt.user_claims.
    now rewrite lookup_singleton_eq.
  - intros m sstr key Hm. cbn. unfold Ref.Sign. rewrite Hm. eauto.
  - intros m sstr key sig Hm. cbn. unfold Ref.Verify. intros ->.
    now rewrite String.eqb_refl.
  - intros m user key sstr sig Hvalid. cbn.
    unfold Ref.SigningString, Ref.Sign, Jwt.user_claims, Json.coerce_string.
    rewrite lookup_singleton_eq, Hvalid. intros [= <-].
    destruct (Jwt.is_SigningMethodHMAC m); [|discriminate]. intros [= <-].
    unfold Ref.ParseUnverified.
    replace (cut "." ((Jwt.Alg m +:+ "." +:+ user) +:+ "." +:+ _))
      with (Some (Jwt.Alg m, user +:+ String "." (String (ascii_of_N
              (97 + Ref.checksum (Ref.checksum 7 key)
                      (Jwt.Alg m +:+ "." +:+ user) mod 26)) EmptyString)))
      by (now destruct m).
    replace (Ref.method_of_alg (Jwt.Alg m)) with (Some m) by (now destruct m).
    rewrite split_signature_app. eexists. split; [reflexivity|]. split; reflexivity.
  - reflexivity.
Qed.

(** ** The tests of the Go package, on the embedding *)

Section Tests.
Import Http Json Server Ref.


Example TestAirportSearch :
  let req search :=
    query (request "GET" "/api/airports" ∅ "") {[ "search" := search ]} in
  serve (airports (Ok validAirports)) (req "SFO")
  = (Some (200, [dataObj (PAirportSearch validAirports)]), [Repo.GetAirports "SFO"]) /\
  (serve (airports (Err boom)) (req "boom")).1 = Some (500, [failObj "boom"]).
Proof. vm_compute. split; reflexivity. Qed.


Example TestFlightSearch :
  let req path leave := query (request "GET" path ∅ "") {[ "leave" := leave ]} in
  serve (flight_paths (Ok validFlights))
    (req "/api/flightPaths/airport_a/airport_b" "12/15/2020")
  = (Some (200, [dataObj (PFlightSearch validFlights)]),
     [Repo.GetFlightPaths "airport_a" "airport_b" 2]) /\
  (exists msg,
     serve (flight_paths (Ok validFlights)) (req "/api/flightPaths/boom/boom" "")
     = (Some (500, [failObj msg]), [])) /\
  (serve (flight_paths (Err boom))
     (req "/api/flightPaths/airport_a/airport_b" "12/15/2020")).1
  = Some (500, [failObj "boom"]).
Proof. vm_compute. repeat split. eexists. reflexivity. Qed.


Example TestHotelSearch :
  serve (hotels (Ok validHotels)) (request "GET" "/api/hotel/Four star/" ∅ "")
  = (Some (200, [dataObj (PHotelSearch validHotels)]),
     [Repo.GetHotels "Four star" ""]) /\
  serve (hotels (Ok validHotels)) (request "GET" "/api/hotel/Four star/London/" ∅ "")
  = (Some (200, [dataObj (PHotelSearch validHotels)]),
     [Repo.GetHotels "Four star" "London"]) /\
  (serve (hotels (Err boom)) (request "GET" "/api/hotel/boom/" ∅ "")).1
  = Some (500, [failObj "boom"]).
Proof. vm_compute. repeat split. Qed.


Example TestUserLogin :
  let req body := request "POST" "/api/user/login" ∅ body in
  serve (stored_password (Ok "test_passw")) (req credentials)
  = (Some (200, [dataObj (PUserLogin (Spec.token_envelope validJwtToken))]),
     [Repo.GetUserPassword "test_user"]) /\
  (exists msg,
     serve (stored_password (Ok "")) (req (dq "{'user':}"))
     = (Some (500, [failObj msg]), [])) /\
  (serve (stored_password (Err ErrDocumentNotFound)) (req credentials)).1
  = Some (401, [failObj "user does not exist"]) /\
  (serve (stored_password (Err boom)) (req credentials)).1
  = Some (500, [failObj "boom"]) /\
  (serve (stored_password (Ok "boom")) (req credentials)).1
  = Some (401, [failObj "password does not match"]).
Proof. vm_compute. repeat split. eexists. reflexivity. Qed.

Example TestUserSignUp :
  let req body := request "POST" "/api/user/signup" ∅ body in
  serve (creating None) (req credentials)
  = (Some (200, [dataObj (PUserSignup (Spec.token_envelope validJwtToken))]),
     [Repo.CreateUser "test_user" "test_passw"]) /\
  (exists msg,
     serve (creating None) (req (dq "{'user':}")) = (Some (500, [failObj msg]), [])) /\
  (serve (creating (Some ErrDocumentExists)) (req credentials)).1
  = Some (409, [failObj "user already exists"]) /\
  (serve (creating (Some boom)) (req credentials)).1
  = Some (500, [failObj "boom"]).
Proof. vm_compute. repeat split. eexists. reflexivity. Qed.


Example TestUserFlights :
  let req path token := request "GET" path {[ "Authorization" := token ]} "" in
  let bad_header := Some (400, [failObj "bad authentication header format"]) in
  serve (user_flights (Ok validUserFlights))
    (req "/api/user/test_user/flights" ("Bearer " +:+ validJwtToken))
  = (Some (200, [dataObj (PUserFlights validUserFlights)]),
     [Repo.GetUserFlights "test_user"]) /\
  serve (user_flights (Ok validUserFlights)) (req "/api/user/test_user/flights" "boom")
  = (bad_header, []) /\
  serve (user_flights (Ok validUserFlights))
    (req "/api/user/test_user/flights" "Bearer boom")
  = (bad_header, []) /\
  serve (user_flights (Ok validUserFlights))
    (req "/api/user/boom/flights" ("Bearer " +:+ invalidJwtToken))
  = (Some (400, [failObj "invalid auth token"]), []) /\
  (serve (user_flights (Err boom))
     (req "/api/user/test_user/flights" ("Bearer " +:+ validJwtToken))).1
  = Some (500, [failObj "boom"]).
Proof. vm_compute. repeat split. Qed.

Example TestUserBookFlight :
  let req path token body := request "POST" path {[ "Authorization" := token ]} body in
  let bad_header := Some (400, [failObj "bad authentication header format"]) in
  serve (updating (Ok validBooking))
    (req "/api/user/test_user/flights" ("Bearer " +:+ validJwtToken) booking)
  = (Some (200, [dataObj (PUserBookFlight validBooking)]),
     [Repo.UpdateUserFlights "test_user" bookedFlights]) /\
  serve (updating (Ok validBooking)) (req "/api/user/test_user/flights" "boom" "")
  = (bad_header, []) /\
  serve (updating (Ok validBooking)) (req "/api/user/test_user/flights" "Bearer boom" "")
  = (bad_header, []) /\
  serve (updating (Ok validBooking))
    (req "/api/user/boom/flights" ("Bearer " +:+ invalidJwtToken) "")
  = (Some (400, [failObj "invalid auth token"]), []) /\
  (exists msg,
     serve (updating (Ok validBooking))
       (req "/api/user/test_user/flights" ("Bearer " +:+ validJwtToken)
          (dq "{'boom':}"))
     = (Some (500, [failObj msg]), [])) /\
  (serve (updating (Err boom))
     (req "/api/user/test_user/flights" ("Bearer " +:+ validJwtToken) booking)).1
  = Some (500, [failObj "boom"]).
Proof. vm_compute. repeat split. eexists. reflexivity. Qed.

End Tests.

(** ** The Couchbase repository *)

(** Updating the flights of a user whose document is not in the bucket
    reports the error of the first [Get], in whose chain
    [ErrDocumentNotFound] is found, and leaves the bucket as it was. *)
Lemma UpdateUserFlights_not_found username bookedFlights (cr : CB.CBRepository) :
  CB.users cr !! username = None ->
  exists err,
    CB.UpdateUserFlights username bookedFlights cr = (Err err, cr) /\
    errors_Is (Some err) ErrDocumentNotFound = true.
Proof.
  intros Hu. unfold CB.UpdateUserFlights, CB.Get. rewrite Hu.
  eexists. split; reflexivity.
Qed.

(** The lookup of a password, likewise. *)
Lemma GetUserPassword_not_found username (cr : CB.CBRepository) :
  CB.users cr !! username = None ->
  exists err,
    CB.GetUserPassword username cr = (Err err, cr) /\
    errors_Is (Some err) ErrDocumentNotFound = true.
Proof.
  intros Hu. unfold CB.GetUserPassword, CB.Get. rewrite Hu.
  eexists. split; reflexivity.
Qed.

(** Creating a user twice reports [ErrDocumentExists] the second time. *)
Lemma CreateUser_twice username password password' (cr : CB.CBRepository) :
  CB.users cr !! username = None ->
  exists cr' err,
    CB.CreateUser username password cr = (None, cr') /\
    CB.CreateUser username password' cr' = (Some err, cr') /\
    errors_Is (Some err) ErrDocumentExists = true.
Proof.
  intros Hu. unfold CB.CreateUser, CB.Insert_user. rewrite Hu.
  eexists. eexists. split; [reflexivity|]. cbn [CB.users CB.set_users].
  rewrite lookup_insert_eq. split; reflexivity.
Qed.

(** ** The claims at concrete requests *)

Section Instances.
Import Http Json Server Ref.

#[local] Existing Instance Ref_jwt_laws.

(** C2, the claim as stated fails. The user of the token has no document
    in the bucket: the request authenticates, its body decodes, the
    repository reports the document as not found, and the response is
    500, not 401 or 409. *)
Lemma book_flight_of_missing_user :
  let req :=
    request "POST" "/api/user/test_user/flights"
      {[ "Authorization" := "Bearer " +:+ validJwtToken ]} booking in
  let update := Repo.UpdateUserFlights "test_user" bookedFlights in
  decodeAuthUserOrFail NewRecorder req = AuthOk {| authed_Name := "test_user" |} /\
  Json.Decode_UserBookFlightReq (Body req) = Ok {| book_Flights := bookedFlights |} /\
  errors_Is (err_of (Repo.answer update empty_bucket).1) ErrDocumentNotFound = true /\
  serve empty_bucket req
  = (Some (500, [failObj "document not found | test_user"]), [update]).
Proof. vm_compute. repeat split. Qed.

(** The amended statement at the same request. *)
Lemma UserBookFlight_repository_error_witness :
  serve empty_bucket
    (request "POST" "/api/user/test_user/flights"
       {[ "Authorization" := "Bearer " +:+ validJwtToken ]} booking)
  = (Some (500, [failObj "document not found | test_user"]),
     [Repo.UpdateUserFlights "test_user" bookedFlights]).
Proof.
  unfold serve.
  destruct (UserBookFlight_repository_error FileServer empty_bucket
              (request "POST" "/api/user/test_user/flights"
                 {[ "Authorization" := "Bearer " +:+ validJwtToken ]} booking)
              "test_user" {| authed_Name := "test_user" |}
              {| book_Flights := bookedFlights |}
              (CB.KeyValueError ErrDocumentNotFound "test_user"))
    as [Hcalls Hout].
  - reflexivity.
  - reflexivity.
  - repeat split; (discriminate || reflexivity).
  - vm_compute. reflexivity.
  - vm_compute. reflexivity.
  - vm_compute. reflexivity.
  - unfold ServeHTTP. rewrite Hcalls, Hout. reflexivity.
Defined.




(** C4, the claim as stated fails. The [Authorization] header is not of
    the form [Bearer <token>], yet the request is authenticated, by the
    [Authentication] header: the repository is called and the response is
    200. *)
Lemma authenticated_by_Authentication :
  let req :=
    request "GET" "/api/user/test_user/flights"
      {[ "Authorization" := "Basic dGVzdF91c2Vy";
         "Authentication" := "Bearer " +:+ validJwtToken ]} "" in
  Spec.scheme (Header_Get req "Authorization") = "Basic" /\
  serve (user_flights (Ok validUserFlights)) req
  = (Some (200, [dataObj (PUserFlights validUserFlights)]),
     [Repo.GetUserFlights "test_user"]).
Proof. vm_compute. split; reflexivity. Qed.

(** The request of the test [400 - bad auth]: a token that verifies, with
    an empty user. *)
Lemma auth_failure_responses_witness :
  serve (user_flights (Ok validUserFlights))
    (request "GET" "/api/user/boom/flights"
       {[ "Authorization" := "Bearer " +:+ invalidJwtToken ]} "")
  = (Some (400, [failObj "invalid auth token"]), []).
Proof.
  unfold serve.
  destruct (auth_failure_responses FileServer
              (user_flights (Ok validUserFlights))
              (request "GET" "/api/user/boom/flights"
                 {[ "Authorization" := "Bearer " +:+ invalidJwtToken ]} "")
              "boom")
    as (_ & _ & Hempty).
  - left. reflexivity.
  - reflexivity.
  - repeat split; (discriminate || reflexivity).
  - destruct (Hempty invalidJwtToken
                (Jwt.verified
                   {| Jwt.Raw := invalidJwtToken;
                      Jwt.Method := Jwt.SigningMethodHS256;
                      Jwt.Header := {[ "alg" := Jwt.VString "HS256" ]};
                      Jwt.Claims := Jwt.user_claims "";
                      Jwt.Signature := ""; Jwt.Valid := false |} "c"))
      as [Hcalls Hout].
    + vm_compute. reflexivity.
    + vm_compute. reflexivity.
    + vm_compute. reflexivity.
    + unfold ServeHTTP. rewrite Hcalls, Hout. reflexivity.
Defined.


(** The token of the tests in the [Authentication] header. *)
Lemma Authentication_fallback_witness :
  decodeAuthUserOrFail NewRecorder
    (request "GET" "/api/user/test_user/flights"
       {[ "Authorization" := "Basic dGVzdF91c2Vy";
          "Authentication" := "Bearer " +:+ validJwtToken ]} "")
  = decodeAuthUserOrFail NewRecorder
      (request "GET" "/api/user/test_user/flights"
         {[ "Authorization" := "Bearer " +:+ validJwtToken ]} "").
Proof.
  symmetry.
  refine (proj2 (Authentication_fallback NewRecorder
                   (request "GET" "/api/user/test_user/flights"
                      {[ "Authorization" := "Basic dGVzdF91c2Vy";
                         "Authentication" := "Bearer " +:+ validJwtToken ]} "")
                   validJwtToken _ _) _ _).
  - vm_compute. discriminate.
  - vm_compute. reflexivity.
  - vm_compute. reflexivity.
Defined.


(** C6, the claim as stated fails. The user name is not empty, a token is
    issued for it and the token verifies, but the name that comes back is
    another one: the claims of a token are JSON, and JSON writes the byte
    that is not UTF-8 as U+FFFD. *)
Lemma token_of_Latin1_name :
  Sample.Latin1_name <> "" /\
  createJwtToken Sample.Latin1_name = Ok Sample.Latin1_token /\
  Spec.auth_header Sample.Latin1_request = "Bearer " +:+ Sample.Latin1_token /\
  decodeAuthUserOrFail NewRecorder Sample.Latin1_request
  = AuthOk {| authed_Name := "Jos" +:+ RuneError |} /\
  "Jos" +:+ RuneError <> Sample.Latin1_name.
Proof.
  split; [discriminate|]. split; [vm_compute; reflexivity|].
  split; [vm_compute; reflexivity|]. split; [vm_compute; reflexivity|].
  discriminate.
Qed.

(** The token of the tests is the one issued for [test_user], and is
    accepted with that name. *)
Lemma token_round_trip_witness :
  createJwtToken "test_user" = Ok validJwtToken /\
  decodeAuthUserOrFail NewRecorder
    (request "GET" "/api/user/test_user/flights"
       {[ "Authorization" := "Bearer " +:+ validJwtToken ]} "")
  = AuthOk {| authed_Name := "test_user" |}.
Proof.
  destruct (token_round_trip "test_user") as (_ & _ & (authToken & Hissued & Haccepted) & _).
  - discriminate.
  - reflexivity.
  - vm_compute in Hissued. injection Hissued as <-.
    split; [reflexivity|]. apply Haccepted. vm_compute. reflexivity.
Defined.

(** The failing input of C9 through the router: the handler panics, no
    response is written and the repository is not called. *)
Example bare_Bearer_request :
  serve failing
    (request "GET" "/api/user/test_user/flights" {[ "Authorization" := "Bearer" ]} "")
  = (None, []) /\
  serve failing
    (request "POST" "/api/user/test_user/flights" {[ "Authentication" := "Bearer" ]}
       booking)
  = (None, []).
Proof. vm_compute. split; reflexivity. Qed.

(** The token of [test_user] on a path with [..] for the user name: the
    router answers with a redirect and the handler does not run. *)
Example dot_dot_request :
  Mux.cleanPath (Path Sample.dot_dot) = "/api/flights" /\
  serve (user_flights (Ok validUserFlights)) Sample.dot_dot = (Some (301, []), []).
Proof. vm_compute. split; reflexivity. Qed.

End Instances.

(* ===================================================================== *)
(** * Further properties                                                  *)
(* ===================================================================== *)

(** ** The remaining handlers *)

Section MoreHandlers.
Import Http Json Server.
Context `{Json.Decoder} `{Jwt.Lib} `{Time.Lib}.
Variable FileServer : ResponseWriter -> Request -> ResponseWriter.
Context {DB : Type} `{Repo.Repository DB}.

Local Abbreviation ServeHTTP := (Server.ServeHTTP FileServer).

(** X1. A [GET /api/airports] asks the repository, once, for the airports
    matching the [search] parameter (the empty string when the parameter
    is absent), answers 500 with the error's message when the search
    fails, and 200 with the result otherwise: a list of airport names
    always encodes. *)
Theorem AirportSearch_responses (db : DB) (req : Request) :
  Method req = "GET" -> Path req = "/api/airports" ->
  let query := Repo.GetAirports (FormValue req "search") in
  let res := run (ServeHTTP NewRecorder req) db in
  calls res = [query] /\
  (forall err, (Repo.answer query db).1 = Err err ->
     out res = Returned (Spec.failure 500 (Error err))) /\
  (forall respData, (Repo.answer query db).1 = Ok respData ->
     out res = Returned (Spec.response 200 (dataObj (PAirportSearch respData)))).
Proof.
  intros Hmethod Hpath query res. subst res query.
  unfold Server.ServeHTTP. rewrite (route_airports req Hmethod Hpath).
  cbn [handler]. unfold AirportSearch, FormValue. cbn [Form with_Vars].
  rewrite run_Invoke. cbn zeta.
  destruct (Repo.answer _ db) as [[respData|err] db']; cbn;
    repeat split; try discriminate; now intros ? [= <-].
Qed.

(** X2. A [GET] on either hotel path asks the repository, once, for the
    hotels matching the description and the location of the path, the
    location being the empty string on the path with a description alone;
    it answers 500 with the error's message when the search fails and 200
    with the result otherwise. *)
Theorem HotelSearch_responses (db : DB) (req : Request)
    (description location : string) :
  Method req = "GET" ->
  Spec.element description ->
  (Path req = "/api/hotel/" +:+ description +:+ "/" /\ location = "") \/
  (Path req = "/api/hotel/" +:+ description +:+ "/" +:+ location +:+ "/" /\
   Spec.element location) ->
  let query := Repo.GetHotels description location in
  let res := run (ServeHTTP NewRecorder req) db in
  calls res = [query] /\
  (forall err, (Repo.answer query db).1 = Err err ->
     out res = Returned (Spec.failure 500 (Error err))) /\
  (forall respData, (Repo.answer query db).1 = Ok respData ->
     out res = Returned (Spec.response 200 (dataObj (PHotelSearch respData)))).
Proof.
  intros Hmethod Hd Hpath query res. subst res query.
  unfold Server.ServeHTTP.
  destruct Hpath as [[Hpath ->]|[Hpath Hl]].
  - rewrite (route_hotel_description req description) by assumption.
    cbn [handler]. unfold HotelSearch, mux_Vars. cbn [Vars with_Vars].
    rewrite lookup_insert_eq, lookup_insert_ne, lookup_empty by discriminate.
    cbn [default from_option id]. rewrite run_Invoke. cbn zeta.
    destruct (Repo.answer _ db) as [[respData|err] db']; cbn;
      repeat split; try discriminate; now intros ? [= <-].
  - rewrite (route_hotel_location req description location) by assumption.
    cbn [handler]. unfold HotelSearch, mux_Vars. cbn [Vars with_Vars].
    rewrite lookup_insert_ne, !lookup_insert_eq by discriminate.
    cbn [default from_option id]. rewrite run_Invoke. cbn zeta.
    destruct (Repo.answer _ db) as [[respData|err] db']; cbn;
      repeat split; try discriminate; now intros ? [= <-].
Qed.

(** X3. An authenticated [GET /api/user/{username}/flights] asks the
    repository, once, for the flights of the authenticated user, answers
    500 with the error's message when that fails, and 200 with the flights
    otherwise (with prices JSON can carry). *)
Theorem UserFlights_responses (db : DB) (req : Request) (username : string)
    (authUser : authedUser) :
  Method req = "GET" ->
  Path req = "/api/user/" +:+ username +:+ "/flights" ->
  Spec.element username ->
  decodeAuthUserOrFail NewRecorder req = AuthOk authUser ->
  let query := Repo.GetUserFlights (authed_Name authUser) in
  let res := run (ServeHTTP NewRecorder req) db in
  calls res = [query] /\
  (forall err, (Repo.answer query db).1 = Err err ->
     out res = Returned (Spec.failure 500 (Error err))) /\
  (forall respData, (Repo.answer query db).1 = Ok respData ->
     forallb finite (map booked_Price (Data respData)) = true ->
     out res = Returned (Spec.response 200 (dataObj (PUserFlights respData)))).
Proof.
  intros Hmethod Hpath Hu Hauth query res. subst res query.
  rewrite (ServeHTTP_UserFlights _ _ req username) by assumption.
  rewrite Hauth, run_Invoke. cbn zeta.
  destruct (Repo.answer _ db) as [[respData|err] db']; cbn;
    repeat split; try discriminate.
  - intros ? [= <-] Hfinite. unfold encodeRespOrFail, Encode. cbn [floats].
    now rewrite (find_not_finite _ Hfinite).
  - now intros ? [= <-].
Qed.

(** X4. An authenticated [POST /api/user/{username}/flights] whose body
    does not decode is answered 500 with the decoder's message and the
    repository is not called; when the body decodes and the repository
    books the flights, the answer is 200 with the flights added (with
    prices JSON can carry). *)
Theorem UserBookFlight_responses (db : DB) (req : Request) (username : string)
    (authUser : authedUser) :
  Method req = "POST" ->
  Path req = "/api/user/" +:+ username +:+ "/flights" ->
  Spec.element username ->
  decodeAuthUserOrFail NewRecorder req = AuthOk authUser ->
  let res := run (ServeHTTP NewRecorder req) db in
  (forall err, Decode_UserBookFlightReq (Body req) = Err err ->
     calls res = [] /\ out res = Returned (Spec.failure 500 (Error err))) /\
  (forall reqData respData,
     Decode_UserBookFlightReq (Body req) = Ok reqData ->
     let update :=
       Repo.UpdateUserFlights (authed_Name authUser) (book_Flights reqData) in
     (Repo.answer update db).1 = Ok respData ->
     forallb finite (map booked_Price (Added (Data respData))) = true ->
     calls res = [update] /\
     out res = Returned (Spec.response 200 (dataObj (PUserBookFlight respData)))).
Proof.
  intros Hmethod Hpath Hu Hauth res. subst res.
  rewrite (ServeHTTP_UserBookFlight _ _ req username) by assumption.
  rewrite Hauth. split.
  - intros err ->. split; reflexivity.
  - intros reqData respData -> update Hok Hfinite. subst update.
    rewrite run_Invoke. cbn zeta. rewrite Hok. cbn.
    split; [reflexivity|]. unfold encodeRespOrFail, Encode. cbn [floats].
    now rewrite (find_not_finite _ Hfinite).
Qed.

(** ** What every request gets *)

(** X5. Whatever the repository answers, a request to one of the REST
    endpoints that is not cut short by a panic leaves exactly one
    document on a new recorder, with status 200, 400, 401, 409 or 500. *)
Theorem endpoints_one_document (db : DB) (req : Request) (h : Mux.HandlerFunc) :
  Spec.endpoint (Method req) (Path req) h ->
  Spec.one_document (out (run (ServeHTTP NewRecorder req) db)).
Proof.
  intros Hep.
  assert (Hh : h <> Mux.FileServer) by (inversion Hep; discriminate).
  destruct (endpoint_routed req h Hep) as [vars Hm].
  unfold Server.ServeHTTP. rewrite Hm.
  now apply REST_handlers_one_document.
Qed.

(** The calls of a run on a program that calls the repository at most
    once. *)
Lemma calls_Return w (db : DB) : calls (run (Return w) db) = [].
Proof. reflexivity. Qed.

Ltac step_handler :=
  repeat first
    [ match goal with
      | |- context [run (Return _) _] => cbn [out calls run]
      | |- context [run (Panic _) _] => cbn [out calls run]
      | |- context [run (Println _ _) _] => cbn [out calls run stdout]
      | |- context [run (Invoke _ _) _] =>
          rewrite run_Invoke; cbn zeta; cbn [out calls]
      | |- context [run match match ?y with _ => _ end with _ => _ end _] =>
          destruct y eqn:?
      | |- context [run match ?x with _ => _ end _] => destruct x eqn:?
      | |- context [run (if ?x then _ else _) _] => destruct x eqn:?
      end ].

(** X6. Serving a request calls the repository at most once, whatever the
    request and whatever the repository answers. *)
Theorem at_most_one_call (db : DB) (w : ResponseWriter) (req : Request) :
  (length (calls (run (ServeHTTP w req) db)) <= 1)%nat.
Proof.
  unfold Server.ServeHTTP.
  destruct (Mux.Router_ServeHTTP setupRoutes req) as [location|h vars|];
    [simpl; lia| |simpl; lia].
  destruct h; cbn [handler];
    unfold AirportSearch, FlightSearch, HotelSearch, UserLogin, UserSignup,
      UserFlights, UserBookFlight, decodeReqOrFail, Println_Unwrap;
    step_handler; simpl; lia.
Qed.

(** X7. The only panics are those of the authentication decoder. A
    request panics only on one of the two flights routes, and then the
    header the decoder goes by is the bare word [Bearer], or it carries a
    token that verifies and whose [user] claim is not a string. *)
Theorem panics_only_in_authentication (db : DB) (w : ResponseWriter)
    (req : Request) (msg : string) :
  out (run (ServeHTTP w req) db) = Panicked msg ->
  (exists vars,
     Mux.Router_Match setupRoutes req = Some (Mux.UserFlights, vars) \/
     Mux.Router_Match setupRoutes req = Some (Mux.UserBookFlight, vars)) /\
  (Spec.auth_header req = "Bearer" \/
   exists authToken token,
     Spec.auth_header req = "Bearer " +:+ authToken /\
     Jwt.ParseToken authToken keyFunc = Ok token /\
     forall user, Jwt.Claims token !! "user" <> Some (Jwt.VString user)).
Proof.
  assert (Hauth : forall w' m,
    decodeAuthUserOrFail w' req = AuthPanic m ->
    Spec.auth_header req = "Bearer" \/
    exists authToken token,
      Spec.auth_header req = "Bearer " +:+ authToken /\
      Jwt.ParseToken authToken keyFunc = Ok token /\
      forall user, Jwt.Claims token !! "user" <> Some (Jwt.VString user)).
  { intros w' m. rewrite decodeAuthUserOrFail_auth_header.
    destruct (String.eqb_spec (Spec.scheme (Spec.auth_header req)) "Bearer")
      as [Hs|]; [|discriminate].
    destruct (scheme_Bearer _ Hs) as [[Hh ->]|(authToken & Hh & ->)];
      unfold decodeAuthToken; cbn [lookup list_lookup]; [now left|].
    destruct (Jwt.ParseToken authToken keyFunc) as [token|] eqn:Hparse;
      [|discriminate].
    intros Hpanic. right. exists authToken, token.
    split; [assumption|]. split; [assumption|].
    intros user Hclaim. rewrite Hclaim in Hpanic. cbn in Hpanic.
    now destruct (String.eqb user ""). }
  unfold Server.ServeHTTP, Mux.Router_ServeHTTP.
  destruct (String.eqb _ _); [|discriminate].
  destruct (Mux.Router_Match setupRoutes req) as [[h vars]|] eqn:Hm;
    [|discriminate].
  destruct h; cbn [handler];
    unfold AirportSearch, FlightSearch, HotelSearch, UserLogin, UserSignup,
      UserFlights, UserBookFlight, decodeReqOrFail, Println_Unwrap;
    try (step_handler; discriminate).
  - change (decodeAuthUserOrFail w (with_Vars req vars))
      with (decodeAuthUserOrFail w req).
    destruct (decodeAuthUserOrFail w req) as [authUser|w'|m] eqn:Hdec.
    + step_handler; discriminate.
    + discriminate.
    + intros _. split; [exists vars; now left | eapply Hauth; eauto].
  - change (decodeAuthUserOrFail w (with_Vars req vars))
      with (decodeAuthUserOrFail w req).
    destruct (decodeAuthUserOrFail w req) as [authUser|w'|m] eqn:Hdec.
    + step_handler; discriminate.
    + discriminate.
    + intros _. split; [exists vars; now right | eapply Hauth; eauto].
Qed.

(** ** More on authentication *)

(** X8. [Authorization] comes first. When its first word is [Bearer] the
    decoder goes by it alone: the [Authentication] header is not looked
    at, so a good token there does not make up for a bad one in
    [Authorization]. *)
Theorem Authorization_first (w : ResponseWriter) (req1 req2 : Request) :
  Spec.scheme (Header_Get req1 "Authorization") = "Bearer" ->
  Header_Get req1 "Authorization" = Header_Get req2 "Authorization" ->
  decodeAuthUserOrFail w req1 = decodeAuthUserOrFail w req2.
Proof.
  intros Hs Heq. rewrite !decodeAuthUserOrFail_auth_header.
  unfold Spec.auth_header. rewrite <- Heq, Hs. reflexivity.
Qed.

(** X9. Nothing stops a token from being issued for the empty user name,
    and no request can use it: the decoder verifies it and then refuses
    it, 400 [invalid auth token], without calling the repository. *)
Theorem empty_user_token_refused `{!Jwt.Laws} (db : DB) (req : Request)
    (username : string) :
  Method req = "GET" \/ Method req = "POST" ->
  Path req = "/api/user/" +:+ username +:+ "/flights" ->
  Spec.element username ->
  exists authToken,
    createJwtToken "" = Ok authToken /\
    (Spec.auth_header req = "Bearer " +:+ authToken ->
     let res := run (ServeHTTP NewRecorder req) db in
     calls res = [] /\
     out res = Returned (Spec.failure 400 "invalid auth token")).
Proof.
  intros Hmethod Hpath Hu.
  destruct (createJwtToken_total "") as [authToken Hissued].
  exists authToken. split; [assumption|]. intros Hh.
  unfold createJwtToken, Jwt.SignedString in Hissued.
  destruct (Jwt.SigningString Jwt.SigningMethodHS256 (Jwt.user_claims ""))
    as [sstr|] eqn:Hsstr; [|discriminate].
  destruct (Jwt.Sign Jwt.SigningMethodHS256 sstr jwtSecret) as [sig|] eqn:Hsig;
    [|discriminate].
  injection Hissued as <-.
  destruct (Jwt.ParseUnverified_signed _ "" _ _ _ eq_refl Hsstr Hsig)
    as (token & Hparse & Hm & Hclaims).
  assert (Hdec : decodeAuthUserOrFail NewRecorder req
                 = AuthFail (writeJsonFailure NewRecorder 400 ErrBadAuth)).
  { rewrite (decodeAuthUserOrFail_Bearer _ _ _ Hh).
    unfold decodeAuthToken, Jwt.ParseToken, keyFunc. cbn [lookup list_lookup].
    rewrite Hparse, Hm. cbn [Jwt.is_SigningMethodHMAC].
    rewrite Hclaims, Jwt.Claims_Valid_user,
      (Jwt.Verify_Sign Jwt.SigningMethodHS256 _ _ _ eq_refl Hsig).
    cbn [Jwt.Claims Jwt.verified]. rewrite Hclaims.
    unfold Jwt.user_claims. now rewrite lookup_singleton_eq. }
  destruct Hmethod as [Hmethod|Hmethod].
  - rewrite (ServeHTTP_UserFlights _ _ req username), Hdec by assumption.
    split; reflexivity.
  - rewrite (ServeHTTP_UserBookFlight _ _ req username), Hdec by assumption.
    split; reflexivity.
Qed.

(** ** Paths that are not canonical *)

(** X24. A request whose path has an element [.] or [..] reaches no
    handler, whatever else it carries: the router answers 301, nothing is
    written to the body and the repository is not called. So no user name
    in a path can be [.] or [..]. *)
Theorem dot_elements_redirected (db : DB) (w : ResponseWriter) (req : Request)
    (e : string) :
  In e (Split (Path req) "/") -> e = "." \/ e = ".." ->
  run (ServeHTTP w req) db
  = {| out := Returned (WriteHeader w 301); db_after := db;
       calls := []; stdout := [] |}.
Proof.
  intros Hin He.
  assert (Hnot : ~ Spec.canonical (Path req)).
  { intros Hclean. apply canonical_Split in Hclean.
    rewrite Forall_forall in Hclean. destruct (Hclean e) as [Hdot Hdots].
    - now apply list_elem_of_In.
    - destruct He; contradiction. }
  unfold Server.ServeHTTP. rewrite Router_ServeHTTP_redirect by exact Hnot.
  reflexivity.
Qed.
End MoreHandlers.

(** ** The user bucket *)

Section UserBucket.
Import CB.

Lemma uuid_NewRandom_users cr r cr' :
  uuid_NewRandom cr = (r, cr') ->
  users cr' = users cr /\ flights cr' = flights cr /\ today cr' = today cr.
Proof.
  unfold uuid_NewRandom. destruct (random cr); intros [= <- <-]; auto.
Qed.

(** The booking loop never touches the users collection nor the date,
    and never removes a flight, however it ends. *)
Lemma book_flights_frame bookedFlights : forall added user cr r cr',
  book_flights bookedFlights added user cr = (r, cr') ->
  users cr' = users cr /\ today cr' = today cr /\
  (forall flightID, is_Some (flights cr !! flightID) ->
                    is_Some (flights cr' !! flightID)).
Proof.
  induction bookedFlights as [|flight rest IH]; intros added user cr r cr'; simpl.
  - intros [= <- <-]. auto.
  - destruct (random cr) as [|flightID ids] eqn:Hrandom;
      unfold uuid_NewRandom; rewrite Hrandom.
    + intros [= <- <-]. auto.
    + intros Hloop. apply IH in Hloop as (Hu & Ht & Hf). cbn in Hu, Ht.
      split; [assumption|]. split; [assumption|].
      intros id Hid. apply Hf. cbn.
      destruct (decide (flightID = id)) as [->|Hne].
      * rewrite lookup_insert_eq. eauto.
      * now rewrite lookup_insert_ne.
Qed.

(** The booking loop with enough UUIDs at hand: every flight is added
    with today's date, the user lists the UUIDs drawn after the flights it
    listed, and each UUID drawn holds a flight. *)
Lemma book_flights_Ok bookedFlights : forall added user cr,
  (length bookedFlights <= length (random cr))%nat ->
  exists cr',
    book_flights bookedFlights added user cr
    = (Ok (added ++ Bucket.booked cr bookedFlights,
           {| user_Name := user_Name user; user_Password := user_Password user;
              user_Flights := user_Flights user
                              ++ take (length bookedFlights) (random cr) |}),
       cr') /\
    random cr' = drop (length bookedFlights) (random cr) /\
    (forall flightID, In flightID (take (length bookedFlights) (random cr)) ->
                      is_Some (flights cr' !! flightID)) /\
    (forall flightID, ~ In flightID (take (length bookedFlights) (random cr)) ->
                      flights cr' !! flightID = flights cr !! flightID) /\
    (NoDup (take (length bookedFlights) (random cr)) ->
     forall i flightID flight,
       random cr !! i = Some flightID -> bookedFlights !! i = Some flight ->
       content <$> flights cr' !! flightID
       = Some (set_BookedOn flight (today cr))).
Proof.
  induction bookedFlights as [|flight rest IH]; intros added user cr Hlen.
  - exists cr. simpl. rewrite !app_nil_r. destruct user.
    repeat split; auto; [intros ? [] | intros _ i ? ? _ Hi; discriminate].
  - simpl in Hlen. destruct (random cr) as [|flightID ids] eqn:Hrandom;
      [simpl in Hlen; lia|].
    simpl. unfold uuid_NewRandom. rewrite Hrandom. cbn [Upsert_flight].
    match goal with
    | |- context [book_flights rest ?a ?u ?c] =>
        destruct (IH a u c) as (cr' & Hloop & Hrand & Hin & Hout & Hcontent);
        [cbn; simpl in Hlen; lia|]
    end.
    exists cr'. rewrite Hloop. cbn in Hrand, Hin, Hout, Hcontent |- *.
    unfold Bucket.booked in *. cbn. rewrite <- !app_assoc. cbn.
    split; [reflexivity|]. split; [assumption|]. split; [|split].
    + intros id [<-|Hid]; [|now apply Hin].
      destruct (in_dec string_dec flightID (take (length rest) ids)) as [Hi|Hn].
      * now apply Hin.
      * rewrite (Hout _ Hn). rewrite lookup_insert_eq. eauto.
    + intros id Hid. rewrite Hout by tauto.
      apply lookup_insert_ne. intros ->. tauto.
    + intros Hnodup i id f Hi Hf. apply NoDup_cons in Hnodup as [Hfresh Hnodup].
      destruct i as [|i]; cbn in Hi, Hf.
      * injection Hi as <-. injection Hf as <-.
        rewrite Hout by (now rewrite <- list_elem_of_In).
        now rewrite lookup_insert_eq.
      * now apply (Hcontent Hnodup i).
Qed.

(** The booking loop changes the flight list of the user document it is
    handed, and neither its name nor its password. *)
Lemma book_flights_user bookedFlights : forall added user cr r cr',
  book_flights bookedFlights added user cr = (Ok r, cr') ->
  user_Name r.2 = user_Name user /\ user_Password r.2 = user_Password user.
Proof.
  induction bookedFlights as [|flight rest IH]; intros added user cr r cr'; simpl.
  - now intros [= <- <-].
  - destruct (uuid_NewRandom cr) as [[flightID|e] cr1]; [|discriminate].
    cbn [Upsert_flight]. intros Hloop. now apply IH in Hloop.
Qed.

(** When the booking loop succeeds, the flights the user document lists
    are all in the collection, given that those it listed before were. *)
Lemma book_flights_listed bookedFlights : forall added user cr r cr',
  book_flights bookedFlights added user cr = (Ok r, cr') ->
  (forall flightID, In flightID (user_Flights user) ->
                    is_Some (flights cr !! flightID)) ->
  forall flightID, In flightID (user_Flights r.2) ->
                   is_Some (flights cr' !! flightID).
Proof.
  induction bookedFlights as [|flight rest IH]; intros added user cr r cr'; simpl.
  - now intros [= <- <-].
  - destruct (random cr) as [|flightID ids] eqn:Hrandom;
      unfold uuid_NewRandom; rewrite Hrandom; [discriminate|].
    cbn [Upsert_flight]. intros Hloop Hbefore. apply (IH _ _ _ _ _ Hloop).
    intros id. cbn. rewrite in_app_iff. intros [Hold|[<-|[]]].
    + destruct (decide (flightID = id)) as [->|Hne].
      * rewrite lookup_insert_eq. eauto.
      * rewrite lookup_insert_ne by assumption. now apply Hbefore.
    + rewrite lookup_insert_eq. eauto.
Qed.

(** X10. Creating a user under a free name succeeds; the password can
    then be looked up, the new user has no flight, and the passwords of
    the others and the flights collection are as they were. *)
Theorem CreateUser_then_GetUserPassword (username password : string)
    (cr : CBRepository) :
  users cr !! username = None ->
  exists cr',
    CreateUser username password cr = (None, cr') /\
    GetUserPassword username cr' = (Ok password, cr') /\
    Bucket.flights_of cr' username = Some [] /\
    (forall other, other <> username ->
       Bucket.password_of cr' other = Bucket.password_of cr other) /\
    flights cr' = flights cr.
Proof.
  intros Hfree. unfold CreateUser, Insert_user. rewrite Hfree.
  eexists. split; [reflexivity|].
  unfold GetUserPassword, Get, Bucket.flights_of, Bucket.password_of.
  cbn [users set_users flights]. rewrite lookup_insert_eq.
  repeat split. intros other Hne. now rewrite lookup_insert_ne.
Qed.

(** X11. Creating a user under a name that is taken fails with an error
    in whose chain [ErrDocumentExists] is found, and changes nothing: the
    password stored stays. *)
Theorem CreateUser_taken (username password : string) (cr : CBRepository)
    (d : document jsonUser) :
  users cr !! username = Some d ->
  exists err,
    CreateUser username password cr = (Some err, cr) /\
    errors_Is (Some err) ErrDocumentExists = true /\
    errors_Is (Some err) ErrDocumentNotFound = false.
Proof.
  intros Htaken. unfold CreateUser, Insert_user. rewrite Htaken.
  eexists. repeat split.
Qed.

(** X12. Booking flights for a user who exists, the random source
    yielding a UUID for each and the prices being finite (as those of a
    decoded request are; the flight documents are JSON): the call
    succeeds, the response lists the flights in the order given, each
    dated today; the user lists the UUIDs drawn after the flights listed
    before; nobody's password changes and the other users' documents are
    as they were. *)
Theorem UpdateUserFlights_books (username : string)
    (bookedFlights : list jsonBookedFlight) (cr : CBRepository)
    (d : document jsonUser) :
  users cr !! username = Some d ->
  (length bookedFlights <= length (random cr))%nat ->
  forallb Json.finite (map booked_Price bookedFlights) = true ->
  exists cr',
    UpdateUserFlights username bookedFlights cr
    = (Ok {| Data := {| Added := Bucket.booked cr bookedFlights |};
             Context := [] |}, cr') /\
    Bucket.flights_of cr' username
    = Some (user_Flights (content d) ++ take (length bookedFlights) (random cr)) /\
    (forall user, Bucket.password_of cr' user = Bucket.password_of cr user) /\
    (forall other, other <> username -> users cr' !! other = users cr !! other) /\
    random cr' = drop (length bookedFlights) (random cr).
Proof.
  intros Huser Hlen _. unfold UpdateUserFlights, Get. rewrite Huser.
  destruct (book_flights_Ok bookedFlights [] (content d) cr Hlen)
    as (cr1 & Hloop & Hrand & _).
  rewrite Hloop. cbv beta iota.
  apply book_flights_frame in Hloop as (Husers & _ & _).
  unfold Replace_user. eexists.
  rewrite Husers, Huser, Z.eqb_refl. split; [reflexivity|].
  unfold Bucket.flights_of, Bucket.password_of. cbn [users set_users random].
  rewrite lookup_insert_eq. repeat split; try assumption.
  - intros user. destruct (decide (username = user)) as [<-|Hne].
    + now rewrite lookup_insert_eq, Huser.
    + now rewrite lookup_insert_ne.
  - intros other Hne. now rewrite lookup_insert_ne.
Qed.


(** X14. But it is not undone. When the random source fails before every
    flight (of finite price) has its UUID, the call fails and the user
    lists no new flight, yet each UUID drawn before the failure holds a
    flight in the collection. *)
Theorem UpdateUserFlights_source_fails (username : string)
    (bookedFlights : list jsonBookedFlight) (cr : CBRepository)
    (d : document jsonUser) :
  users cr !! username = Some d ->
  (length (random cr) < length bookedFlights)%nat ->
  forallb Json.finite (map booked_Price bookedFlights) = true ->
  exists err cr',
    UpdateUserFlights username bookedFlights cr = (Err err, cr') /\
    Bucket.flights_of cr' username = Bucket.flights_of cr username /\
    (forall flightID, In flightID (random cr) ->
                      is_Some (flights cr' !! flightID)).
Proof.
  intros Huser Hlen _. unfold UpdateUserFlights, Get. rewrite Huser.
  assert (Hloop : forall bf added user c,
    (length (random c) < length bf)%nat ->
    exists err c',
      book_flights bf added user c = (Err err, c') /\
      (forall flightID, In flightID (random c) -> is_Some (flights c' !! flightID))).
  { induction bf as [|flight rest IH]; intros added user c Hl;
      [simpl in Hl; lia|].
    simpl. unfold uuid_NewRandom.
    destruct (random c) as [|flightID ids] eqn:Hrandom.
    - do 2 eexists. split; [reflexivity|]. intros ? [].
    - cbn [Upsert_flight].
      match goal with
      | |- context [book_flights rest ?a ?u ?c1] =>
          destruct (IH a u c1) as (err & c' & Hrest & Hin);
          [cbn; simpl in Hl; lia|];
          pose proof (book_flights_frame _ _ _ _ _ _ Hrest) as (_ & _ & Hmono)
      end.
      exists err, c'. split; [assumption|].
      intros id [<-|Hid]; [|now apply Hin].
      apply Hmono. cbn. rewrite lookup_insert_eq. eauto. }
  destruct (Hloop bookedFlights [] (content d) cr Hlen) as (err & cr' & Hl & Hin).
  exists err, cr'. rewrite Hl. split; [reflexivity|].
  apply book_flights_frame in Hl as (Husers & _).
  unfold Bucket.flights_of. rewrite Husers. auto.
Qed.

(** X15. Whatever a booking does, nobody's password changes: every user
    who could log in before can log in after. *)
Theorem UpdateUserFlights_keeps_passwords (username user : string)
    (bookedFlights : list jsonBookedFlight) (cr : CBRepository) :
  Bucket.password_of (UpdateUserFlights username bookedFlights cr).2 user
  = Bucket.password_of cr user.
Proof.
  unfold UpdateUserFlights, Get.
  destruct (users cr !! username) as [d|] eqn:Huser; [|reflexivity].
  destruct (book_flights bookedFlights [] (content d) cr)
    as [[[added u]|e] cr1] eqn:Hloop.
  - pose proof Hloop as Hframe.
    apply book_flights_frame in Hframe as (Husers & _ & _).
    cbv beta iota. unfold Replace_user. rewrite Husers, Huser, Z.eqb_refl.
    unfold Bucket.password_of. cbn [snd users set_users].
    destruct (decide (username = user)) as [<-|Hne].
    + rewrite lookup_insert_eq, Huser. cbn.
      destruct (book_flights_user _ _ _ _ _ _ Hloop) as [_ Hpw].
      cbn in Hpw. now rewrite Hpw.
    + now rewrite lookup_insert_ne.
  - apply book_flights_frame in Hloop as (Husers & _ & _).
    unfold Bucket.password_of. cbn [snd]. now rewrite Husers.
Qed.

(** Reading the flights of a list of UUIDs: what is read depends on the
    documents of those UUIDs alone. *)
Lemma get_flights_ext (cr cr' : CBRepository) flightIDs : forall data,
  (forall flightID, In flightID flightIDs ->
     content <$> flights cr' !! flightID = content <$> flights cr !! flightID) ->
  get_flights cr' flightIDs data = get_flights cr flightIDs data.
Proof.
  induction flightIDs as [|flightID rest IH]; intros data Hsame; [reflexivity|].
  simpl. unfold Get. pose proof (Hsame flightID (or_introl eq_refl)) as Hhead.
  destruct (flights cr' !! flightID) as [d'|], (flights cr !! flightID) as [d|];
    try discriminate; [|reflexivity].
  injection Hhead as ->. apply IH. intros id Hid. apply Hsame. now right.
Qed.

Lemma get_flights_app (cr : CBRepository) ids1 : forall ids2 data data1,
  get_flights cr ids1 data = Ok data1 ->
  get_flights cr (ids1 ++ ids2) data = get_flights cr ids2 data1.
Proof.
  induction ids1 as [|flightID rest IH]; intros ids2 data data1; simpl.
  - now intros [= <-].
  - destruct (Get (flights cr) flightID); [apply IH | discriminate].
Qed.

Lemma get_flights_contents (cr : CBRepository) flightIDs :
  forall (found : list jsonBookedFlight) data,
  length flightIDs = length found ->
  (forall i flightID flight,
     flightIDs !! i = Some flightID -> found !! i = Some flight ->
     content <$> flights cr !! flightID = Some flight) ->
  get_flights cr flightIDs data = Ok (data ++ found).
Proof.
  induction flightIDs as [|flightID rest IH]; intros [|flight found] data Hlen Hfound;
    try discriminate.
  - simpl. now rewrite app_nil_r.
  - simpl. unfold Get.
    pose proof (Hfound 0%nat flightID flight eq_refl eq_refl) as Hhead.
    destruct (flights cr !! flightID) as [d|]; [|discriminate].
    injection Hhead as <-.
    rewrite (IH found); [now rewrite <- app_assoc | now injection Hlen |].
    intros i id f Hi Hf. exact (Hfound (S i) id f Hi Hf).
Qed.

(** When every UUID listed holds a flight, all of them are read, in the
    order listed. *)
Lemma get_flights_total (cr : CBRepository) flightIDs : forall data,
  (forall flightID, In flightID flightIDs -> is_Some (flights cr !! flightID)) ->
  exists found,
    get_flights cr flightIDs data = Ok (data ++ found) /\
    Forall2 (fun flightID flight =>
               content <$> flights cr !! flightID = Some flight)
            flightIDs found.
Proof.
  induction flightIDs as [|flightID rest IH]; intros data Hall.
  - exists []. simpl. rewrite app_nil_r. split; [reflexivity | constructor].
  - simpl. unfold Get.
    destruct (Hall flightID (or_introl eq_refl)) as [d Hd]. rewrite Hd.
    destruct (IH (data ++ [content d])) as (found & -> & Hfound).
    { intros id Hid. apply Hall. now right. }
    exists (content d :: found). rewrite <- app_assoc. simpl.
    split; [reflexivity|]. constructor; [now rewrite Hd | assumption].
Qed.

(** A booking with fresh, distinct UUIDs, and the listing after it. *)
Lemma booking_then_listing (username : string)
    (bookedFlights : list jsonBookedFlight) (cr : CBRepository)
    (flightIDs : list string) (before : jsonUserFlightsResp) :
  Bucket.flights_of cr username = Some flightIDs ->
  GetUserFlights username cr = (Ok before, cr) ->
  (length bookedFlights <= length (random cr))%nat ->
  NoDup (take (length bookedFlights) (random cr)) ->
  (forall flightID, In flightID (take (length bookedFlights) (random cr)) ->
                    ~ In flightID flightIDs) ->
  exists cr',
    UpdateUserFlights username bookedFlights cr
    = (Ok {| Data := {| Added := Bucket.booked cr bookedFlights |};
             Context := [] |}, cr') /\
    GetUserFlights username cr'
    = (Ok {| Data := Data before ++ Bucket.booked cr bookedFlights;
             Context := [] |}, cr').
Proof.
  unfold Bucket.flights_of. intros Hids Hbefore Hlen Hnodup Hfresh.
  destruct (users cr !! username) as [d|] eqn:Huser; [|discriminate].
  injection Hids as <-.
  unfold GetUserFlights, Get in Hbefore. rewrite Huser in Hbefore.
  destruct (get_flights cr (user_Flights (content d)) []) as [old|] eqn:Hold;
    [|discriminate].
  injection Hbefore as <-. cbn [Data].
  unfold UpdateUserFlights, Get. rewrite Huser.
  destruct (book_flights_Ok bookedFlights [] (content d) cr Hlen)
    as (cr1 & Hloop & Hrand & Hin & Hout & Hcontent).
  rewrite Hloop. cbv beta iota.
  apply book_flights_frame in Hloop as (Husers & Htoday & _).
  unfold Replace_user. eexists.
  rewrite Husers, Huser, Z.eqb_refl. split; [reflexivity|].
  unfold GetUserFlights, Get. cbn [users set_users flights].
  rewrite lookup_insert_eq. cbn [content user_Flights].
  match goal with
  | |- context [get_flights ?c _ []] => set (cr2 := c)
  end.
  assert (Hold2 : get_flights cr2 (user_Flights (content d)) [] = Ok old).
  { rewrite <- Hold. apply get_flights_ext. intros id Hid. cbn.
    rewrite Hout; [reflexivity|]. intros Hdrawn. exact (Hfresh id Hdrawn Hid). }
  rewrite (get_flights_app _ _ _ _ _ Hold2).
  rewrite (get_flights_contents cr2 _ (Bucket.booked cr bookedFlights)).
  - reflexivity.
  - unfold Bucket.booked. rewrite length_map, length_take. lia.
  - intros i id f Hi Hf. unfold Bucket.booked in Hf.
    rewrite list_lookup_fmap in Hf.
    destruct (bookedFlights !! i) as [flight|] eqn:Hflight; [|discriminate].
    injection Hf as <-. apply lookup_take_Some in Hi as [Hi _].
    exact (Hcontent Hnodup i id flight Hi Hflight).
Qed.

(** X16. Booking, then listing. When the UUIDs drawn are distinct and new
    to the user and the prices are finite, the flights of the user after a
    booking are the flights listed before, followed by the flights just
    booked, in order, each dated today. *)
Theorem UpdateUserFlights_then_GetUserFlights (username : string)
    (bookedFlights : list jsonBookedFlight) (cr : CBRepository)
    (flightIDs : list string) (before : jsonUserFlightsResp) :
  Bucket.flights_of cr username = Some flightIDs ->
  GetUserFlights username cr = (Ok before, cr) ->
  (length bookedFlights <= length (random cr))%nat ->
  NoDup (take (length bookedFlights) (random cr)) ->
  (forall flightID, In flightID (take (length bookedFlights) (random cr)) ->
                    ~ In flightID flightIDs) ->
  forallb Json.finite (map booked_Price bookedFlights) = true ->
  exists added cr',
    UpdateUserFlights username bookedFlights cr = (Ok added, cr') /\
    GetUserFlights username cr'
    = (Ok {| Data := Data before ++ Bucket.booked cr bookedFlights;
             Context := [] |}, cr').
Proof.
  intros Hids Hbefore Hlen Hnodup Hfresh _.
  destruct (booking_then_listing username bookedFlights cr flightIDs before
              Hids Hbefore Hlen Hnodup Hfresh) as (cr' & Hbook & Hlist).
  eauto.
Qed.

(** X17. Every call of the repository keeps the bucket consistent: user
    documents stay under the name they carry, and every flight a user
    lists stays in the flights collection. *)
Theorem repository_keeps_consistent
    (Query_GetAirports : string -> result jsonAirportSearchResp)
    (Query_GetFlightPaths : string -> string -> Z -> result jsonFlightSearchResp)
    (Query_GetHotels : string -> string -> result jsonHotelSearchResp)
    (c : Repo.call) (cr : CBRepository) :
  Bucket.consistent cr ->
  Bucket.consistent
    (CBRepository_answer Query_GetAirports Query_GetFlightPaths Query_GetHotels
       c cr).2.
Proof.
  intros [Hkeyed Hdangling]. destruct c; cbn [CBRepository_answer snd];
    try (split; assumption).
  - (* CreateUser *)
    unfold CreateUser, Insert_user.
    destruct (users cr !! username) eqn:Huser; [split; assumption|].
    cbn [snd]. split.
    + intros key d. cbn [users set_users].
      destruct (decide (username = key)) as [<-|Hne].
      * rewrite lookup_insert_eq. now intros [= <-].
      * rewrite lookup_insert_ne by assumption. apply Hkeyed.
    + intros key d id. cbn [users set_users flights].
      destruct (decide (username = key)) as [<-|Hne].
      * rewrite lookup_insert_eq. intros [= <-] [].
      * rewrite lookup_insert_ne by assumption. apply Hdangling.
  - (* GetUserPassword *)
    unfold GetUserPassword. destruct (Get (users cr) username); split; assumption.
  - (* GetUserFlights *)
    unfold GetUserFlights. destruct (Get (users cr) username) as [res|];
      [destruct (get_flights cr (user_Flights (content res)) [])|];
      split; assumption.
  - (* UpdateUserFlights *)
    unfold UpdateUserFlights, Get.
    destruct (users cr !! username) as [d|] eqn:Huser; [|split; assumption].
    destruct (book_flights bookedFlights [] (content d) cr)
      as [[[added user]|e] cr1] eqn:Hloop; cbv beta iota.
    + pose proof (book_flights_user _ _ _ _ _ _ Hloop) as [Hname _].
      cbn in Hname.
      assert (Hlisted : forall id, In id (user_Flights user) ->
                                   is_Some (flights cr1 !! id)).
      { apply (book_flights_listed _ _ _ _ _ _ Hloop).
        intros id. apply (Hdangling username d id Huser). }
      apply book_flights_frame in Hloop as (Husers & _ & Hmono).
      unfold Replace_user. rewrite Husers, Huser, Z.eqb_refl. cbn [snd]. split.
      * intros key d'. cbn [users set_users].
        destruct (decide (username = key)) as [<-|Hne].
        -- rewrite lookup_insert_eq. intros [= <-]. cbn.
           rewrite Hname. now apply (Hkeyed username d).
        -- rewrite lookup_insert_ne by assumption. apply Hkeyed.
      * intros key d' id. cbn [users set_users flights].
        destruct (decide (username = key)) as [<-|Hne].
        -- rewrite lookup_insert_eq. intros [= <-]. cbn. apply Hlisted.
        -- rewrite lookup_insert_ne by assumption. intros Hk Hid.
           apply Hmono. eapply Hdangling; eauto.
    + apply book_flights_frame in Hloop as (Husers & _ & Hmono).
      cbn [snd]. split.
      * intros key d'. rewrite Husers. apply Hkeyed.
      * intros key d' id. rewrite Husers. intros Hk Hid.
        apply Hmono. eapply Hdangling; eauto.
Qed.

(** X18. In a consistent bucket, listing the flights of a user who exists
    cannot fail and changes nothing: it yields, for each UUID the user
    lists and in that order, the flight the collection holds under it. *)
Theorem GetUserFlights_consistent (username : string) (cr : CBRepository)
    (flightIDs : list string) :
  Bucket.consistent cr ->
  Bucket.flights_of cr username = Some flightIDs ->
  exists respData,
    GetUserFlights username cr = (Ok respData, cr) /\
    Context respData = [] /\
    length (Data respData) = length flightIDs /\
    Forall2 (fun flightID flight =>
               content <$> flights cr !! flightID = Some flight)
            flightIDs (Data respData).
Proof.
  intros [_ Hdangling]. unfold Bucket.flights_of, GetUserFlights, Get.
  destruct (users cr !! username) as [d|] eqn:Huser; [|discriminate].
  intros [= <-].
  destruct (get_flights_total cr (user_Flights (content d)) [])
    as (found & -> & Hfound).
  { intros id. apply (Hdangling username d id Huser). }
  eexists. split; [reflexivity|]. split; [reflexivity|].
  split; [|exact Hfound]. symmetry. exact (Forall2_length _ _ _ Hfound).
Qed.
End UserBucket.

(** ** The server on the Couchbase repository *)

Section OnCouchbase.
Import Http Json Server.
Context `{Json.Decoder} `{Jwt.Lib} `{Time.Lib}.
Variable FileServer : ResponseWriter -> Request -> ResponseWriter.
Variable Query_GetAirports : string -> result jsonAirportSearchResp.
Variable Query_GetFlightPaths : string -> string -> Z -> result jsonFlightSearchResp.
Variable Query_GetHotels : string -> string -> result jsonHotelSearchResp.

#[local] Existing Instance Bucket.repository.
Local Abbreviation couchbase :=
  (Bucket.repository Query_GetAirports Query_GetFlightPaths Query_GetHotels).
Local Abbreviation serve req cr :=
  (@run _ couchbase (Server.ServeHTTP FileServer NewRecorder req) cr).

(** The two user handlers that take no token, on the bucket. *)
Lemma serve_UserSignup req reqData cr :
  Method req = "POST" -> Path req = "/api/user/signup" ->
  Decode_UserSignupReq (Body req) = Ok reqData ->
  serve req cr =
  let create := Repo.CreateUser (signup_User reqData) (signup_Password reqData) in
  let created := CB.CreateUser (signup_User reqData) (signup_Password reqData) cr in
  {| out :=
       Returned
         (if errors_Is created.1 ErrDocumentExists
          then writeJsonFailure NewRecorder 409 ErrUserExists
          else match created.1 with
               | Some err => writeJsonFailure NewRecorder 500 err
               | None =>
                   match createJwtToken (signup_User reqData) with
                   | Err err => writeJsonFailure NewRecorder 500 err
                   | Ok token =>
                       encodeRespOrFail NewRecorder
                         (PUserSignup (Spec.token_envelope token))
                   end
               end);
     db_after := created.2;
     calls := [create];
     stdout := if errors_Is created.1 ErrDocumentExists then []
               else match created.1 with
                    | Some err => [match errors_Unwrap err with
                                   | Some inner => Error inner
                                   | None => "<nil>"
                                   end]
                    | None => []
                    end |}.
Proof.
  intros Hmethod Hpath Hdecode. unfold Server.ServeHTTP.
  rewrite (route_signup req Hmethod Hpath). cbn [handler].
  unfold UserSignup, decodeReqOrFail. cbn [Body with_Vars].
  rewrite Hdecode. cbn [run Repo.answer couchbase CB.CBRepository_answer].
  destruct (CB.CreateUser _ _ cr) as [[err|] cr']; cbn [fst snd errors_Is].
  - destruct (chain_Is err ErrDocumentExists); reflexivity.
  - destruct (createJwtToken (signup_User reqData)); reflexivity.
Qed.

Lemma serve_UserLogin req reqData cr :
  Method req = "POST" -> Path req = "/api/user/login" ->
  Decode_UserLoginReq (Body req) = Ok reqData ->
  out (serve req cr) =
  Returned
    (match Bucket.password_of cr (login_User reqData) with
     | None => writeJsonFailure NewRecorder 401 ErrUserNotFound
     | Some password =>
         if String.eqb password (login_Password reqData)
         then match createJwtToken (login_User reqData) with
              | Err err => writeJsonFailure NewRecorder 500 err
              | Ok token =>
                  encodeRespOrFail NewRecorder
                    (PUserLogin (Spec.token_envelope token))
              end
         else writeJsonFailure NewRecorder 401 ErrBadPassword
     end) /\
  db_after (serve req cr) = cr.
Proof.
  intros Hmethod Hpath Hdecode. unfold Server.ServeHTTP.
  rewrite (route_login req Hmethod Hpath). cbn [handler].
  unfold UserLogin, decodeReqOrFail. cbn [Body with_Vars].
  rewrite Hdecode. cbn [run Repo.answer couchbase CB.CBRepository_answer].
  unfold CB.GetUserPassword, CB.Get, Bucket.password_of.
  destruct (CB.users cr !! login_User reqData) as [d|]; cbn.
  - destruct (String.eqb (user_Password (CB.content d)) (login_Password reqData));
      cbn; [|split; reflexivity].
    destruct (createJwtToken (login_User reqData)); split; reflexivity.
  - split; reflexivity.
Qed.

(** X19. Signing up, then logging in. On a bucket where the name is free
    the signup is answered 200 with a token; a login that follows with the
    same password is answered 200 with the same token, and with another
    password 401 [password does not match]. *)
Theorem signup_then_login `{!Jwt.Laws} (cr : CB.CBRepository)
    (signup login : Request) (user password supplied : string) :
  Method signup = "POST" -> Path signup = "/api/user/signup" ->
  Decode_UserSignupReq (Body signup)
  = Ok {| signup_User := user; signup_Password := password |} ->
  Method login = "POST" -> Path login = "/api/user/login" ->
  Decode_UserLoginReq (Body login)
  = Ok {| login_User := user; login_Password := supplied |} ->
  CB.users cr !! user = None ->
  let first := serve signup cr in
  let second := serve login (db_after first) in
  exists token,
    out first = Returned (Spec.response 200
                            (dataObj (PUserSignup (Spec.token_envelope token)))) /\
    (supplied = password ->
     out second = Returned (Spec.response 200
                              (dataObj (PUserLogin (Spec.token_envelope token))))) /\
    (supplied <> password ->
     out second = Returned (Spec.failure 401 "password does not match")).
Proof.
  intros Hm1 Hp1 Hd1 Hm2 Hp2 Hd2 Hfree first second. subst first second.
  destruct (createJwtToken_total user) as [token Htoken]. exists token.
  rewrite (serve_UserSignup signup _ cr Hm1 Hp1 Hd1). cbn [out db_after].
  cbn [signup_User signup_Password].
  unfold CB.CreateUser, CB.Insert_user. rewrite Hfree.
  cbn [fst snd errors_Is]. rewrite Htoken.
  match goal with
  | |- context [serve login ?cr'] =>
      destruct (serve_UserLogin login _ cr' Hm2 Hp2 Hd2) as [-> _]
  end.
  cbn [login_User login_Password]. unfold Bucket.password_of.
  cbn [CB.users CB.set_users]. rewrite lookup_insert_eq.
  cbn [fmap option_fmap option_map CB.content user_Password]. rewrite Htoken.
  split; [reflexivity|]. split.
  - intros ->. now rewrite String.eqb_refl.
  - intros Hne. apply not_eq_sym, String.eqb_neq in Hne. now rewrite Hne.
Qed.

(** X20. Signing up under a name that is taken is answered 409 [user
    already exists], whatever the password, and the password stored for
    the name stays. *)
Theorem signup_taken (cr : CB.CBRepository) (signup : Request)
    (user password stored : string) :
  Method signup = "POST" -> Path signup = "/api/user/signup" ->
  Decode_UserSignupReq (Body signup)
  = Ok {| signup_User := user; signup_Password := password |} ->
  Bucket.password_of cr user = Some stored ->
  out (serve signup cr) = Returned (Spec.failure 409 "user already exists") /\
  db_after (serve signup cr) = cr.
Proof.
  intros Hm Hp Hd Hstored.
  rewrite (serve_UserSignup signup _ cr Hm Hp Hd). cbn [out db_after].
  cbn [signup_User signup_Password]. unfold Bucket.password_of in Hstored.
  destruct (CB.users cr !! user) as [d|] eqn:Huser; [|discriminate].
  unfold CB.CreateUser, CB.Insert_user. rewrite Huser. split; reflexivity.
Qed.

(** X21. Logging in under a name the bucket does not hold is answered 401
    [user does not exist]: the not-found error comes wrapped by the
    key-value layer and is recognised through the chain. *)
Theorem login_unknown_user (cr : CB.CBRepository) (login : Request)
    (user supplied : string) :
  Method login = "POST" -> Path login = "/api/user/login" ->
  Decode_UserLoginReq (Body login)
  = Ok {| login_User := user; login_Password := supplied |} ->
  CB.users cr !! user = None ->
  out (serve login cr) = Returned (Spec.failure 401 "user does not exist").
Proof.
  intros Hm Hp Hd Hnone.
  destruct (serve_UserLogin login _ cr Hm Hp Hd) as [-> _].
  cbn [login_User]. unfold Bucket.password_of. now rewrite Hnone.
Qed.

(** Dating a flight leaves its price. *)
Lemma booked_prices (cr : CB.CBRepository) (bookedFlights : list jsonBookedFlight) :
  map booked_Price (Bucket.booked cr bookedFlights) = map booked_Price bookedFlights.
Proof.
  unfold Bucket.booked. rewrite map_map. reflexivity.
Qed.

(** X22. Booking through the server, then listing through the server. For
    a user of the bucket authenticated by both requests, with UUIDs drawn
    distinct and new to the user: the booking is answered 200 with the
    flights of the body dated today, and the listing that follows is
    answered 200 with the flights listed before followed by them, whatever
    user names the two paths carry. *)
Theorem book_then_list (cr : CB.CBRepository) (post get : Request)
    (posted listed : string) (authUser : authedUser)
    (reqData : jsonUserBookFlightReq) (flightIDs : list string)
    (before : jsonUserFlightsResp) :
  Method post = "POST" -> Path post = "/api/user/" +:+ posted +:+ "/flights" ->
  Spec.element posted ->
  decodeAuthUserOrFail NewRecorder post = AuthOk authUser ->
  Decode_UserBookFlightReq (Body post) = Ok reqData ->
  Method get = "GET" -> Path get = "/api/user/" +:+ listed +:+ "/flights" ->
  Spec.element listed ->
  decodeAuthUserOrFail NewRecorder get = AuthOk authUser ->
  Bucket.flights_of cr (authed_Name authUser) = Some flightIDs ->
  CB.GetUserFlights (authed_Name authUser) cr = (Ok before, cr) ->
  (length (book_Flights reqData) <= length (CB.random cr))%nat ->
  NoDup (take (length (book_Flights reqData)) (CB.random cr)) ->
  (forall flightID,
     In flightID (take (length (book_Flights reqData)) (CB.random cr)) ->
     ~ In flightID flightIDs) ->
  forallb finite (map booked_Price (Data before ++ book_Flights reqData)) = true ->
  let added := Bucket.booked cr (book_Flights reqData) in
  let first := serve post cr in
  let second := serve get (db_after first) in
  out first
  = Returned (Spec.response 200
                (dataObj (PUserBookFlight
                            {| Data := {| Added := added |}; Context := [] |}))) /\
  out second
  = Returned (Spec.response 200
                (dataObj (PUserFlights
                            {| Data := Data before ++ added; Context := [] |}))).
Proof.
  intros Hm1 Hp1 He1 Ha1 Hd1 Hm2 Hp2 He2 Ha2 Hids Hbefore Hlen Hnodup Hfresh
    Hfinite added first second. subst added first second.
  destruct (booking_then_listing _ _ cr flightIDs before
              Hids Hbefore Hlen Hnodup Hfresh) as (cr' & Hbook & Hlist).
  rewrite map_app, forallb_app in Hfinite.
  apply andb_true_iff in Hfinite as [Hold Hnew].
  rewrite (ServeHTTP_UserBookFlight _ _ post posted) by assumption.
  rewrite Ha1, Hd1, run_Invoke.
  cbn [Repo.answer couchbase CB.CBRepository_answer]. rewrite Hbook.
  cbn [fst snd run out db_after].
  rewrite (ServeHTTP_UserFlights _ _ get listed) by assumption.
  rewrite Ha2, run_Invoke.
  cbn [Repo.answer couchbase CB.CBRepository_answer]. rewrite Hlist.
  cbn [fst snd run out]. unfold encodeRespOrFail, Encode. cbn [floats Data Added].
  rewrite booked_prices, (find_not_finite _ Hnew).
  rewrite map_app, booked_prices, find_not_finite; [split; reflexivity|].
  rewrite forallb_app. now rewrite Hold, Hnew.
Qed.
End OnCouchbase.

(** ** The price of a flight *)

Section FlightPrices.
Import Json Flights.

(** The prices of all flight times up to 8000 minutes, computed. *)
Lemma all_priced_well :
  forallb (fun minutes => priced_well (Z.of_nat minutes)) (seq 0 (Z.to_nat 8001))
  = true.
Proof. vm_compute. reflexivity. Qed.

(** X23. The price of a flight. A flight time drawn as
    [int(math.Ceil(rand.Float64() * 8000))] lies between 0 and 8000
    minutes. For each of these the price is a finite float, hence one JSON
    can carry; it is the flight time at 12.5 cents a minute rounded up to
    a whole cent; it is never below an eighth of the flight time and never
    above 1000. *)
Theorem Price_in_cents (FlightTime : Z) :
  0 <= FlightTime <= 8000 ->
  finite (Price FlightTime) = true /\
  PrimFloat.eqb (Price FlightTime)
                (Math.float64_of_int (cents FlightTime) / 100)%float = true /\
  PrimFloat.leb (Math.float64_of_int FlightTime / 8)%float (Price FlightTime)
  = true /\
  PrimFloat.leb (Price FlightTime) 1000%float = true.
Proof.
  intros Hrange. pose proof all_priced_well as Hall.
  rewrite forallb_forall in Hall.
  specialize (Hall (Z.to_nat FlightTime)).
  rewrite Z2Nat.id in Hall by lia.
  assert (Hin : In (Z.to_nat FlightTime) (seq 0 (Z.to_nat 8001)))
    by (apply in_seq; lia).
  apply Hall in Hin. unfold priced_well in Hin.
  repeat (apply andb_true_iff in Hin as [Hin ?]). auto.
Qed.

End FlightPrices.

(** ** The further properties at concrete requests *)

Section MoreInstances.
Import Http Json Server Ref.

#[local] Existing Instance Ref_jwt_laws.

(** The airport search of the test [200 - ok]. *)
Lemma AirportSearch_responses_witness :
  serve (airports (Ok validAirports))
    (query (request "GET" "/api/airports" ∅ "") {[ "search" := "SFO" ]})
  = (Some (200, [dataObj (PAirportSearch validAirports)]),
     [Repo.GetAirports "SFO"]).
Proof.
  unfold serve.
  destruct (AirportSearch_responses FileServer (airports (Ok validAirports))
              (query (request "GET" "/api/airports" ∅ "") {[ "search" := "SFO" ]}))
    as (Hcalls & _ & Hok).
  - reflexivity.
  - reflexivity.
  - unfold ServeHTTP. rewrite Hcalls, (Hok validAirports) by reflexivity.
    reflexivity.
Defined.

(** A hotel search by description alone. *)
Lemma HotelSearch_responses_witness :
  serve (hotels (Ok validHotels)) (request "GET" "/api/hotel/star/" ∅ "")
  = (Some (200, [dataObj (PHotelSearch validHotels)]),
     [Repo.GetHotels "star" ""]).
Proof.
  unfold serve.
  destruct (HotelSearch_responses FileServer (hotels (Ok validHotels))
              (request "GET" "/api/hotel/star/" ∅ "") "star" "")
    as (Hcalls & _ & Hok).
  - reflexivity.
  - repeat split; (discriminate || reflexivity).
  - left. split; reflexivity.
  - unfold ServeHTTP. rewrite Hcalls, (Hok validHotels) by reflexivity.
    reflexivity.
Defined.

(** The listing of the test [200 - ok]. *)
Lemma UserFlights_responses_witness :
  serve (user_flights (Ok validUserFlights)) Sample.list_flights
  = (Some (200, [dataObj (PUserFlights validUserFlights)]),
     [Repo.GetUserFlights "test_user"]).
Proof.
  unfold serve.
  destruct (UserFlights_responses FileServer (user_flights (Ok validUserFlights))
              Sample.list_flights "test_user" {| authed_Name := "test_user" |})
    as (Hcalls & _ & Hok).
  - reflexivity.
  - reflexivity.
  - repeat split; (discriminate || reflexivity).
  - vm_compute. reflexivity.
  - unfold ServeHTTP. rewrite Hcalls, (Hok validUserFlights) by reflexivity.
    reflexivity.
Defined.

(** The booking of the test [200 - ok]. *)
Lemma UserBookFlight_responses_witness :
  serve (updating (Ok validBooking)) Sample.book_flight
  = (Some (200, [dataObj (PUserBookFlight validBooking)]),
     [Repo.UpdateUserFlights "test_user" bookedFlights]).
Proof.
  unfold serve.
  destruct (UserBookFlight_responses FileServer (updating (Ok validBooking))
              Sample.book_flight "test_user" {| authed_Name := "test_user" |})
    as (_ & Hdecoded).
  - reflexivity.
  - reflexivity.
  - repeat split; (discriminate || reflexivity).
  - vm_compute. reflexivity.
  - destruct (Hdecoded {| book_Flights := bookedFlights |} validBooking)
      as (Hcalls & Hout).
    + vm_compute. reflexivity.
    + reflexivity.
    + vm_compute. reflexivity.
    + unfold ServeHTTP. rewrite Hcalls, Hout. reflexivity.
Defined.

(** An airport search against the mock that fails. *)
Lemma endpoints_one_document_witness :
  Spec.one_document
    (out (run (ServeHTTP NewRecorder (request "GET" "/api/airports" ∅ "")) failing)).
Proof.
  apply (endpoints_one_document FileServer failing
           (request "GET" "/api/airports" ∅ "") Mux.AirportSearch).
  exact Spec.airports.
Defined.

(** The panic of the bare word [Bearer]. *)
Lemma panics_only_in_authentication_witness :
  (exists vars,
     Mux.Router_Match setupRoutes Sample.bare_Bearer
     = Some (Mux.UserFlights, vars) \/
     Mux.Router_Match setupRoutes Sample.bare_Bearer
     = Some (Mux.UserBookFlight, vars)) /\
  Spec.auth_header Sample.bare_Bearer = "Bearer".
Proof.
  destruct (panics_only_in_authentication FileServer failing NewRecorder
              Sample.bare_Bearer
              "runtime error: index out of range [1] with length 1")
    as [Hroute _].
  - vm_compute. reflexivity.
  - split; [exact Hroute | reflexivity].
Defined.

(** The token of [test_user] on the path [/api/user/../flights]. *)
Lemma dot_elements_redirected_witness :
  serve (user_flights (Ok validUserFlights)) Sample.dot_dot = (Some (301, []), []).
Proof.
  unfold serve, ServeHTTP.
  rewrite (dot_elements_redirected FileServer (user_flights (Ok validUserFlights))
             NewRecorder Sample.dot_dot "..").
  - reflexivity.
  - vm_compute. tauto.
  - right. reflexivity.
Defined.

(** A bad token in [Authorization] is not made up for. *)
Lemma Authorization_first_witness :
  decodeAuthUserOrFail NewRecorder Sample.two_tokens
  = decodeAuthUserOrFail NewRecorder Sample.bad_token.
Proof.
  apply (Authorization_first NewRecorder Sample.two_tokens Sample.bad_token).
  - vm_compute. reflexivity.
  - vm_compute. reflexivity.
Defined.

(** The request of the test [400 - bad auth] carries the token issued for
    the empty user name. *)
Lemma empty_user_token_refused_witness :
  createJwtToken "" = Ok invalidJwtToken /\
  serve failing Sample.empty_user = (Some (400, [failObj "invalid auth token"]), []).
Proof.
  destruct (empty_user_token_refused FileServer failing Sample.empty_user "boom")
    as (authToken & Hissued & Hrefused).
  - left. reflexivity.
  - reflexivity.
  - repeat split; (discriminate || reflexivity).
  - vm_compute in Hissued. injection Hissued as <-.
    split; [reflexivity|]. destruct Hrefused as [Hcalls Hout].
    + vm_compute. reflexivity.
    + unfold serve, ServeHTTP. rewrite Hcalls, Hout. reflexivity.
Defined.

(** Signing [test_user] up in the empty bucket. *)
Lemma CreateUser_then_GetUserPassword_witness :
  CB.GetUserPassword "test_user" Sample.signed_up = (Ok "test_passw", Sample.signed_up).
Proof.
  destruct (CreateUser_then_GetUserPassword "test_user" "test_passw" empty_bucket)
    as (cr' & Hcreated & Hpassword & _).
  - vm_compute. reflexivity.
  - unfold Sample.signed_up. rewrite Hcreated. exact Hpassword.
Defined.

(** Signing [test_user] up again. *)
Lemma CreateUser_taken_witness :
  errors_Is (CB.CreateUser "test_user" "another" Sample.signed_up).1 ErrDocumentExists
  = true.
Proof.
  edestruct (CreateUser_taken "test_user" "another" Sample.signed_up)
    as (err & Hcreated & Hexists & _).
  - vm_compute. reflexivity.
  - rewrite Hcreated. exact Hexists.
Defined.

(** The booking of the tests for [test_user]. *)
Lemma UpdateUserFlights_books_witness :
  (CB.UpdateUserFlights "test_user" bookedFlights Sample.signed_up).1
  = Ok {| Data := {| Added := Bucket.booked Sample.signed_up bookedFlights |};
          Context := [] |}.
Proof.
  edestruct (UpdateUserFlights_books "test_user" bookedFlights Sample.signed_up)
    as (cr' & Hbooked & _).
  - vm_compute. reflexivity.
  - vm_compute. lia.
  - vm_compute. reflexivity.
  - rewrite Hbooked. reflexivity.
Defined.


(** Two flights and one UUID. *)
Lemma UpdateUserFlights_source_fails_witness :
  exists err cr',
    CB.UpdateUserFlights "test_user" (bookedFlights ++ bookedFlights)
      Sample.running_dry = (Err err, cr') /\
    Bucket.flights_of cr' "test_user" = Some [] /\
    is_Some (CB.flights cr' !! "uuid-1").
Proof.
  edestruct (UpdateUserFlights_source_fails "test_user"
               (bookedFlights ++ bookedFlights) Sample.running_dry)
    as (err & cr' & Hfailed & Hlisted & Hheld).
  - vm_compute. reflexivity.
  - vm_compute. lia.
  - vm_compute. reflexivity.
  - exists err, cr'. split; [exact Hfailed|]. split.
    + rewrite Hlisted. reflexivity.
    + apply Hheld. left. reflexivity.
Defined.

(** The first booking of [test_user]. *)
Lemma UpdateUserFlights_then_GetUserFlights_witness :
  exists added cr',
    CB.UpdateUserFlights "test_user" bookedFlights Sample.signed_up = (Ok added, cr') /\
    CB.GetUserFlights "test_user" cr'
    = (Ok {| Data := Bucket.booked Sample.signed_up bookedFlights; Context := [] |},
       cr').
Proof.
  exact (UpdateUserFlights_then_GetUserFlights "test_user" bookedFlights
           Sample.signed_up [] {| Data := []; Context := [] |}
           ltac:(vm_compute; reflexivity) ltac:(vm_compute; reflexivity)
           ltac:(vm_compute; lia)
           ltac:(apply (bool_decide_unpack _); vm_compute; reflexivity)
           ltac:(intros flightID _ []) ltac:(vm_compute; reflexivity)).
Defined.

(** The bucket after the booking of the tests, directly: one user, who
    lists one flight, which the collection holds. *)
Lemma booked_once_consistent :
  Bucket.consistent Sample.booked_once.
Proof.
  assert (Husers : CB.users Sample.booked_once
                   = <["test_user" := Sample.test_user_document]>
                       (CB.users Sample.signed_up))
    by (vm_compute; reflexivity).
  assert (Hsigned : forall key,
             key <> "test_user" -> CB.users Sample.signed_up !! key = None).
  { intros key Hne. unfold Sample.signed_up, CB.CreateUser, CB.Insert_user.
    change (CB.users empty_bucket) with (∅ : gmap string (CB.document jsonUser)).
    rewrite lookup_empty. cbn [snd CB.users CB.set_users].
    rewrite lookup_insert_ne by congruence. apply lookup_empty. }
  assert (Hflight : CB.flights Sample.booked_once !! "uuid-1"
                    = Some Sample.flight_document)
    by (vm_compute; reflexivity).
  assert (Hlookup : forall key d,
             CB.users Sample.booked_once !! key = Some d ->
             key = "test_user" /\ d = Sample.test_user_document).
  { intros key d. rewrite Husers.
    destruct (decide (key = "test_user")) as [->|Hne].
    - rewrite lookup_insert_eq. now intros [= <-].
    - rewrite lookup_insert_ne, Hsigned by congruence. discriminate. }
  split.
  - intros key d Hkey. destruct (Hlookup key d Hkey) as [-> ->]. reflexivity.
  - intros key d flightID Hkey. destruct (Hlookup key d Hkey) as [_ ->].
    intros [<-|[]]. rewrite Hflight. eauto.
Qed.

(** A second booking of [test_user], who lists a flight already. *)
Lemma repository_keeps_consistent_witness :
  Bucket.consistent
    (CB.UpdateUserFlights "test_user" bookedFlights Sample.booked_once).2.
Proof.
  apply (repository_keeps_consistent
           (fun _ => Ok {| Data := []; Context := [] |})
           (fun _ _ _ => Ok {| Data := []; Context := [] |})
           (fun _ _ => Ok {| Data := []; Context := [] |})
           (Repo.UpdateUserFlights "test_user" bookedFlights) Sample.booked_once).
  exact booked_once_consistent.
Defined.

(** The listing of [test_user] after the booking of the tests: the one
    flight booked, dated. *)
Lemma GetUserFlights_consistent_witness :
  exists respData,
    CB.GetUserFlights "test_user" Sample.booked_once
    = (Ok respData, Sample.booked_once) /\
    Data respData = [CB.content Sample.flight_document].
Proof.
  destruct (GetUserFlights_consistent "test_user" Sample.booked_once ["uuid-1"])
    as (respData & Hlisted & _ & _ & Hflights).
  - exact booked_once_consistent.
  - vm_compute. reflexivity.
  - exists respData. split; [exact Hlisted|].
    inversion Hflights as [|? flight ? found Hflight Hrest]; subst.
    inversion Hrest; subst.
    vm_compute in Hflight. now injection Hflight as <-.
Defined.

(** Signing [test_user] up and logging in with the password of the
    signup. *)
Lemma signup_then_login_witness :
  exists token,
    out (run (ServeHTTP NewRecorder Sample.signup) empty_bucket)
    = Returned (Spec.response 200 (dataObj (PUserSignup (Spec.token_envelope token)))) /\
    out (run (ServeHTTP NewRecorder Sample.login)
           (db_after (run (ServeHTTP NewRecorder Sample.signup) empty_bucket)))
    = Returned (Spec.response 200 (dataObj (PUserLogin (Spec.token_envelope token)))).
Proof.
  destruct (signup_then_login FileServer
              (fun _ => Ok {| Data := []; Context := [] |})
              (fun _ _ _ => Ok {| Data := []; Context := [] |})
              (fun _ _ => Ok {| Data := []; Context := [] |})
              empty_bucket Sample.signup Sample.login
              "test_user" "test_passw" "test_passw")
    as (token & Hsignup & Hlogin & _).
  - reflexivity.
  - reflexivity.
  - vm_compute. reflexivity.
  - reflexivity.
  - reflexivity.
  - vm_compute. reflexivity.
  - vm_compute. reflexivity.
  - exists token. split; [exact Hsignup | exact (Hlogin eq_refl)].
Defined.

(** Signing up under the name of [test_user] once more. *)
Lemma signup_taken_witness :
  out (run (ServeHTTP NewRecorder Sample.signup) Sample.signed_up)
  = Returned (Spec.failure 409 "user already exists").
Proof.
  refine (proj1 (signup_taken FileServer
                   (fun _ => Ok {| Data := []; Context := [] |})
                   (fun _ _ _ => Ok {| Data := []; Context := [] |})
                   (fun _ _ => Ok {| Data := []; Context := [] |})
                   Sample.signed_up Sample.signup
                   "test_user" "test_passw" "test_passw" _ _ _ _)).
  - reflexivity.
  - reflexivity.
  - vm_compute. reflexivity.
  - vm_compute. reflexivity.
Defined.

(** Logging in to the empty bucket. *)
Lemma login_unknown_user_witness :
  out (run (ServeHTTP NewRecorder Sample.login) empty_bucket)
  = Returned (Spec.failure 401 "user does not exist").
Proof.
  refine (login_unknown_user FileServer
            (fun _ => Ok {| Data := []; Context := [] |})
            (fun _ _ _ => Ok {| Data := []; Context := [] |})
            (fun _ _ => Ok {| Data := []; Context := [] |})
            empty_bucket Sample.login "test_user" "test_passw" _ _ _ _).
  - reflexivity.
  - reflexivity.
  - vm_compute. reflexivity.
  - vm_compute. reflexivity.
Defined.

(** The first booking of [test_user], and the listing after it. *)
Lemma book_then_list_witness :
  out (run (ServeHTTP NewRecorder Sample.list_flights)
         (db_after (run (ServeHTTP NewRecorder Sample.book_flight) Sample.signed_up)))
  = Returned
      (Spec.response 200
         (dataObj (PUserFlights
                     {| Data := Bucket.booked Sample.signed_up bookedFlights;
                        Context := [] |}))).
Proof.
  refine (proj2 (book_then_list FileServer
                   (fun _ => Ok {| Data := []; Context := [] |})
                   (fun _ _ _ => Ok {| Data := []; Context := [] |})
                   (fun _ _ => Ok {| Data := []; Context := [] |})
                   Sample.signed_up Sample.book_flight Sample.list_flights
                   "test_user" "test_user" {| authed_Name := "test_user" |}
                   {| book_Flights := bookedFlights |} []
                   {| Data := []; Context := [] |}
                   _ _ _ _ _ _ _ _ _ _ _ _ _ _ _)).
  - reflexivity.
  - reflexivity.
  - repeat split; (discriminate || reflexivity).
  - vm_compute. reflexivity.
  - vm_compute. reflexivity.
  - reflexivity.
  - reflexivity.
  - repeat split; (discriminate || reflexivity).
  - vm_compute. reflexivity.
  - vm_compute. reflexivity.
  - vm_compute. reflexivity.
  - vm_compute. lia.
  - apply (bool_decide_unpack _). vm_compute. reflexivity.
  - intros flightID _ [].
  - vm_compute. reflexivity.
Defined.

(** A flight of 4321 minutes costs 54013 cents. *)
Lemma Price_in_cents_witness :
  PrimFloat.eqb (Flights.Price 4321) (Math.float64_of_int 54013 / 100)%float = true.
Proof.
  destruct (Price_in_cents 4321) as (_ & Hcents & _).
  - lia.
  - exact Hcents.
Defined.

End MoreInstances.
